(** * USB Type-C Port Manager test device (tcpmtest): a shallow embedding

    The development follows [drivers/usb/typec/tcpmtest.c] (the
    work-queue driven simulator) and, for the comparison of the two
    historical variants, the older kthread based file of the same driver.
    The two versions of [include/linux/usb/pd_vdo_dp.h] and the TI
    HD3SS460 mux driver that come with the simulator are embedded as
    well.

    Integers of the C code are modelled as [Z] with the wrap-around and
    the bit operations written out.  C arrays of fixed size are functions
    [Z -> Z] together with their size; an access outside the size is a
    memory fault and is modelled as [None].  Every call the driver makes
    into the Port Manager (tcpm) or into the work queue is appended to the
    [calls] log of the simulator state, in program order. *)

From Stdlib Require Import ZArith List Bool String Ascii Lia.
Import ListNotations.
Open Scope Z_scope.

(** ** Kernel headers used by the driver *)

Module Typec.

(** Modelled from the spec: [linux/usb/typec.h] and [tcpm.h] are not part
    of the sources at hand; the enumerations below list the constants the
    driver names, in the order of the kernel headers of that time (the
    zero-initialised device state depends on which constant comes
    first). *)
Inductive typec_cc_status :=
| TYPEC_CC_OPEN | TYPEC_CC_RA | TYPEC_CC_RD
| TYPEC_CC_RP_DEF | TYPEC_CC_RP_1_5 | TYPEC_CC_RP_3_0.

Inductive typec_cc_polarity := TYPEC_POLARITY_CC1 | TYPEC_POLARITY_CC2.
Inductive typec_data_role := TYPEC_DEVICE | TYPEC_HOST.
Inductive typec_role := TYPEC_SINK | TYPEC_SOURCE.

Inductive tcpm_transmit_type :=
| TCPC_TX_SOP | TCPC_TX_SOP_PRIME | TCPC_TX_SOP_PRIME_PRIME
| TCPC_TX_SOP_DEBUG_PRIME | TCPC_TX_SOP_DEBUG_PRIME_PRIME
| TCPC_TX_HARD_RESET | TCPC_TX_CABLE_RESET | TCPC_TX_BIST_MODE_2.

Inductive tcpm_transmit_status :=
| TCPC_TX_SUCCESS | TCPC_TX_DISCARDED | TCPC_TX_FAILED.

(** Numeric value of a transmit type, for the [>] test of the logger. *)
Definition tx_type_val (t : tcpm_transmit_type) : Z :=
  match t with
  | TCPC_TX_SOP => 0 | TCPC_TX_SOP_PRIME => 1 | TCPC_TX_SOP_PRIME_PRIME => 2
  | TCPC_TX_SOP_DEBUG_PRIME => 3 | TCPC_TX_SOP_DEBUG_PRIME_PRIME => 4
  | TCPC_TX_HARD_RESET => 5 | TCPC_TX_CABLE_RESET => 6
  | TCPC_TX_BIST_MODE_2 => 7
  end.

Definition tx_type_eqb (a b : tcpm_transmit_type) : bool :=
  tx_type_val a =? tx_type_val b.

Definition typec_role_eqb (a b : typec_role) : bool :=
  match a, b with
  | TYPEC_SINK, TYPEC_SINK | TYPEC_SOURCE, TYPEC_SOURCE => true
  | _, _ => false
  end.

Definition typec_data_role_eqb (a b : typec_data_role) : bool :=
  match a, b with
  | TYPEC_DEVICE, TYPEC_DEVICE | TYPEC_HOST, TYPEC_HOST => true
  | _, _ => false
  end.

End Typec.
Export Typec.

Module Pd.

(** Modelled from the spec: [linux/usb/pd.h] is not part of the sources
    at hand.  The constants and macros below are the ones the driver
    uses, with the field layout of a PD 2.0 message header (4-bit type,
    3-bit message ID, 3-bit object count) and of the fixed-supply PDO and
    RDO.  The literal [0x26019096] that the driver's configuration table
    quotes for one of its PDOs is reproduced by these definitions (see
    [PDO_FIXED_literal]). *)
Definition BIT (n : Z) : Z := Z.shiftl 1 n.

(** Control message types. *)
Inductive pd_ctrl_msg_type :=
| PD_CTRL_GOOD_CRC | PD_CTRL_GOTO_MIN | PD_CTRL_ACCEPT | PD_CTRL_REJECT
| PD_CTRL_PING | PD_CTRL_PS_RDY | PD_CTRL_GET_SOURCE_CAP
| PD_CTRL_GET_SINK_CAP | PD_CTRL_DR_SWAP | PD_CTRL_PR_SWAP
| PD_CTRL_VCONN_SWAP | PD_CTRL_WAIT | PD_CTRL_SOFT_RESET.

Definition ctrl_val (t : pd_ctrl_msg_type) : Z :=
  match t with
  | PD_CTRL_GOOD_CRC => 1 | PD_CTRL_GOTO_MIN => 2 | PD_CTRL_ACCEPT => 3
  | PD_CTRL_REJECT => 4 | PD_CTRL_PING => 5 | PD_CTRL_PS_RDY => 6
  | PD_CTRL_GET_SOURCE_CAP => 7 | PD_CTRL_GET_SINK_CAP => 8
  | PD_CTRL_DR_SWAP => 9 | PD_CTRL_PR_SWAP => 10
  | PD_CTRL_VCONN_SWAP => 11 | PD_CTRL_WAIT => 12
  | PD_CTRL_SOFT_RESET => 13
  end.

(** The [case] label a control-message [switch] selects; [None] is the
    [default] label (reserved type values). *)
Definition ctrl_of (t : Z) : option pd_ctrl_msg_type :=
  match t with
  | 1 => Some PD_CTRL_GOOD_CRC | 2 => Some PD_CTRL_GOTO_MIN
  | 3 => Some PD_CTRL_ACCEPT | 4 => Some PD_CTRL_REJECT
  | 5 => Some PD_CTRL_PING | 6 => Some PD_CTRL_PS_RDY
  | 7 => Some PD_CTRL_GET_SOURCE_CAP | 8 => Some PD_CTRL_GET_SINK_CAP
  | 9 => Some PD_CTRL_DR_SWAP | 10 => Some PD_CTRL_PR_SWAP
  | 11 => Some PD_CTRL_VCONN_SWAP | 12 => Some PD_CTRL_WAIT
  | 13 => Some PD_CTRL_SOFT_RESET
  | _ => None
  end.

(** Data message types. *)
Inductive pd_data_msg_type :=
| PD_DATA_SOURCE_CAP | PD_DATA_REQUEST | PD_DATA_BIST | PD_DATA_SINK_CAP
| PD_DATA_VENDOR_DEF.

Definition data_val (t : pd_data_msg_type) : Z :=
  match t with
  | PD_DATA_SOURCE_CAP => 1 | PD_DATA_REQUEST => 2 | PD_DATA_BIST => 3
  | PD_DATA_SINK_CAP => 4 | PD_DATA_VENDOR_DEF => 15
  end.

Definition data_of (t : Z) : option pd_data_msg_type :=
  match t with
  | 1 => Some PD_DATA_SOURCE_CAP | 2 => Some PD_DATA_REQUEST
  | 3 => Some PD_DATA_BIST | 4 => Some PD_DATA_SINK_CAP
  | 15 => Some PD_DATA_VENDOR_DEF
  | _ => None
  end.

Definition PD_REV20 : Z := 1.

Definition PD_HEADER_CNT_SHIFT : Z := 12.
Definition PD_HEADER_CNT_MASK : Z := 0x7.
Definition PD_HEADER_ID_SHIFT : Z := 9.
Definition PD_HEADER_ID_MASK : Z := 0x7.
Definition PD_HEADER_PWR_ROLE : Z := BIT 8.
Definition PD_HEADER_REV_SHIFT : Z := 6.
Definition PD_HEADER_REV_MASK : Z := 0x3.
Definition PD_HEADER_DATA_ROLE : Z := BIT 5.
Definition PD_HEADER_TYPE_SHIFT : Z := 0.
Definition PD_HEADER_TYPE_MASK : Z := 0xf.

Definition PD_HEADER (type : Z) (pwr : typec_role) (data : typec_data_role)
    (id cnt : Z) : Z :=
  Z.lor (Z.shiftl (Z.land type PD_HEADER_TYPE_MASK) PD_HEADER_TYPE_SHIFT)
 (Z.lor (if typec_role_eqb pwr TYPEC_SOURCE then PD_HEADER_PWR_ROLE else 0)
 (Z.lor (if typec_data_role_eqb data TYPEC_HOST
         then PD_HEADER_DATA_ROLE else 0)
 (Z.lor (Z.shiftl PD_REV20 PD_HEADER_REV_SHIFT)
 (Z.lor (Z.shiftl (Z.land id PD_HEADER_ID_MASK) PD_HEADER_ID_SHIFT)
        (Z.shiftl (Z.land cnt PD_HEADER_CNT_MASK) PD_HEADER_CNT_SHIFT))))).

(** [cpu_to_le16] and [le16_to_cpu] convert representations, not values;
    on the value level a header is the 16-bit number itself. *)
Definition PD_HEADER_LE := PD_HEADER.

Definition pd_header_cnt (header : Z) : Z :=
  Z.land (Z.shiftr header PD_HEADER_CNT_SHIFT) PD_HEADER_CNT_MASK.

Definition pd_header_type (header : Z) : Z :=
  Z.land (Z.shiftr header PD_HEADER_TYPE_SHIFT) PD_HEADER_TYPE_MASK.

(** The message-ID field, as the logger extracts it. *)
Definition pd_header_id (header : Z) : Z :=
  Z.land (Z.shiftr header PD_HEADER_ID_SHIFT) PD_HEADER_ID_MASK.

Definition pd_header_rev (header : Z) : Z :=
  Z.land (Z.shiftr header PD_HEADER_REV_SHIFT) PD_HEADER_REV_MASK.

Definition PD_MAX_PAYLOAD : Z := 7.

(** [struct pd_message]: the header and [PD_MAX_PAYLOAD] data objects. *)
Record pd_message := mk_pd_message {
  header : Z;
  payload : Z -> Z
}.

Definition PDO_MAX_OBJECTS : Z := 7.

Definition PDO_TYPE_FIXED : Z := 0.
Definition PDO_TYPE_BATT : Z := 1.
Definition PDO_TYPE_VAR : Z := 2.

Definition PDO_TYPE_SHIFT : Z := 30.
Definition PDO_TYPE_MASK : Z := 0x3.
Definition PDO_TYPE (t : Z) : Z := Z.shiftl t PDO_TYPE_SHIFT.

Definition PDO_VOLT_MASK : Z := 0x3ff.
Definition PDO_CURR_MASK : Z := 0x3ff.

Definition PDO_FIXED_DUAL_ROLE : Z := BIT 29.
Definition PDO_FIXED_SUSPEND : Z := BIT 28.
Definition PDO_FIXED_EXTPOWER : Z := BIT 27.
Definition PDO_FIXED_USB_COMM : Z := BIT 26.
Definition PDO_FIXED_DATA_SWAP : Z := BIT 25.
Definition PDO_FIXED_VOLT_SHIFT : Z := 10.
Definition PDO_FIXED_CURR_SHIFT : Z := 0.

Definition PDO_FIXED_VOLT (mv : Z) : Z :=
  Z.shiftl (Z.land (mv / 50) PDO_VOLT_MASK) PDO_FIXED_VOLT_SHIFT.
Definition PDO_FIXED_CURR (ma : Z) : Z :=
  Z.shiftl (Z.land (ma / 10) PDO_CURR_MASK) PDO_FIXED_CURR_SHIFT.

Definition PDO_FIXED (mv ma flags : Z) : Z :=
  Z.lor (PDO_TYPE PDO_TYPE_FIXED)
 (Z.lor flags (Z.lor (PDO_FIXED_VOLT mv) (PDO_FIXED_CURR ma))).

Definition pdo_type (pdo : Z) : Z :=
  Z.land (Z.shiftr pdo PDO_TYPE_SHIFT) PDO_TYPE_MASK.

Definition RDO_OBJ_POS_SHIFT : Z := 28.
Definition RDO_OBJ_POS_MASK : Z := 0x7.
Definition RDO_GIVE_BACK : Z := BIT 27.
Definition RDO_CAP_MISMATCH : Z := BIT 26.
Definition RDO_USB_COMM : Z := BIT 25.
Definition RDO_NO_SUSPEND : Z := BIT 24.
Definition RDO_CURR_MASK : Z := 0x3ff.
Definition RDO_FIXED_OP_CURR_SHIFT : Z := 10.
Definition RDO_FIXED_MAX_CURR_SHIFT : Z := 0.

Definition RDO_OBJ (idx : Z) : Z :=
  Z.shiftl (Z.land idx RDO_OBJ_POS_MASK) RDO_OBJ_POS_SHIFT.
Definition PDO_FIXED_OP_CURR (ma : Z) : Z :=
  Z.shiftl (Z.land (ma / 10) RDO_CURR_MASK) RDO_FIXED_OP_CURR_SHIFT.
Definition PDO_FIXED_MAX_CURR (ma : Z) : Z :=
  Z.shiftl (Z.land (ma / 10) RDO_CURR_MASK) RDO_FIXED_MAX_CURR_SHIFT.

Definition RDO_FIXED (idx op_ma max_ma flags : Z) : Z :=
  Z.lor (RDO_OBJ idx)
 (Z.lor flags (Z.lor (PDO_FIXED_OP_CURR op_ma) (PDO_FIXED_MAX_CURR max_ma))).

Definition rdo_index (rdo : Z) : Z :=
  Z.land (Z.shiftr rdo RDO_OBJ_POS_SHIFT) RDO_OBJ_POS_MASK.
Definition rdo_op_current (rdo : Z) : Z :=
  Z.land (Z.shiftr rdo RDO_FIXED_OP_CURR_SHIFT) RDO_CURR_MASK * 10.
Definition rdo_max_current (rdo : Z) : Z :=
  Z.land (Z.shiftr rdo RDO_FIXED_MAX_CURR_SHIFT) RDO_CURR_MASK * 10.

(** Wrap-around of [unsigned int] arithmetic. *)
Definition UINT_MOD : Z := 2 ^ 32.
Definition u32 (x : Z) : Z := x mod UINT_MOD.

End Pd.
Export Pd.

Arguments PD_HEADER : simpl never.
Arguments pd_header_cnt : simpl never.
Arguments pd_header_type : simpl never.
Arguments pd_header_id : simpl never.
Arguments pd_header_rev : simpl never.
Arguments pdo_type : simpl never.
Arguments rdo_index : simpl never.
Arguments rdo_op_current : simpl never.
Arguments rdo_max_current : simpl never.
Arguments u32 : simpl never.

Module Vdo.

(** Modelled from the spec: [linux/usb/pd_vdo.h] is not part of the
    sources at hand.  The structured-VDM header fields (SVID in bits
    31..16, the structured bit 15, command type in bits 7..6, command in
    bits 4..0) and the identity VDOs follow the kernel header; [VDO_STR]
    is this driver's own constructor of a structured VDM header from its
    fields. *)
Definition VDO_SVDM_TYPE : Z := Z.shiftl 1 15.
Definition VDO_SVDM_VERS (x : Z) : Z := Z.shiftl x 13.
Definition VDO_OPOS (x : Z) : Z := Z.shiftl x 8.
Definition VDO_CMDT (x : Z) : Z := Z.shiftl x 6.

Definition CMDT_INIT : Z := 0.
Definition CMDT_RSP_ACK : Z := 1.
Definition CMDT_RSP_NAK : Z := 2.
Definition CMDT_RSP_BUSY : Z := 3.

Definition CMD_DISCOVER_IDENT : Z := 1.
Definition CMD_DISCOVER_SVID : Z := 2.
Definition CMD_DISCOVER_MODES : Z := 3.
Definition CMD_ENTER_MODE : Z := 4.
Definition CMD_EXIT_MODE : Z := 5.
Definition CMD_ATTENTION : Z := 6.

Definition PD_VDO_VID (vdo : Z) : Z := Z.shiftr vdo 16.
Definition PD_VDO_CMD (vdo : Z) : Z := Z.land vdo 0x1f.
Definition PD_VDO_CMDT (vdo : Z) : Z := Z.land (Z.shiftr vdo 6) 0x3.

Definition VDO_STR (svid ver opos cmdt cmd : Z) : Z :=
  Z.lor (Z.shiftl svid 16)
 (Z.lor VDO_SVDM_TYPE
 (Z.lor (VDO_SVDM_VERS ver)
 (Z.lor (VDO_OPOS opos) (Z.lor (VDO_CMDT cmdt) cmd)))).

Definition VDO_INDEX_HDR : Z := 0.
Definition VDO_INDEX_IDH : Z := 1.
Definition VDO_INDEX_CSTAT : Z := 2.
Definition VDO_INDEX_PRODUCT : Z := 3.
Definition VDO_INDEX_AMA : Z := 4.

Definition IDH_PTYPE_AMA : Z := 5.
Definition AMA_VCONN_PWR_1W5 : Z := 1.
Definition AMA_USBSS_BBONLY : Z := 3.

Definition VDO_IDH (usbh usbd ptype is_modal vid : Z) : Z :=
  Z.lor (Z.shiftl usbh 31)
 (Z.lor (Z.shiftl usbd 30)
 (Z.lor (Z.shiftl (Z.land ptype 0x7) 27)
 (Z.lor (Z.shiftl is_modal 26) (Z.land vid 0xffff)))).

Definition VDO_PRODUCT (pid bcd : Z) : Z :=
  Z.lor (Z.shiftl (Z.land pid 0xffff) 16) (Z.land bcd 0xffff).

Definition VDO_AMA (hw fw tx1d tx2d rx1d rx2d vcpwr vcr vbr usbss : Z) : Z :=
  Z.lor (Z.shiftl (Z.land hw 0x7) 28)
 (Z.lor (Z.shiftl (Z.land fw 0x7) 24)
 (Z.lor (Z.shiftl tx1d 11)
 (Z.lor (Z.shiftl tx2d 10)
 (Z.lor (Z.shiftl rx1d 9)
 (Z.lor (Z.shiftl rx2d 8)
 (Z.lor (Z.shiftl (Z.land vcpwr 0x7) 5)
 (Z.lor (Z.shiftl vcr 4)
 (Z.lor (Z.shiftl vbr 3) (Z.land usbss 0x7))))))))).

Definition VDO_SVID (svid0 svid1 : Z) : Z :=
  Z.lor (Z.shiftl (Z.land svid0 0xffff) 16) (Z.land svid1 0xffff).

(** [include/linux/usb/pd_vdo_dp.h], in its two versions. *)
Definition USB_SID_PD : Z := 0xff00.
Definition USB_SID_DISPLAYPORT : Z := 0xff01.

Definition VDO_MODE_DP (snkp srcp usb gdr sign sdir : Z) : Z :=
  Z.lor (Z.shiftl (Z.land snkp 0xff) 16)
 (Z.lor (Z.shiftl (Z.land srcp 0xff) 8)
 (Z.lor (Z.shiftl (Z.land usb 1) 7)
 (Z.lor (Z.shiftl (Z.land gdr 1) 6)
 (Z.lor (Z.shiftl (Z.land sign 0xF) 2) (Z.land sdir 0x3))))).

Definition MODE_DP_PIN_C : Z := 0x04.
Definition MODE_DP_V13 : Z := 0x1.
Definition MODE_DP_SNK : Z := 0x1.

Definition VDO_DPM (ufpd dfpd nusb20 rec sign cap : Z) : Z :=
  Z.lor (Z.shiftl ufpd 16)
 (Z.lor (Z.shiftl dfpd 8)
 (Z.lor (Z.shiftl nusb20 7)
 (Z.lor (Z.shiftl rec 6) (Z.lor (Z.shiftl sign 2) cap)))).

Definition DPM_DFP_D_PIN_C : Z := 0x04.
Definition DPM_SIGN_SUPP_DP13 : Z := 0x1.
Definition DPM_PORT_CAP_UFP_D : Z := 1.

End Vdo.
Export Vdo.

(** ** Fixed-size arrays *)

Module Arr.

(** An array of [n] cells is a function on indices; only the cells
    [0 .. n-1] exist.  [get] and [set] fault outside of them. *)
Definition t := Z -> Z.

Definition in_bounds (n i : Z) : bool := (0 <=? i) && (i <? n).

Definition upd (a : t) (i v : Z) : t :=
  fun j => if j =? i then v else a j.

Definition get (n : Z) (a : t) (i : Z) : option Z :=
  if in_bounds n i then Some (a i) else None.

Definition set (n : Z) (a : t) (i v : Z) : option t :=
  if in_bounds n i then Some (upd a i v) else None.

Definition zero : t := fun _ => 0.

End Arr.

(** ** Simulator state *)

Inductive testmode :=
| TESTMODE_NONE | TESTMODE_SNK | TESTMODE_SRC | TESTMODE_RESET.

Inductive simstate :=
| SSTATE_NONE
| SSTATE_SNK_START
| SSTATE_SNK_RUN
| SSTATE_SRC_START
| SSTATE_SRC_VBUS
| SSTATE_SRC_RX_SOURCE_CAP
| SSTATE_SRC_WAIT_FOR_REQUEST
| SSTATE_SRC_SEND_REQUEST
| SSTATE_SRC_SEND_PS_RDY
| SSTATE_SRC_RUN
| SSTATE_TO_NONE.

Definition SNK_RESP_DELAY : Z := 2.
Definition SRC_RESP_DELAY : Z := 2.

(** The [request] union: four one-bit flags; [word = 0] clears all of
    them. *)
Record request_t := mk_request {
  mode_set : bool;
  msg_rx : bool;
  msg_tx : bool;
  vbus_chng : bool
}.

Definition request_none : request_t := mk_request false false false false.

(** Calls that leave the driver: notifications to the Port Manager and
    work-queue requests. *)
Inductive call :=
| tcpm_cc_change
| tcpm_vbus_change
| tcpm_pd_receive (msg : pd_message)
| tcpm_pd_transmit_complete (status : tcpm_transmit_status)
| tcpm_pd_hard_reset
| tcpm_tcpc_reset
| queue_work_event
| mod_delayed_work_tmo (msecs : Z).

(** [struct tcpmtest_data], without the kernel handles (device, port,
    lock, work items).  [calls] is the log of calls made so far. *)
Record tcpmtest_data := mk_data {
  cc1_status : typec_cc_status;
  cc2_status : typec_cc_status;
  vbus_present : bool;
  polarity : typec_cc_polarity;
  vconn_enable : bool;
  pd_rx_enable : bool;
  data_role : typec_data_role;
  power_role : typec_role;
  delay : Z;
  request : request_t;
  state : simstate;
  tx_type : tcpm_transmit_type;
  tx_msg : pd_message;
  rx_msg : pd_message;
  rx_id : Z;
  src_cap_pdo_type : Arr.t;
  sysfs_mode : testmode;
  sysfs_mode_req : testmode;
  calls : list call
}.

(** Field assignments. *)
Definition set_cc1_status (v : typec_cc_status) (d : tcpmtest_data) : tcpmtest_data :=
  mk_data v (cc2_status d) (vbus_present d) (polarity d) (vconn_enable d)
    (pd_rx_enable d) (data_role d) (power_role d) (delay d) (request d)
    (state d) (tx_type d) (tx_msg d) (rx_msg d) (rx_id d) (src_cap_pdo_type
    d) (sysfs_mode d) (sysfs_mode_req d) (calls d).
Definition set_cc2_status (v : typec_cc_status) (d : tcpmtest_data) : tcpmtest_data :=
  mk_data (cc1_status d) v (vbus_present d) (polarity d) (vconn_enable d)
    (pd_rx_enable d) (data_role d) (power_role d) (delay d) (request d)
    (state d) (tx_type d) (tx_msg d) (rx_msg d) (rx_id d) (src_cap_pdo_type
    d) (sysfs_mode d) (sysfs_mode_req d) (calls d).
Definition set_vbus_present (v : bool) (d : tcpmtest_data) : tcpmtest_data :=
  mk_data (cc1_status d) (cc2_status d) v (polarity d) (vconn_enable d)
    (pd_rx_enable d) (data_role d) (power_role d) (delay d) (request d)
    (state d) (tx_type d) (tx_msg d) (rx_msg d) (rx_id d) (src_cap_pdo_type
    d) (sysfs_mode d) (sysfs_mode_req d) (calls d).
Definition set_polarity (v : typec_cc_polarity) (d : tcpmtest_data) : tcpmtest_data :=
  mk_data (cc1_status d) (cc2_status d) (vbus_present d) v (vconn_enable
    d) (pd_rx_enable d) (data_role d) (power_role d) (delay d) (request d)
    (state d) (tx_type d) (tx_msg d) (rx_msg d) (rx_id d) (src_cap_pdo_type
    d) (sysfs_mode d) (sysfs_mode_req d) (calls d).
Definition set_vconn_enable (v : bool) (d : tcpmtest_data) : tcpmtest_data :=
  mk_data (cc1_status d) (cc2_status d) (vbus_present d) (polarity d) v
    (pd_rx_enable d) (data_role d) (power_role d) (delay d) (request d)
    (state d) (tx_type d) (tx_msg d) (rx_msg d) (rx_id d) (src_cap_pdo_type
    d) (sysfs_mode d) (sysfs_mode_req d) (calls d).
Definition set_pd_rx_enable (v : bool) (d : tcpmtest_data) : tcpmtest_data :=
  mk_data (cc1_status d) (cc2_status d) (vbus_present d) (polarity d)
    (vconn_enable d) v (data_role d) (power_role d) (delay d) (request d)
    (state d) (tx_type d) (tx_msg d) (rx_msg d) (rx_id d) (src_cap_pdo_type
    d) (sysfs_mode d) (sysfs_mode_req d) (calls d).
Definition set_data_role (v : typec_data_role) (d : tcpmtest_data) : tcpmtest_data :=
  mk_data (cc1_status d) (cc2_status d) (vbus_present d) (polarity d)
    (vconn_enable d) (pd_rx_enable d) v (power_role d) (delay d) (request d)
    (state d) (tx_type d) (tx_msg d) (rx_msg d) (rx_id d) (src_cap_pdo_type
    d) (sysfs_mode d) (sysfs_mode_req d) (calls d).
Definition set_power_role (v : typec_role) (d : tcpmtest_data) : tcpmtest_data :=
  mk_data (cc1_status d) (cc2_status d) (vbus_present d) (polarity d)
    (vconn_enable d) (pd_rx_enable d) (data_role d) v (delay d) (request d)
    (state d) (tx_type d) (tx_msg d) (rx_msg d) (rx_id d) (src_cap_pdo_type
    d) (sysfs_mode d) (sysfs_mode_req d) (calls d).
Definition set_delay (v : Z) (d : tcpmtest_data) : tcpmtest_data :=
  mk_data (cc1_status d) (cc2_status d) (vbus_present d) (polarity d)
    (vconn_enable d) (pd_rx_enable d) (data_role d) (power_role d) v
    (request d) (state d) (tx_type d) (tx_msg d) (rx_msg d) (rx_id d)
    (src_cap_pdo_type d) (sysfs_mode d) (sysfs_mode_req d) (calls d).
Definition set_request (v : request_t) (d : tcpmtest_data) : tcpmtest_data :=
  mk_data (cc1_status d) (cc2_status d) (vbus_present d) (polarity d)
    (vconn_enable d) (pd_rx_enable d) (data_role d) (power_role d) (delay d)
    v (state d) (tx_type d) (tx_msg d) (rx_msg d) (rx_id d)
    (src_cap_pdo_type d) (sysfs_mode d) (sysfs_mode_req d) (calls d).
Definition set_state (v : simstate) (d : tcpmtest_data) : tcpmtest_data :=
  mk_data (cc1_status d) (cc2_status d) (vbus_present d) (polarity d)
    (vconn_enable d) (pd_rx_enable d) (data_role d) (power_role d) (delay d)
    (request d) v (tx_type d) (tx_msg d) (rx_msg d) (rx_id d)
    (src_cap_pdo_type d) (sysfs_mode d) (sysfs_mode_req d) (calls d).
Definition set_tx_type (v : tcpm_transmit_type) (d : tcpmtest_data) : tcpmtest_data :=
  mk_data (cc1_status d) (cc2_status d) (vbus_present d) (polarity d)
    (vconn_enable d) (pd_rx_enable d) (data_role d) (power_role d) (delay d)
    (request d) (state d) v (tx_msg d) (rx_msg d) (rx_id d)
    (src_cap_pdo_type d) (sysfs_mode d) (sysfs_mode_req d) (calls d).
Definition set_tx_msg (v : pd_message) (d : tcpmtest_data) : tcpmtest_data :=
  mk_data (cc1_status d) (cc2_status d) (vbus_present d) (polarity d)
    (vconn_enable d) (pd_rx_enable d) (data_role d) (power_role d) (delay d)
    (request d) (state d) (tx_type d) v (rx_msg d) (rx_id d)
    (src_cap_pdo_type d) (sysfs_mode d) (sysfs_mode_req d) (calls d).
Definition set_rx_msg (v : pd_message) (d : tcpmtest_data) : tcpmtest_data :=
  mk_data (cc1_status d) (cc2_status d) (vbus_present d) (polarity d)
    (vconn_enable d) (pd_rx_enable d) (data_role d) (power_role d) (delay d)
    (request d) (state d) (tx_type d) (tx_msg d) v (rx_id d)
    (src_cap_pdo_type d) (sysfs_mode d) (sysfs_mode_req d) (calls d).
Definition set_rx_id (v : Z) (d : tcpmtest_data) : tcpmtest_data :=
  mk_data (cc1_status d) (cc2_status d) (vbus_present d) (polarity d)
    (vconn_enable d) (pd_rx_enable d) (data_role d) (power_role d) (delay d)
    (request d) (state d) (tx_type d) (tx_msg d) (rx_msg d) v
    (src_cap_pdo_type d) (sysfs_mode d) (sysfs_mode_req d) (calls d).
Definition set_src_cap_pdo_type (v : Arr.t) (d : tcpmtest_data) : tcpmtest_data :=
  mk_data (cc1_status d) (cc2_status d) (vbus_present d) (polarity d)
    (vconn_enable d) (pd_rx_enable d) (data_role d) (power_role d) (delay d)
    (request d) (state d) (tx_type d) (tx_msg d) (rx_msg d) (rx_id d) v
    (sysfs_mode d) (sysfs_mode_req d) (calls d).
Definition set_sysfs_mode (v : testmode) (d : tcpmtest_data) : tcpmtest_data :=
  mk_data (cc1_status d) (cc2_status d) (vbus_present d) (polarity d)
    (vconn_enable d) (pd_rx_enable d) (data_role d) (power_role d) (delay d)
    (request d) (state d) (tx_type d) (tx_msg d) (rx_msg d) (rx_id d)
    (src_cap_pdo_type d) v (sysfs_mode_req d) (calls d).
Definition set_sysfs_mode_req (v : testmode) (d : tcpmtest_data) : tcpmtest_data :=
  mk_data (cc1_status d) (cc2_status d) (vbus_present d) (polarity d)
    (vconn_enable d) (pd_rx_enable d) (data_role d) (power_role d) (delay d)
    (request d) (state d) (tx_type d) (tx_msg d) (rx_msg d) (rx_id d)
    (src_cap_pdo_type d) (sysfs_mode d) v (calls d).
Definition set_calls (v : list call) (d : tcpmtest_data) : tcpmtest_data :=
  mk_data (cc1_status d) (cc2_status d) (vbus_present d) (polarity d)
    (vconn_enable d) (pd_rx_enable d) (data_role d) (power_role d) (delay d)
    (request d) (state d) (tx_type d) (tx_msg d) (rx_msg d) (rx_id d)
    (src_cap_pdo_type d) (sysfs_mode d) (sysfs_mode_req d) v.
Definition set_mode_set (v : bool) (d : tcpmtest_data) : tcpmtest_data :=
  set_request (mk_request v (msg_rx (request d)) (msg_tx (request d)) (vbus_chng (request d))) d.
Definition set_msg_rx (v : bool) (d : tcpmtest_data) : tcpmtest_data :=
  set_request (mk_request (mode_set (request d)) v (msg_tx (request d)) (vbus_chng (request d))) d.
Definition set_msg_tx (v : bool) (d : tcpmtest_data) : tcpmtest_data :=
  set_request (mk_request (mode_set (request d)) (msg_rx (request d)) v (vbus_chng (request d))) d.
Definition set_vbus_chng (v : bool) (d : tcpmtest_data) : tcpmtest_data :=
  set_request (mk_request (mode_set (request d)) (msg_rx (request d)) (msg_tx (request d)) v) d.

Definition log_call (c : call) (d : tcpmtest_data) : tcpmtest_data :=
  set_calls (calls d ++ [c]) d.

Definition set_rx_header (h : Z) (d : tcpmtest_data) : tcpmtest_data :=
  set_rx_msg (mk_pd_message h (payload (rx_msg d))) d.

Definition set_rx_payload (i v : Z) (d : tcpmtest_data) : tcpmtest_data :=
  set_rx_msg (mk_pd_message (header (rx_msg d))
                            (Arr.upd (payload (rx_msg d)) i v)) d.

(** The state [devm_kzalloc] hands to [tcpmtest_probe]: all zero. *)
Definition zero_message : pd_message := mk_pd_message 0 Arr.zero.

Definition tcpmtest_probe_data : tcpmtest_data :=
  mk_data TYPEC_CC_OPEN TYPEC_CC_OPEN false TYPEC_POLARITY_CC1 false false
          TYPEC_DEVICE TYPEC_SINK 0 request_none SSTATE_NONE TCPC_TX_SOP
          zero_message zero_message 0 Arr.zero TESTMODE_NONE TESTMODE_NONE [].

(** ** Message log parsers

    The parsers print; what they do to the state is to record, per object
    position, the PDO type of a capability message, and to look that type
    up again for a request.  The printing is left out, the two array
    accesses are kept. *)

Definition tcpmtest_log_capability_pdo (d : tcpmtest_data) (pdo : Z)
    (src : bool) (index : Z) : option tcpmtest_data :=
  let type := pdo_type pdo in
  match Arr.set PDO_MAX_OBJECTS (src_cap_pdo_type d) index type with
  | Some a => Some (set_src_cap_pdo_type a d)
  | None => None
  end.

(** [unsigned int index = rdo_index(rdo) - 1]. *)
Definition request_pdo_index (rdo : Z) : Z := u32 (rdo_index rdo - 1).

Definition tcpmtest_log_request_pdo (d : tcpmtest_data) (rdo : Z)
    : option tcpmtest_data :=
  let index := request_pdo_index rdo in
  match Arr.get PDO_MAX_OBJECTS (src_cap_pdo_type d) index with
  | Some type => Some d
  | None => None
  end.

(** The loop [for (ix = 0; ix < cnt; ++ix)] of [tcpmtest_log_msg], with
    [n] the number of objects still to go. *)
Fixpoint tcpmtest_log_dobjs (n : nat) (ix : Z) (hdr : Z) (msg : pd_message)
    (d : tcpmtest_data) : option tcpmtest_data :=
  match n with
  | O => Some d
  | S n' =>
    let dobj := payload msg ix in
    let logged :=
      match data_of (pd_header_type hdr) with
      | Some PD_DATA_SOURCE_CAP => tcpmtest_log_capability_pdo d dobj true ix
      | Some PD_DATA_REQUEST => tcpmtest_log_request_pdo d dobj
      | Some PD_DATA_BIST => Some d
      | Some PD_DATA_SINK_CAP => tcpmtest_log_capability_pdo d dobj false ix
      | Some PD_DATA_VENDOR_DEF => Some d
      | None => Some d
      end in
    match logged with
    | Some d' => tcpmtest_log_dobjs n' (ix + 1) hdr msg d'
    | None => None
    end
  end.

(** [msg] is a pointer that may be null; the header is read before
    anything else. *)
Definition tcpmtest_log_msg (d : tcpmtest_data) (tx_type : tcpm_transmit_type)
    (msg : option pd_message) : option tcpmtest_data :=
  match msg with
  | None => None
  | Some m =>
    let hdr := header m in
    if tx_type_val tx_type >? tx_type_val TCPC_TX_SOP_PRIME_PRIME then Some d
    else if negb (pd_header_rev hdr =? PD_REV20) then Some d
    else tcpmtest_log_dobjs (Z.to_nat (pd_header_cnt hdr)) 0 hdr m d
  end.

(** ** SysFs interface *)

(** Modelled from the spec: [sysfs_streq] is a kernel library function;
    it compares two C strings and lets one of them end in a single
    newline. *)
Fixpoint sysfs_streq (s1 s2 : string) : bool :=
  match s1, s2 with
  | EmptyString, EmptyString => true
  | EmptyString, String c EmptyString => Ascii.eqb c "010"%char
  | String c EmptyString, EmptyString => Ascii.eqb c "010"%char
  | String c1 r1, String c2 r2 => Ascii.eqb c1 c2 && sysfs_streq r1 r2
  | _, _ => false
  end.

Definition EINVAL : Z := 22.

(** The newline. *)
Definition nl : string := String "010"%char EmptyString.

(** The C string at a pointer: of the bytes in memory, those before the
    first NUL. *)
Fixpoint c_str (mem : string) : string :=
  match mem with
  | EmptyString => EmptyString
  | String c r =>
    if Ascii.eqb c "000"%char then EmptyString else String c (c_str r)
  end.

(** [size_t] and [ssize_t], 64 bits wide: a [size_t] argument, and the
    value [return err ? err : count] converts to [ssize_t]. *)
Definition size_t (x : Z) : Z := x mod 2 ^ 64.

Definition ssize_t (x : Z) : Z :=
  if size_t x <? 2 ^ 63 then size_t x else size_t x - 2 ^ 64.

(** [tcpmtest_sysfs_store] for the attribute [mode], the only one the
    driver registers the two functions for: the new state and the return
    value.  [buf] is a pointer, null or to bytes in memory (of
    which the string functions see those before the first NUL); [count]
    is passed beside it, tested against 0 and handed back. *)
Definition tcpmtest_sysfs_store (d : tcpmtest_data) (buf : option string)
    (count : Z) : tcpmtest_data * Z :=
  match buf with
  | Some mem =>
    if negb (size_t count =? 0) then
      let req :=
        if sysfs_streq "none" (c_str mem) then Some TESTMODE_NONE
        else if sysfs_streq "reset" (c_str mem) then Some TESTMODE_RESET
        else if sysfs_streq "snk" (c_str mem) then Some TESTMODE_SNK
        else if sysfs_streq "src" (c_str mem) then Some TESTMODE_SRC
        else None in
      match req with
      | Some m =>
        (log_call queue_work_event
           (set_mode_set true (set_sysfs_mode_req m d)),
         ssize_t count)
      | None => (d, - EINVAL)
      end
    else (d, - EINVAL)
  | None => (d, - EINVAL)
  end.

(** [tcpmtest_sysfs_show] for the attribute [mode]: what
    [sprintf(buf, "%s\n", mode_str)] writes to the buffer, and the number
    of characters it returns. *)
Definition tcpmtest_sysfs_show (d : tcpmtest_data) : string * Z :=
  let mode_str :=
    match sysfs_mode d with
    | TESTMODE_RESET => "reset"
    | TESTMODE_SNK => "snk"
    | TESTMODE_SRC => "src"
    | TESTMODE_NONE => "none"
    end%string in
  ((mode_str ++ nl)%string, Z.of_nat (String.length (mode_str ++ nl))).

(** ** TCPM interface functions *)

Definition tcpmtest_set_cc (d : tcpmtest_data) (cc : typec_cc_status)
    : tcpmtest_data := d.

Definition tcpmtest_start_drp_toggling (d : tcpmtest_data)
    (cc : typec_cc_status) : tcpmtest_data := d.

Definition tcpmtest_get_cc (d : tcpmtest_data)
    : typec_cc_status * typec_cc_status := (cc1_status d, cc2_status d).

Definition tcpmtest_set_polarity (d : tcpmtest_data)
    (pol : typec_cc_polarity) : tcpmtest_data := set_polarity pol d.

Definition tcpmtest_set_vconn (d : tcpmtest_data) (enable : bool)
    : tcpmtest_data := set_vconn_enable enable d.

Definition tcpmtest_set_roles (d : tcpmtest_data) (attached : bool)
    (pr : typec_role) (dr : typec_data_role) : tcpmtest_data :=
  set_power_role pr (set_data_role dr d).

Definition tcpmtest_set_pd_rx (d : tcpmtest_data) (enable : bool)
    : tcpmtest_data :=
  if negb (Bool.eqb (pd_rx_enable d) enable)
  then log_call queue_work_event (set_pd_rx_enable enable d)
  else d.

Definition tcpmtest_get_vbus (d : tcpmtest_data) : bool := vbus_present d.

Definition tcpmtest_set_vbus (d : tcpmtest_data) (source sink : bool)
    : tcpmtest_data :=
  let vbus := source || sink in
  if negb (Bool.eqb vbus (vbus_present d))
  then log_call queue_work_event
         (set_vbus_present vbus (set_vbus_chng true d))
  else d.

(** [tcpmtest_pd_transmit]: the message is logged first, then latched. *)
Definition tcpmtest_pd_transmit (d : tcpmtest_data)
    (type : tcpm_transmit_type) (msg : option pd_message)
    : option tcpmtest_data :=
  match tcpmtest_log_msg d type msg with
  | None => None
  | Some d1 =>
    let d2 := set_tx_type type d1 in
    let d3 := match msg with Some m => set_tx_msg m d2 | None => d2 end in
    Some (log_call queue_work_event (set_msg_tx true d3))
  end.

Definition tcpmtest_init (d : tcpmtest_data) : tcpmtest_data := d.

(** ** Driver internals *)

Definition tcpmtest_hard_reset (d : tcpmtest_data) (from_peer : bool)
    : tcpmtest_data :=
  let d1 := set_rx_id 0 (set_request request_none d) in
  if from_peer then log_call tcpm_pd_hard_reset d1 else d1.

(** [data->rx_id++] as the argument of a header: the old value goes into
    the header, the counter is incremented as an [unsigned int]. *)
Definition stage_header (type : Z) (pwr : typec_role)
    (dr : typec_data_role) (cnt : Z) (d : tcpmtest_data) : tcpmtest_data :=
  set_rx_id (u32 (rx_id d + 1))
    (set_rx_header (PD_HEADER_LE type pwr dr (rx_id d) cnt) d).

Definition tcpmtest_mk_snk_request (d : tcpmtest_data) : tcpmtest_data :=
  let d1 := stage_header (data_val PD_DATA_REQUEST) TYPEC_SINK TYPEC_DEVICE
                         1 d in
  let d2 := set_rx_payload 0 (RDO_FIXED 1 1500 1500 RDO_USB_COMM) d1 in
  set_msg_rx true d2.

Definition tcpmtest_mk_snk_sink_cap (d : tcpmtest_data) : tcpmtest_data :=
  let d1 := stage_header (data_val PD_DATA_SINK_CAP) TYPEC_SINK TYPEC_DEVICE
                         1 d in
  let d2 := set_rx_payload 0 (PDO_FIXED 5000 2000 PDO_FIXED_USB_COMM) d1 in
  set_msg_rx true d2.

Definition tcpmtest_mk_snk_disc_ident_resp_vdm (d : tcpmtest_data)
    : tcpmtest_data :=
  let d1 := stage_header (data_val PD_DATA_VENDOR_DEF) TYPEC_SINK
                         TYPEC_DEVICE 5 d in
  let d2 := set_rx_payload VDO_INDEX_HDR
              (VDO_STR USB_SID_PD 0 0 CMDT_RSP_ACK CMD_DISCOVER_IDENT) d1 in
  let d3 := set_rx_payload VDO_INDEX_IDH
              (VDO_IDH 0 1 IDH_PTYPE_AMA 1 0x2109) d2 in
  let d4 := set_rx_payload VDO_INDEX_CSTAT 0 d3 in
  let d5 := set_rx_payload VDO_INDEX_PRODUCT (VDO_PRODUCT 0x0101 0x0001) d4 in
  let d6 := set_rx_payload VDO_INDEX_AMA
              (VDO_AMA 0 0 0 0 0 0 AMA_VCONN_PWR_1W5 1 1 AMA_USBSS_BBONLY)
              d5 in
  set_msg_rx true d6.

Definition tcpmtest_mk_snk_disc_svid_resp_vdm (d : tcpmtest_data)
    : tcpmtest_data :=
  let d1 := stage_header (data_val PD_DATA_VENDOR_DEF) TYPEC_SINK
                         TYPEC_DEVICE 2 d in
  let d2 := set_rx_payload VDO_INDEX_HDR
              (VDO_STR USB_SID_PD 0 0 CMDT_RSP_ACK CMD_DISCOVER_SVID) d1 in
  let d3 := set_rx_payload 1 (VDO_SVID USB_SID_DISPLAYPORT 0x0000) d2 in
  set_msg_rx true d3.

(** The discover-modes response, for the mode VDO [vdo] the variant at
    hand advertises.  [svid] is a [u16] parameter. *)
Definition mk_snk_disc_modes_resp_vdm_with (vdo : Z) (d : tcpmtest_data)
    (svid : Z) : tcpmtest_data :=
  if negb (svid mod 2 ^ 16 =? USB_SID_DISPLAYPORT) then d
  else
    let d1 := stage_header (data_val PD_DATA_VENDOR_DEF) TYPEC_SINK
                           TYPEC_DEVICE 2 d in
    let d2 := set_rx_payload VDO_INDEX_HDR
                (VDO_STR USB_SID_DISPLAYPORT 0 0 CMDT_RSP_ACK
                         CMD_DISCOVER_MODES) d1 in
    let d3 := set_rx_payload 1 vdo d2 in
    set_msg_rx true d3.

Definition tcpmtest_mk_snk_disc_modes_resp_vdm
    : tcpmtest_data -> Z -> tcpmtest_data :=
  mk_snk_disc_modes_resp_vdm_with
    (VDO_MODE_DP 0 MODE_DP_PIN_C 0 1 MODE_DP_V13 MODE_DP_SNK).

(** The structured-VDM dispatch, for the discover-modes responder [modes]
    of the variant at hand. *)
Definition process_tx_vdm_for_snk_with
    (modes : tcpmtest_data -> Z -> tcpmtest_data)
    (d : tcpmtest_data) (cnt : Z) : tcpmtest_data :=
  let vdo_hdr := payload (tx_msg d) 0 in
  if Z.land vdo_hdr VDO_SVDM_TYPE =? 0 then d
  else
    let cmdt := PD_VDO_CMDT vdo_hdr in
    let cmd := PD_VDO_CMD vdo_hdr in
    if cmd =? CMD_DISCOVER_IDENT then
      if cmdt =? CMDT_INIT then tcpmtest_mk_snk_disc_ident_resp_vdm d else d
    else if cmd =? CMD_DISCOVER_SVID then
      if cmdt =? CMDT_INIT then tcpmtest_mk_snk_disc_svid_resp_vdm d else d
    else if cmd =? CMD_DISCOVER_MODES then
      if cmdt =? CMDT_INIT then modes d (PD_VDO_VID vdo_hdr) else d
    else d.

Definition tcpmtest_process_tx_vdm_for_snk
    : tcpmtest_data -> Z -> tcpmtest_data :=
  process_tx_vdm_for_snk_with tcpmtest_mk_snk_disc_modes_resp_vdm.

(** The sink-role classifier, for the VDM dispatch [vdm] of the variant
    at hand. *)
Definition process_tx_msg_for_snk_with
    (vdm : tcpmtest_data -> Z -> tcpmtest_data)
    (d : tcpmtest_data) : tcpmtest_data :=
  if tx_type_eqb (tx_type d) TCPC_TX_HARD_RESET then
    tcpmtest_hard_reset d false
  else if negb (tx_type_eqb (tx_type d) TCPC_TX_SOP) then d
  else
    let hdr := header (tx_msg d) in
    let cnt := pd_header_cnt hdr in
    if cnt =? 0 then
      match ctrl_of (pd_header_type hdr) with
      | Some PD_CTRL_GOOD_CRC
      | Some PD_CTRL_GOTO_MIN
      | Some PD_CTRL_ACCEPT => d
      | Some PD_CTRL_REJECT => tcpmtest_hard_reset d true
      | Some PD_CTRL_PING
      | Some PD_CTRL_PS_RDY => d
      | Some PD_CTRL_GET_SOURCE_CAP => tcpmtest_hard_reset d true
      | Some PD_CTRL_GET_SINK_CAP => tcpmtest_mk_snk_sink_cap d
      | Some PD_CTRL_DR_SWAP
      | Some PD_CTRL_PR_SWAP
      | Some PD_CTRL_VCONN_SWAP => tcpmtest_hard_reset d true
      | Some PD_CTRL_WAIT => d
      | Some PD_CTRL_SOFT_RESET => set_rx_id 0 d
      | None => d
      end
    else
      match data_of (pd_header_type hdr) with
      | Some PD_DATA_SOURCE_CAP => tcpmtest_mk_snk_request d
      | Some PD_DATA_REQUEST => tcpmtest_hard_reset d true
      | Some PD_DATA_BIST => d
      | Some PD_DATA_SINK_CAP => tcpmtest_hard_reset d true
      | Some PD_DATA_VENDOR_DEF => vdm d cnt
      | None => d
      end.

Definition tcpmtest_process_tx_msg_for_snk
    : tcpmtest_data -> tcpmtest_data :=
  process_tx_msg_for_snk_with tcpmtest_process_tx_vdm_for_snk.

Definition tcpmtest_mk_src_data_source_cap (d : tcpmtest_data)
    : tcpmtest_data :=
  let d1 := stage_header (data_val PD_DATA_SOURCE_CAP) TYPEC_SOURCE
                         TYPEC_HOST 1 d in
  let d2 := set_rx_payload 0
              (PDO_FIXED 5000 3000
                 (Z.lor PDO_FIXED_DUAL_ROLE
                 (Z.lor PDO_FIXED_EXTPOWER
                 (Z.lor PDO_FIXED_USB_COMM PDO_FIXED_DATA_SWAP)))) d1 in
  set_msg_rx true d2.

Definition tcpmtest_mk_src_accept (d : tcpmtest_data) : tcpmtest_data :=
  set_msg_rx true
    (stage_header (ctrl_val PD_CTRL_ACCEPT) TYPEC_SOURCE TYPEC_HOST 0 d).

Definition tcpmtest_mk_src_ps_rdy (d : tcpmtest_data) : tcpmtest_data :=
  set_msg_rx true
    (stage_header (ctrl_val PD_CTRL_PS_RDY) TYPEC_SOURCE TYPEC_HOST 0 d).

Definition tcpmtest_process_tx_vdm_for_src (d : tcpmtest_data) (cnt : Z)
    : tcpmtest_data := d.

Definition simstate_eqb (a b : simstate) : bool :=
  match a, b with
  | SSTATE_NONE, SSTATE_NONE
  | SSTATE_SNK_START, SSTATE_SNK_START
  | SSTATE_SNK_RUN, SSTATE_SNK_RUN
  | SSTATE_SRC_START, SSTATE_SRC_START
  | SSTATE_SRC_VBUS, SSTATE_SRC_VBUS
  | SSTATE_SRC_RX_SOURCE_CAP, SSTATE_SRC_RX_SOURCE_CAP
  | SSTATE_SRC_WAIT_FOR_REQUEST, SSTATE_SRC_WAIT_FOR_REQUEST
  | SSTATE_SRC_SEND_REQUEST, SSTATE_SRC_SEND_REQUEST
  | SSTATE_SRC_SEND_PS_RDY, SSTATE_SRC_SEND_PS_RDY
  | SSTATE_SRC_RUN, SSTATE_SRC_RUN
  | SSTATE_TO_NONE, SSTATE_TO_NONE => true
  | _, _ => false
  end.

Definition tcpmtest_process_tx_msg_for_src (d : tcpmtest_data)
    : tcpmtest_data :=
  if tx_type_eqb (tx_type d) TCPC_TX_HARD_RESET then
    tcpmtest_hard_reset d false
  else if negb (tx_type_eqb (tx_type d) TCPC_TX_SOP) then d
  else
    let hdr := header (tx_msg d) in
    let cnt := pd_header_cnt hdr in
    if cnt =? 0 then
      match ctrl_of (pd_header_type hdr) with
      | Some PD_CTRL_GOOD_CRC
      | Some PD_CTRL_GOTO_MIN => d
      | Some PD_CTRL_ACCEPT
      | Some PD_CTRL_REJECT => tcpmtest_hard_reset d true
      | Some PD_CTRL_PING
      | Some PD_CTRL_PS_RDY => d
      | Some PD_CTRL_GET_SOURCE_CAP => tcpmtest_mk_src_data_source_cap d
      | Some PD_CTRL_GET_SINK_CAP => tcpmtest_hard_reset d true
      | Some PD_CTRL_DR_SWAP
      | Some PD_CTRL_PR_SWAP
      | Some PD_CTRL_VCONN_SWAP => tcpmtest_hard_reset d true
      | Some PD_CTRL_WAIT => d
      | Some PD_CTRL_SOFT_RESET => set_rx_id 0 d
      | None => d
      end
    else
      match data_of (pd_header_type hdr) with
      | Some PD_DATA_SOURCE_CAP => tcpmtest_hard_reset d true
      | Some PD_DATA_REQUEST =>
        if simstate_eqb (state d) SSTATE_SRC_WAIT_FOR_REQUEST
        then set_state SSTATE_SRC_SEND_REQUEST d
        else d
      | Some PD_DATA_BIST
      | Some PD_DATA_SINK_CAP => d
      | Some PD_DATA_VENDOR_DEF => tcpmtest_process_tx_vdm_for_src d cnt
      | None => d
      end.

Definition testmode_eqb (a b : testmode) : bool :=
  match a, b with
  | TESTMODE_NONE, TESTMODE_NONE
  | TESTMODE_SNK, TESTMODE_SNK
  | TESTMODE_SRC, TESTMODE_SRC
  | TESTMODE_RESET, TESTMODE_RESET => true
  | _, _ => false
  end.

(** [tcpmtest_state_machine]: the [switch] yields the state after the
    step, the next state and the delay to arm ([-1] for none).  The two
    enumerations are closed, so the [default: BUG()] labels of the driver
    have no counterpart. *)
Definition state_machine_switch (d : tcpmtest_data) (timeout : bool)
    : tcpmtest_data * simstate * Z :=
  let state0 := state d in
  match state0 with
  | SSTATE_NONE => (d, state0, -1)
  | SSTATE_SNK_START =>
    let d1 := set_vbus_present false d in
    let d2 := set_cc1_status TYPEC_CC_RD d1 in
    let d3 := set_cc2_status TYPEC_CC_RA d2 in
    (log_call tcpm_cc_change d3, SSTATE_SNK_RUN, -1)
  | SSTATE_SNK_RUN => (d, state0, -1)
  | SSTATE_SRC_START =>
    let d1 := set_cc1_status TYPEC_CC_OPEN d in
    let d2 := set_cc2_status TYPEC_CC_RP_3_0 d1 in
    (log_call tcpm_cc_change d2, SSTATE_SRC_VBUS, 5)
  | SSTATE_SRC_VBUS =>
    if timeout
    then (set_vbus_chng true (set_vbus_present true d),
          SSTATE_SRC_RX_SOURCE_CAP, -1)
    else (d, state0, -1)
  | SSTATE_SRC_RX_SOURCE_CAP =>
    if pd_rx_enable d
    then (tcpmtest_mk_src_data_source_cap d, SSTATE_SRC_WAIT_FOR_REQUEST, -1)
    else (d, state0, -1)
  | SSTATE_SRC_WAIT_FOR_REQUEST => (d, state0, -1)
  | SSTATE_SRC_SEND_REQUEST =>
    (tcpmtest_mk_src_accept d, SSTATE_SRC_SEND_PS_RDY, -1)
  | SSTATE_SRC_SEND_PS_RDY =>
    if negb (msg_rx (request d))
    then (tcpmtest_mk_src_ps_rdy d, SSTATE_SRC_RUN, -1)
    else (d, state0, -1)
  | SSTATE_SRC_RUN => (d, state0, -1)
  | SSTATE_TO_NONE =>
    let d1 := set_vbus_present false d in
    let d2 := set_cc1_status TYPEC_CC_OPEN d1 in
    let d3 := set_cc2_status TYPEC_CC_OPEN d2 in
    let d4 := tcpmtest_hard_reset d3 false in
    let d5 := if testmode_eqb (sysfs_mode_req d4) TESTMODE_RESET
              then log_call tcpm_tcpc_reset d4
              else log_call tcpm_cc_change d4 in
    (set_sysfs_mode TESTMODE_NONE d5, SSTATE_NONE, -1)
  end.

Definition tcpmtest_state_machine (d : tcpmtest_data) (timeout : bool)
    : tcpmtest_data :=
  match state_machine_switch d timeout with
  | (d1, state1, delay1) =>
    let d2 := set_state state1 d1 in
    if 0 <=? delay1
    then log_call (mod_delayed_work_tmo delay1) (set_delay delay1 d2)
    else d2
  end.

(** [tcpmtest_event_work], block by block. *)
Definition event_mode_set (d : tcpmtest_data) : tcpmtest_data :=
  if mode_set (request d) then
    let d1 := set_mode_set false d in
    match sysfs_mode_req d1 with
    | TESTMODE_NONE
    | TESTMODE_RESET =>
      if negb (testmode_eqb (sysfs_mode d1) TESTMODE_NONE)
      then set_state SSTATE_TO_NONE d1
      else d1
    | TESTMODE_SNK =>
      if testmode_eqb (sysfs_mode d1) TESTMODE_NONE
      then set_state SSTATE_SNK_START (set_sysfs_mode TESTMODE_SNK d1)
      else d1
    | TESTMODE_SRC =>
      if testmode_eqb (sysfs_mode d1) TESTMODE_NONE
      then set_state SSTATE_SRC_START (set_sysfs_mode TESTMODE_SRC d1)
      else d1
    end
  else d.

Definition event_vbus_chng (d : tcpmtest_data) : tcpmtest_data :=
  if vbus_chng (request d)
  then log_call tcpm_vbus_change (set_vbus_chng false d)
  else d.

Definition event_msg_tx (d : tcpmtest_data) : tcpmtest_data :=
  if msg_tx (request d) then
    let d1 := set_msg_tx false d in
    if testmode_eqb (sysfs_mode d1) TESTMODE_SNK then
      log_call (tcpm_pd_transmit_complete TCPC_TX_SUCCESS)
               (tcpmtest_process_tx_msg_for_snk d1)
    else if testmode_eqb (sysfs_mode d1) TESTMODE_SRC then
      log_call (tcpm_pd_transmit_complete TCPC_TX_SUCCESS)
               (tcpmtest_process_tx_msg_for_src d1)
    else log_call (tcpm_pd_transmit_complete TCPC_TX_FAILED) d1
  else d.

(** One pass of the event work.  The driver tests the result of the
    state-machine call to decide on queueing itself once more, but the
    state machine returns no value; that re-queueing is left to the
    scheduler of the passes and not part of the pass. *)
Definition tcpmtest_event_work (d : tcpmtest_data) : tcpmtest_data :=
  let d1 := event_mode_set d in
  let d2 := event_vbus_chng d1 in
  let d3 := event_msg_tx d2 in
  let d4 := tcpmtest_state_machine d3 false in
  if msg_rx (request d4)
  then log_call (mod_delayed_work_tmo SRC_RESP_DELAY) d4
  else d4.

(** The timeout work: delivers the staged message, then steps the state
    machine with the timeout flag. *)
Definition tcpmtest_tmo_work (d : tcpmtest_data) : option tcpmtest_data :=
  let delivered :=
    if msg_rx (request d) then
      let d1 := set_msg_rx false d in
      match tcpmtest_log_msg d1 TCPC_TX_SOP (Some (rx_msg d1)) with
      | Some d2 => Some (log_call (tcpm_pd_receive (rx_msg d2)) d2)
      | None => None
      end
    else Some d in
  match delivered with
  | Some d3 => Some (tcpmtest_state_machine (set_delay 0 d3) true)
  | None => None
  end.

(** ** The kthread variant: message processing

    In the older file the hard reset, the sink request, the sink
    capabilities and the identity and SVID responses read as above; the
    discover-modes response advertises another mode VDO, and the
    source-role classifier is a different function. *)

Module Polling.

Definition tcpmtest_mk_snk_disc_modes_resp_vdm
    : tcpmtest_data -> Z -> tcpmtest_data :=
  mk_snk_disc_modes_resp_vdm_with
    (VDO_DPM 0 DPM_DFP_D_PIN_C 0 0 DPM_SIGN_SUPP_DP13 DPM_PORT_CAP_UFP_D).

Definition tcpmtest_process_tx_vdm_for_snk
    : tcpmtest_data -> Z -> tcpmtest_data :=
  process_tx_vdm_for_snk_with tcpmtest_mk_snk_disc_modes_resp_vdm.

Definition tcpmtest_process_tx_msg_for_snk
    : tcpmtest_data -> tcpmtest_data :=
  process_tx_msg_for_snk_with tcpmtest_process_tx_vdm_for_snk.

Definition tcpmtest_process_tx_msg_for_src (d : tcpmtest_data)
    : tcpmtest_data :=
  if tx_type_eqb (tx_type d) TCPC_TX_HARD_RESET then
    tcpmtest_hard_reset d false
  else if negb (tx_type_eqb (tx_type d) TCPC_TX_SOP) then d
  else
    let hdr := header (tx_msg d) in
    let cnt := pd_header_cnt hdr in
    if cnt =? 0 then
      match ctrl_of (pd_header_type hdr) with
      | Some PD_CTRL_GOOD_CRC
      | Some PD_CTRL_GOTO_MIN
      | Some PD_CTRL_ACCEPT => d
      | Some PD_CTRL_REJECT => tcpmtest_hard_reset d true
      | Some PD_CTRL_PING
      | Some PD_CTRL_PS_RDY => d
      | Some PD_CTRL_GET_SOURCE_CAP => tcpmtest_hard_reset d true
      | Some PD_CTRL_GET_SINK_CAP => tcpmtest_mk_snk_sink_cap d
      | Some PD_CTRL_DR_SWAP
      | Some PD_CTRL_PR_SWAP
      | Some PD_CTRL_VCONN_SWAP => tcpmtest_hard_reset d true
      | Some PD_CTRL_WAIT => d
      | Some PD_CTRL_SOFT_RESET => set_rx_id 0 d
      | None => d
      end
    else
      match data_of (pd_header_type hdr) with
      | Some PD_DATA_SOURCE_CAP => tcpmtest_hard_reset d true
      | Some PD_DATA_REQUEST => tcpmtest_mk_snk_request d
      | Some PD_DATA_BIST => d
      | Some PD_DATA_SINK_CAP => tcpmtest_hard_reset d true
      | Some PD_DATA_VENDOR_DEF => tcpmtest_process_tx_vdm_for_snk d cnt
      | None => d
      end.

End Polling.

(** ** Reactions of the simulated peer

    The reactions the classifier can have, as relations between the state
    before and the state after. *)

(** Nothing happens. *)
Definition absorbed (d d' : tcpmtest_data) : Prop := d' = d.

(** A hard reset that the simulated peer starts: every pending request
    and the message-ID counter are cleared, the Port Manager is told, and
    nothing else changes. *)
Definition peer_hard_reset (d d' : tcpmtest_data) : Prop :=
  d' = set_calls (calls d ++ [tcpm_pd_hard_reset])
         (set_rx_id 0 (set_request request_none d)).

(** Only the message-ID counter is set to zero. *)
Definition soft_reset_only (d d' : tcpmtest_data) : Prop :=
  d' = set_rx_id 0 d.

(** A reply of data type [type] with [cnt] objects, the first being
    [obj0], is staged for delivery. *)
Definition stages_data_reply (type : pd_data_msg_type) (cnt obj0 : Z)
    (d d' : tcpmtest_data) : Prop :=
  msg_rx (request d') = true /\
  pd_header_type (header (rx_msg d')) = data_val type /\
  pd_header_cnt (header (rx_msg d')) = cnt /\
  payload (rx_msg d') 0 = obj0.

(** Everything the classifier of either role can do to the state [d]:
    nothing; the Port Manager's own hard reset; a hard reset started by
    the simulated peer; a soft reset; a reply [m] staged under the current
    message ID; the move of a waiting source towards the Accept. *)
Inductive reaction (d : tcpmtest_data) : tcpmtest_data -> Prop :=
| reaction_none : reaction d d
| reaction_tx_hard_reset :
    tx_type d = TCPC_TX_HARD_RESET ->
    reaction d (tcpmtest_hard_reset d false)
| reaction_peer_hard_reset :
    tx_type d = TCPC_TX_SOP ->
    reaction d (tcpmtest_hard_reset d true)
| reaction_soft_reset :
    tx_type d = TCPC_TX_SOP ->
    pd_header_cnt (header (tx_msg d)) = 0 ->
    ctrl_of (pd_header_type (header (tx_msg d))) = Some PD_CTRL_SOFT_RESET ->
    reaction d (set_rx_id 0 d)
| reaction_reply : forall m,
    pd_header_id (header m) = rx_id d mod 8 ->
    reaction d (set_msg_rx true (set_rx_msg m (set_rx_id (u32 (rx_id d + 1)) d)))
| reaction_advance :
    state d = SSTATE_SRC_WAIT_FOR_REQUEST ->
    reaction d (set_state SSTATE_SRC_SEND_REQUEST d).

(** ** Sample messages and states

    Concrete inputs at which the properties below are evaluated. *)

(** A Request data message whose only RDO has object position 0. *)
Definition request_pos0_msg : pd_message :=
  mk_pd_message
    (PD_HEADER (data_val PD_DATA_REQUEST) TYPEC_SINK TYPEC_DEVICE 0 1)
    Arr.zero.


(** A control message of type [t] with message ID [id], sent by a Port
    Manager that is sink and device. *)
Definition ctrl_msg (t : pd_ctrl_msg_type) (id : Z) : pd_message :=
  mk_pd_message (PD_HEADER (ctrl_val t) TYPEC_SINK TYPEC_DEVICE id 0)
                Arr.zero.

(** A SinkCapabilities data message with one fixed 5 V, 500 mA PDO. *)
Definition sink_cap_msg : pd_message :=
  mk_pd_message
    (PD_HEADER (data_val PD_DATA_SINK_CAP) TYPEC_SINK TYPEC_DEVICE 2 1)
    (Arr.upd Arr.zero 0 (PDO_FIXED 5000 500 PDO_FIXED_USB_COMM)).

(** A source session that has reached [SSTATE_SRC_RUN]: three messages
    were synthesized (SourceCapabilities, Accept, PowerReady), nothing is
    pending. *)
Definition src_running : tcpmtest_data :=
  mk_data TYPEC_CC_OPEN TYPEC_CC_RP_3_0 true TYPEC_POLARITY_CC1 false true
          TYPEC_DEVICE TYPEC_SINK 0 request_none SSTATE_SRC_RUN TCPC_TX_SOP
          zero_message
          (mk_pd_message
             (PD_HEADER (ctrl_val PD_CTRL_PS_RDY) TYPEC_SOURCE TYPEC_HOST 2 0)
             Arr.zero)
          3 Arr.zero TESTMODE_SRC TESTMODE_SRC [].

(** The Port Manager's message [m] latched for processing in state [d]. *)
Definition latched (m : pd_message) (d : tcpmtest_data) : tcpmtest_data :=
  set_msg_tx true (set_tx_msg m (set_tx_type TCPC_TX_SOP d)).

(** The running source session with an Accept control message, and with a
    SinkCapabilities data message, latched for processing. *)
Definition src_running_accept : tcpmtest_data :=
  latched (ctrl_msg PD_CTRL_ACCEPT 1) src_running.

Definition src_running_sink_cap : tcpmtest_data :=
  latched sink_cap_msg src_running.

(** The SourceCapabilities message a Port Manager configured with
    [tcpmtest_src_pdos] sends: one PDO, the literal of the driver's
    table. *)
Definition source_cap_msg : pd_message :=
  mk_pd_message
    (PD_HEADER (data_val PD_DATA_SOURCE_CAP) TYPEC_SOURCE TYPEC_HOST 0 1)
    (Arr.upd Arr.zero 0 0x26019096).

(** The fields of the request the sink role stages: one RDO for object
    position 1, operating and maximum current 1500 mA, USB communications
    capable. *)
Definition is_snk_request (m : pd_message) : Prop :=
  pd_header_type (header m) = data_val PD_DATA_REQUEST /\
  pd_header_cnt (header m) = 1 /\
  rdo_index (payload m 0) = 1 /\
  rdo_op_current (payload m 0) = 1500 /\
  rdo_max_current (payload m 0) = 1500 /\
  Z.land (payload m 0) RDO_USB_COMM = RDO_USB_COMM.

(** The sink session right after attach: the operator wrote "snk" to the
    freshly probed device and the event work ran once. *)
Definition snk_attached : tcpmtest_data :=
  tcpmtest_event_work
    (fst (tcpmtest_sysfs_store tcpmtest_probe_data (Some "snk"%string) 3)).

(** The message [m] has been written to the outbound slot of [d] under
    the current message ID and the counter has been incremented; the
    delivery flag is not yet set. *)
Definition written (d d' : tcpmtest_data) : Prop :=
  exists m,
    pd_header_id (header m) = rx_id d mod 8 /\
    d' = set_rx_id (u32 (rx_id d + 1)) (set_rx_msg m d).

(** The calls a pass of the event work can make before it steps the
    state machine. *)
Definition pre_step_call (c : call) : Prop :=
  c = tcpm_vbus_change \/ c = tcpm_pd_hard_reset \/
  exists status, c = tcpm_pd_transmit_complete status.

(** The notification that ends a session: a controller reset if the
    operator asked for a reset, a CC change otherwise. *)
Definition detach_call (req : testmode) : call :=
  match req with
  | TESTMODE_RESET => tcpm_tcpc_reset
  | _ => tcpm_cc_change
  end.

(** A running source session in which the operator has just written
    "reset". *)
Definition src_running_reset : tcpmtest_data :=
  fst (tcpmtest_sysfs_store src_running (Some "reset"%string) 5).

(** ** Runs of the simulator

    One step is one call of the Port Manager into the facade, one write
    of the operator to the mode attribute, one pass of the event work or
    one run of the timeout work; a call that faults makes no step. *)
Inductive step : tcpmtest_data -> tcpmtest_data -> Prop :=
| step_sysfs_store : forall d buf count,
    step d (fst (tcpmtest_sysfs_store d buf count))
| step_set_cc : forall d cc, step d (tcpmtest_set_cc d cc)
| step_start_drp_toggling : forall d cc,
    step d (tcpmtest_start_drp_toggling d cc)
| step_set_polarity : forall d pol, step d (tcpmtest_set_polarity d pol)
| step_set_vconn : forall d enable, step d (tcpmtest_set_vconn d enable)
| step_set_roles : forall d attached pr dr,
    step d (tcpmtest_set_roles d attached pr dr)
| step_set_pd_rx : forall d enable, step d (tcpmtest_set_pd_rx d enable)
| step_set_vbus : forall d source sink,
    step d (tcpmtest_set_vbus d source sink)
| step_pd_transmit : forall d type msg d',
    tcpmtest_pd_transmit d type msg = Some d' -> step d d'
| step_init : forall d, step d (tcpmtest_init d)
| step_event_work : forall d, step d (tcpmtest_event_work d)
| step_tmo_work : forall d d',
    tcpmtest_tmo_work d = Some d' -> step d d'.

Inductive reachable : tcpmtest_data -> Prop :=
| reachable_probe : reachable tcpmtest_probe_data
| reachable_step : forall d d', reachable d -> step d d' -> reachable d'.

(** No session is active only in the idle state. *)
Definition idle_when_detached (d : tcpmtest_data) : Prop :=
  sysfs_mode d = TESTMODE_NONE -> state d = SSTATE_NONE.

(** What processing a latched mode change has to do, by requested and
    active mode: the new active mode and the new state. *)
Definition mode_change_result (d : tcpmtest_data) : testmode * simstate :=
  match sysfs_mode_req d, sysfs_mode d with
  | TESTMODE_SNK, TESTMODE_NONE => (TESTMODE_SNK, SSTATE_SNK_START)
  | TESTMODE_SRC, TESTMODE_NONE => (TESTMODE_SRC, SSTATE_SRC_START)
  | TESTMODE_NONE, TESTMODE_NONE
  | TESTMODE_RESET, TESTMODE_NONE => (sysfs_mode d, state d)
  | TESTMODE_NONE, _
  | TESTMODE_RESET, _ => (sysfs_mode d, SSTATE_TO_NONE)
  | _, _ => (sysfs_mode d, state d)
  end.

(** The freshly probed device after the operator wrote "reset", and after
    the operator wrote "src". *)
Definition idle_reset : tcpmtest_data :=
  fst (tcpmtest_sysfs_store tcpmtest_probe_data (Some "reset"%string) 5).

Definition idle_src : tcpmtest_data :=
  fst (tcpmtest_sysfs_store tcpmtest_probe_data (Some "src"%string) 3).

(** ** The source session *)

(** The messages the Port Manager has received so far, oldest first. *)
Definition received (d : tcpmtest_data) : list pd_message :=
  flat_map (fun c => match c with tcpm_pd_receive m => [m] | _ => [] end)
           (calls d).

(** [m] is the control message of type [t]. *)
Definition is_ctrl_msg (t : pd_ctrl_msg_type) (m : pd_message) : Prop :=
  pd_header_cnt (header m) = 0 /\
  pd_header_type (header m) = ctrl_val t.

(** A well-formed Request: one RDO that names an object position. *)
Definition is_request (m : pd_message) : Prop :=
  data_of (pd_header_type (header m)) = Some PD_DATA_REQUEST /\
  pd_header_cnt (header m) = 1 /\
  rdo_index (payload m 0) <> 0.

(** A Request for object position 1, 1500 mA. *)
Definition request_msg : pd_message :=
  mk_pd_message
    (PD_HEADER (data_val PD_DATA_REQUEST) TYPEC_SINK TYPEC_DEVICE 0 1)
    (Arr.upd Arr.zero 0 (RDO_FIXED 1 1500 1500 RDO_USB_COMM)).

(** The timeout work on a state where it is known not to fault. *)
Definition tmo_work_or (d : tcpmtest_data) : tcpmtest_data :=
  match tcpmtest_tmo_work d with
  | Some d' => d'
  | None => d
  end.

(** A source session up to the delivery of the SourceCapabilities: the
    operator writes "src", the event work runs, the VBUS timer fires, the
    Port Manager enables PD reception, the event work stages the
    capabilities and the response timer delivers them. *)
Definition src_waiting : tcpmtest_data :=
  tmo_work_or
    (tcpmtest_event_work
       (tcpmtest_set_pd_rx
          (tmo_work_or (tcpmtest_event_work idle_src)) true)).

(** ** The message-ID counter *)

(** Going from [d] to [d'] a message was synthesized: it is staged for
    delivery, its header carries the old counter value modulo 8 and the
    counter has been incremented (as an [unsigned int]). *)
Definition staged_with_id (d d' : tcpmtest_data) : Prop :=
  msg_rx (request d') = true /\
  pd_header_id (header (rx_msg d')) = rx_id d mod 8 /\
  rx_id d' = u32 (rx_id d + 1).

(** ** The two variants compared *)

(** The mode VDO of the discover-modes response, in the work-queue
    variant and in the kthread variant. *)
Definition mode_vdo_event : Z :=
  VDO_MODE_DP 0 MODE_DP_PIN_C 0 1 MODE_DP_V13 MODE_DP_SNK.

Definition mode_vdo_polling : Z :=
  VDO_DPM 0 DPM_DFP_D_PIN_C 0 0 DPM_SIGN_SUPP_DP13 DPM_PORT_CAP_UFP_D.

(** Two results are the same, or they are the discover-modes responses of
    the two variants to the same DisplayPort request. *)
Definition same_up_to_mode_vdo (d d_event d_polling : tcpmtest_data) : Prop :=
  d_event = d_polling \/
  exists svid,
    svid mod 2 ^ 16 = USB_SID_DISPLAYPORT /\
    d_event = mk_snk_disc_modes_resp_vdm_with mode_vdo_event d svid /\
    d_polling = mk_snk_disc_modes_resp_vdm_with mode_vdo_polling d svid.

(** ** The DisplayPort VDO header, decoders and further encoders *)

Module VdoDp.

(** [include/linux/usb/pd_vdo_dp.h] in the version with [VDO_MODE_DP]:
    the decoders of the mode VDO, the status VDO and the configure
    VDO. *)
Definition PD_DP_PIN_CAPS (x : Z) : Z :=
  if negb (Z.land (Z.shiftr x 6) 0x1 =? 0)
  then Z.land (Z.shiftr x 16) 0x3f
  else Z.land (Z.shiftr x 8) 0x3f.

Definition PD_DP_UFP_D_PIN (x : Z) : Z := Z.land (Z.shiftr x 16) 0xff.
Definition PD_DP_DFP_D_PIN (x : Z) : Z := Z.land (Z.shiftr x 8) 0xff.
Definition PD_DP_USB20_NOT_USED (x : Z) : Z := Z.land (Z.shiftr x 7) 1.
Definition PD_DP_RECEPTACLE (x : Z) : Z := Z.land (Z.shiftr x 6) 1.
Definition PD_DP_SIGNAL (x : Z) : Z := Z.land (Z.shiftr x 2) 0xf.
Definition PD_DP_PORT_CAP (x : Z) : Z := Z.land x 0x3.

(** [VDO_DP_STATUS] puts every parameter in parentheses except the last:
    [conn] is pasted as [(conn & 0x3)].  The argument is text, and the
    [& 0x3] joins the last operand of each operator of the argument that
    binds less tightly than [&].  The argument is therefore kept as its
    parse, by the C grammar from the exclusive-OR expression down to the
    conditional expression; an operand that binds at least as tightly as
    [&] (a constant, a variable, a parenthesised expression, a shift, a
    sum, a comparison, an AND) is given by its value, and so is the
    middle operand of a conditional, which stands between [?] and [:].
    Operands have no side effects, and an argument that is an assignment
    is not covered. *)
Inductive xor_expr : Type :=
| XorAnd (v : Z)
| XorOp (l : xor_expr) (r : Z).

Inductive or_expr : Type :=
| OrXor (x : xor_expr)
| OrOp (l : or_expr) (r : xor_expr).

Inductive land_expr : Type :=
| LandOr (o : or_expr)
| LandOp (l : land_expr) (r : or_expr).

Inductive lor_expr : Type :=
| LorLand (a : land_expr)
| LorOp (l : lor_expr) (r : land_expr).

Inductive cond_expr : Type :=
| CondLor (o : lor_expr)
| CondOp (c : lor_expr) (t : Z) (f : cond_expr).

(** The value of [l && r] and of [l || r]. *)
Definition c_land (l r : Z) : Z :=
  if l =? 0 then 0 else if r =? 0 then 0 else 1.
Definition c_lor (l r : Z) : Z :=
  if l =? 0 then (if r =? 0 then 0 else 1) else 1.

(** The value of an expression. *)
Fixpoint xor_value (e : xor_expr) : Z :=
  match e with
  | XorAnd v => v
  | XorOp l r => Z.lxor (xor_value l) r
  end.

Fixpoint or_value (e : or_expr) : Z :=
  match e with
  | OrXor x => xor_value x
  | OrOp l r => Z.lor (or_value l) (xor_value r)
  end.

Fixpoint land_value (e : land_expr) : Z :=
  match e with
  | LandOr o => or_value o
  | LandOp l r => c_land (land_value l) (or_value r)
  end.

Fixpoint lor_value (e : lor_expr) : Z :=
  match e with
  | LorLand a => land_value a
  | LorOp l r => c_lor (lor_value l) (land_value r)
  end.

Fixpoint cond_value (e : cond_expr) : Z :=
  match e with
  | CondLor o => lor_value o
  | CondOp c t f => if lor_value c =? 0 then cond_value f else t
  end.

(** The value of the text [e & 0x3]. *)
Definition xor_and_0x3 (e : xor_expr) : Z :=
  match e with
  | XorAnd v => Z.land v 0x3
  | XorOp l r => Z.lxor (xor_value l) (Z.land r 0x3)
  end.

Definition or_and_0x3 (e : or_expr) : Z :=
  match e with
  | OrXor x => xor_and_0x3 x
  | OrOp l r => Z.lor (or_value l) (xor_and_0x3 r)
  end.

Definition land_and_0x3 (e : land_expr) : Z :=
  match e with
  | LandOr o => or_and_0x3 o
  | LandOp l r => c_land (land_value l) (or_and_0x3 r)
  end.

Definition lor_and_0x3 (e : lor_expr) : Z :=
  match e with
  | LorLand a => land_and_0x3 a
  | LorOp l r => c_lor (lor_value l) (land_and_0x3 r)
  end.

Fixpoint cond_and_0x3 (e : cond_expr) : Z :=
  match e with
  | CondLor o => lor_and_0x3 o
  | CondOp c t f => if lor_value c =? 0 then cond_and_0x3 f else t
  end.

(** The argument that is one operand of value [v], and the argument
    [a | b] of two such operands. *)
Definition conn_operand (v : Z) : cond_expr :=
  CondLor (LorLand (LandOr (OrXor (XorAnd v)))).
Definition conn_or (a b : Z) : cond_expr :=
  CondLor (LorLand (LandOr (OrOp (OrXor (XorAnd a)) (XorAnd b)))).

Definition VDO_DP_STATUS (irq lvl amode usbc mf en lp : Z)
    (conn : cond_expr) : Z :=
  Z.lor (Z.shiftl (Z.land irq 1) 8)
 (Z.lor (Z.shiftl (Z.land lvl 1) 7)
 (Z.lor (Z.shiftl (Z.land amode 1) 6)
 (Z.lor (Z.shiftl (Z.land usbc 1) 5)
 (Z.lor (Z.shiftl (Z.land mf 1) 4)
 (Z.lor (Z.shiftl (Z.land en 1) 3)
 (Z.lor (Z.shiftl (Z.land lp 1) 2)
        (Z.shiftl (cond_and_0x3 conn) 0))))))).

Definition PD_VDO_DPSTS_HPD_IRQ (x : Z) : Z := Z.land (Z.shiftr x 8) 1.
Definition PD_VDO_DPSTS_HPD_LVL (x : Z) : Z := Z.land (Z.shiftr x 7) 1.
Definition PD_VDO_DPSTS_MF_PREF (x : Z) : Z := Z.land (Z.shiftr x 4) 1.

Definition VDO_DP_CFG (pin sig cfg : Z) : Z :=
  Z.lor (Z.shiftl (Z.land pin 0xff) 8)
 (Z.lor (Z.shiftl (Z.land sig 0xf) 2) (Z.land cfg 0x3)).

Definition PD_DP_CFG_DPON (x : Z) : bool :=
  (Z.land x 0x3 =? 1) || (Z.land x 0x3 =? 2).

Definition PD_DP_CFG_PIN (x : Z) : Z :=
  if negb (Z.land (Z.shiftr x 8) 0xff =? 0)
  then Z.land (Z.shiftr x 8) 0xff
  else Z.land (Z.shiftr x 16) 0xff.

(** The same header in the version with [VDO_DPM]: the decoders. *)
Definition PD_DPM_UFP_D_PIN (vdo : Z) : Z := Z.land (Z.shiftr vdo 16) 0xff.
Definition PD_DPM_DFP_D_PIN (vdo : Z) : Z := Z.land (Z.shiftr vdo 8) 0xff.
Definition PD_DPM_SIGN (vdo : Z) : Z := Z.land (Z.shiftr vdo 2) 0xf.
Definition PD_DPM_CAP (vdo : Z) : Z := Z.land vdo 0x3.
Definition DPM_RECEPTACLE : Z := Z.shiftl 1 6.
Definition DPM_USB20_NOT_USED : Z := Z.shiftl 1 7.

End VdoDp.
Export VdoDp.

(** ** Invariants of the runs *)

(** The states a mode goes with. *)
Definition state_of_mode (m : testmode) (s : simstate) : bool :=
  match m, s with
  | TESTMODE_NONE, SSTATE_NONE => true
  | TESTMODE_SNK, SSTATE_SNK_START
  | TESTMODE_SNK, SSTATE_SNK_RUN
  | TESTMODE_SNK, SSTATE_TO_NONE => true
  | TESTMODE_SRC, SSTATE_SRC_START
  | TESTMODE_SRC, SSTATE_SRC_VBUS
  | TESTMODE_SRC, SSTATE_SRC_RX_SOURCE_CAP
  | TESTMODE_SRC, SSTATE_SRC_WAIT_FOR_REQUEST
  | TESTMODE_SRC, SSTATE_SRC_SEND_REQUEST
  | TESTMODE_SRC, SSTATE_SRC_SEND_PS_RDY
  | TESTMODE_SRC, SSTATE_SRC_RUN
  | TESTMODE_SRC, SSTATE_TO_NONE => true
  | _, _ => false
  end.

Definition session_coherent (d : tcpmtest_data) : Prop :=
  state_of_mode (sysfs_mode d) (state d) = true.

(** The CC lines a state has set, if it determines them: both open when
    idle, Rd and Ra for a running sink, open and Rp-3.0 for a source past
    its start. *)
Definition cc_of_state (s : simstate)
    : option (typec_cc_status * typec_cc_status) :=
  match s with
  | SSTATE_NONE => Some (TYPEC_CC_OPEN, TYPEC_CC_OPEN)
  | SSTATE_SNK_RUN => Some (TYPEC_CC_RD, TYPEC_CC_RA)
  | SSTATE_SRC_VBUS
  | SSTATE_SRC_RX_SOURCE_CAP
  | SSTATE_SRC_WAIT_FOR_REQUEST
  | SSTATE_SRC_SEND_REQUEST
  | SSTATE_SRC_SEND_PS_RDY
  | SSTATE_SRC_RUN => Some (TYPEC_CC_OPEN, TYPEC_CC_RP_3_0)
  | SSTATE_SNK_START | SSTATE_SRC_START | SSTATE_TO_NONE => None
  end.

Definition cc_coherent (d : tcpmtest_data) : Prop :=
  forall cc, cc_of_state (state d) = Some cc -> tcpmtest_get_cc d = cc.

(** A message the logger reads without leaving the PDO-type cache: if it
    is typed as a Request, each of the objects its header counts names
    an object position. *)
Definition loggable (m : pd_message) : Prop :=
  data_of (pd_header_type (header m)) = Some PD_DATA_REQUEST ->
  forall i, 0 <= i < pd_header_cnt (header m) ->
            rdo_index (payload m i) <> 0.

(** What the calls of the Port Manager and the writes of the operator
    leave alone. *)
Definition facade_frame (d d' : tcpmtest_data) : Prop :=
  sysfs_mode d' = sysfs_mode d /\
  state d' = state d /\
  cc1_status d' = cc1_status d /\
  cc2_status d' = cc2_status d /\
  rx_msg d' = rx_msg d /\
  rx_id d' = rx_id d /\
  msg_rx (request d') = msg_rx (request d) /\
  received d' = received d.

(** What holds of every state a run reaches. *)
Definition run_inv (d : tcpmtest_data) : Prop :=
  session_coherent d /\ cc_coherent d /\ loggable (rx_msg d).

(** ** The mode attribute *)

Fixpoint no_newline (s : string) : bool :=
  match s with
  | EmptyString => true
  | String c r => negb (Ascii.eqb c "010"%char) && no_newline r
  end.

(** The strings the mode attribute takes, each with the mode it asks
    for: the four literals, bare or ended by one newline. *)
Definition mode_strings : list (string * testmode) :=
  [ ("none", TESTMODE_NONE); ("none" ++ nl, TESTMODE_NONE);
    ("reset", TESTMODE_RESET); ("reset" ++ nl, TESTMODE_RESET);
    ("snk", TESTMODE_SNK); ("snk" ++ nl, TESTMODE_SNK);
    ("src", TESTMODE_SRC); ("src" ++ nl, TESTMODE_SRC) ]%string.

Fixpoint mode_of_string (l : list (string * testmode)) (buf : string)
    : option testmode :=
  match l with
  | [] => None
  | (s, m) :: l' => if String.eqb s buf then Some m else mode_of_string l' buf
  end.

(** ** The start of a source session *)

(** The PDO the simulated source advertises: fixed 5 V, 3 A, dual role,
    externally powered, USB communications capable, data-role swap. *)
Definition src_cap_pdo : Z :=
  PDO_FIXED 5000 3000
    (Z.lor PDO_FIXED_DUAL_ROLE
    (Z.lor PDO_FIXED_EXTPOWER
    (Z.lor PDO_FIXED_USB_COMM PDO_FIXED_DATA_SWAP))).

(** An idle device after the operator wrote "src" and the event work
    ran; after the VBUS timer then fired; after the event work ran once
    more; after the Port Manager then enabled PD reception and the event
    work ran again. *)
Definition src_started (d : tcpmtest_data) : tcpmtest_data :=
  tcpmtest_event_work (fst (tcpmtest_sysfs_store d (Some "src"%string) 3)).

Definition src_vbus_on (d : tcpmtest_data) : option tcpmtest_data :=
  tcpmtest_tmo_work (src_started d).

Definition src_vbus_reported (d2 : tcpmtest_data) : tcpmtest_data :=
  tcpmtest_event_work d2.

Definition src_caps_staged (d3 : tcpmtest_data) : tcpmtest_data :=
  tcpmtest_event_work (tcpmtest_set_pd_rx d3 true).

(** ** Reactions to data messages and other transmissions *)

(** The Port Manager's own hard reset: every pending request and the
    message-ID counter are cleared, and the Port Manager is not told. *)
Definition own_hard_reset (d d' : tcpmtest_data) : Prop :=
  d' = set_rx_id 0 (set_request request_none d).

(** A structured VDM header that starts a command. *)
Definition svdm_init (vdo_hdr : Z) : Prop :=
  Z.land vdo_hdr VDO_SVDM_TYPE <> 0 /\ PD_VDO_CMDT vdo_hdr = CMDT_INIT.

(** The running source session with a hard reset of the Port Manager
    latched for processing. *)
Definition src_running_tx_hard_reset : tcpmtest_data :=
  set_msg_tx true (set_tx_type TCPC_TX_HARD_RESET src_running).

(** A Discover Modes command for the DisplayPort SVID, as the Port
    Manager sends it when it is source and host, and the running sink
    session with that message latched for processing. *)
Definition disc_modes_msg : pd_message :=
  mk_pd_message
    (PD_HEADER (data_val PD_DATA_VENDOR_DEF) TYPEC_SOURCE TYPEC_HOST 1 1)
    (Arr.upd Arr.zero 0
       (VDO_STR USB_SID_DISPLAYPORT 0 0 CMDT_INIT CMD_DISCOVER_MODES)).

Definition snk_running_disc_modes : tcpmtest_data :=
  latched disc_modes_msg snk_attached.

(** ** The calls of a pass *)

Definition is_vbus_change (c : call) : bool :=
  match c with tcpm_vbus_change => true | _ => false end.

Definition is_transmit_complete (c : call) : bool :=
  match c with tcpm_pd_transmit_complete _ => true | _ => false end.

Definition is_pd_receive (c : call) : bool :=
  match c with tcpm_pd_receive _ => true | _ => false end.

(** The calls the state machine makes: a CC change, a controller reset,
    the timer armed with 5 ms. *)
Definition is_sm_call (c : call) : bool :=
  match c with
  | tcpm_cc_change | tcpm_tcpc_reset => true
  | mod_delayed_work_tmo ms => ms =? 5
  | _ => false
  end.

Definition count_calls (p : call -> bool) (l : list call) : nat :=
  List.length (filter p l).

(** The status a transmission is completed with when the mode [m] is
    active. *)
Definition tx_status_of_mode (m : testmode) : tcpm_transmit_status :=
  match m with
  | TESTMODE_SNK | TESTMODE_SRC => TCPC_TX_SUCCESS
  | _ => TCPC_TX_FAILED
  end.

(** The source session with the SourceCapabilities staged: the operator
    wrote "src" to the probed device, the event work ran, the VBUS timer
    fired, the event work ran, the Port Manager enabled PD reception and
    the event work ran again. *)
Definition src_caps_pending : tcpmtest_data :=
  src_caps_staged
    (src_vbus_reported (tmo_work_or (src_started tcpmtest_probe_data))).

(** ** The calls of the Port Manager into the facade *)

(** One call of the Port Manager into the operations the driver
    registers with it, taking the device from [d] to [d']; a transmit
    call that faults takes it nowhere. *)
Inductive facade_call : tcpmtest_data -> tcpmtest_data -> Prop :=
| call_init : forall d, facade_call d (tcpmtest_init d)
| call_set_cc : forall d cc, facade_call d (tcpmtest_set_cc d cc)
| call_start_drp_toggling : forall d cc,
    facade_call d (tcpmtest_start_drp_toggling d cc)
| call_set_polarity : forall d pol,
    facade_call d (tcpmtest_set_polarity d pol)
| call_set_vconn : forall d enable,
    facade_call d (tcpmtest_set_vconn d enable)
| call_set_roles : forall d attached pr dr,
    facade_call d (tcpmtest_set_roles d attached pr dr)
| call_set_pd_rx : forall d enable,
    facade_call d (tcpmtest_set_pd_rx d enable)
| call_set_vbus : forall d source sink,
    facade_call d (tcpmtest_set_vbus d source sink)
| call_pd_transmit : forall d type msg d',
    tcpmtest_pd_transmit d type msg = Some d' -> facade_call d d'.

(** ** The TI HD3SS460 alternate-mode mux driver

    The driver sets three control lines of the mux through the GPIO
    consumer interface.  What it does to the outside is the sequence of
    GPIO operations it issues and the value it returns; both are kept. *)

Module Hd3ss460.

(** Modelled from the spec: [linux/usb/typec.h] and [linux/usb/typec_mux.h]
    are not part of the sources at hand; the enumerations list the
    constants the driver names.  The numeric values of the mux modes,
    which the driver uses as bit positions, are a parameter of the
    model. *)
Inductive typec_orientation :=
| TYPEC_ORIENTATION_NONE | TYPEC_ORIENTATION_NORMAL
| TYPEC_ORIENTATION_REVERSE.

Inductive typec_mux_mode :=
| TYPEC_MUX_NONE | TYPEC_MUX_DEFAULT | TYPEC_MUX_2CH_USBSS
| TYPEC_MUX_4CH_AM | TYPEC_MUX_2CH_USBSS_2CH_AM
| TYPEC_MUX_2CH_USBSS_2CH_AM_B.

Definition typec_mux_mode_eqb (a b : typec_mux_mode) : bool :=
  match a, b with
  | TYPEC_MUX_NONE, TYPEC_MUX_NONE
  | TYPEC_MUX_DEFAULT, TYPEC_MUX_DEFAULT
  | TYPEC_MUX_2CH_USBSS, TYPEC_MUX_2CH_USBSS
  | TYPEC_MUX_4CH_AM, TYPEC_MUX_4CH_AM
  | TYPEC_MUX_2CH_USBSS_2CH_AM, TYPEC_MUX_2CH_USBSS_2CH_AM
  | TYPEC_MUX_2CH_USBSS_2CH_AM_B, TYPEC_MUX_2CH_USBSS_2CH_AM_B => true
  | _, _ => false
  end.

(** The three lines of [struct tihd3ss460_platform_data] and the two
    operations the driver issues on them. *)
Inductive gpio := en_gpio | amsel_gpio | pol_gpio.

Inductive gpio_op :=
| gpiod_direction_output (g : gpio) (value : Z)
| gpiod_direction_input (g : gpio).

Definition op_gpio (o : gpio_op) : gpio :=
  match o with
  | gpiod_direction_output g _ => g
  | gpiod_direction_input g => g
  end.

(** [struct tihd3ss460_platform_data], without the kernel handles. *)
Record tihd3ss460_platform_data := mk_hdp {
  default_mux_mode : typec_mux_mode;
  mode_support : Z
}.

Definition u8 (x : Z) : Z := x mod 2 ^ 8.

Section Driver.

(** The value of each mode constant, and the value each GPIO operation
    returns: 0, or a negative error. *)
Variable mux_mode_val : typec_mux_mode -> Z.
Variable gpiod_ret : gpio_op -> Z.

(** One GPIO operation: its return value and the operation issued. *)
Definition gpiod (o : gpio_op) : Z * list gpio_op := (gpiod_ret o, [o]).

(** [ret = first; if (!ret) ret = second;] *)
Definition gpiod_then (first second : gpio_op) : Z * list gpio_op :=
  if gpiod_ret first =? 0
  then (gpiod_ret second, [first; second])
  else (gpiod_ret first, [first]).

Definition tihd3ss460_sw_set (orientation : typec_orientation)
    : Z * list gpio_op :=
  match orientation with
  | TYPEC_ORIENTATION_NONE => gpiod (gpiod_direction_output en_gpio 0)
  | TYPEC_ORIENTATION_NORMAL => gpiod (gpiod_direction_output pol_gpio 0)
  | TYPEC_ORIENTATION_REVERSE => gpiod (gpiod_direction_output pol_gpio 1)
  end.

(** [hdp->mode_support & (0x1 << mode)] *)
Definition mode_supported (hdp : tihd3ss460_platform_data)
    (mode : typec_mux_mode) : bool :=
  negb (Z.land (mode_support hdp) (Z.shiftl 1 (mux_mode_val mode)) =? 0).

Definition tihd3ss460_mux_set (hdp : tihd3ss460_platform_data)
    (mode : typec_mux_mode) : Z * list gpio_op :=
  let mode := if typec_mux_mode_eqb mode TYPEC_MUX_DEFAULT
              then default_mux_mode hdp else mode in
  match mode with
  | TYPEC_MUX_DEFAULT
  | TYPEC_MUX_NONE => gpiod (gpiod_direction_output en_gpio 0)
  | TYPEC_MUX_2CH_USBSS =>
    if mode_supported hdp TYPEC_MUX_2CH_USBSS
    then gpiod_then (gpiod_direction_input amsel_gpio)
                    (gpiod_direction_output en_gpio 1)
    else (- EINVAL, [])
  | TYPEC_MUX_4CH_AM =>
    if mode_supported hdp TYPEC_MUX_4CH_AM
    then gpiod_then (gpiod_direction_output amsel_gpio 1)
                    (gpiod_direction_output en_gpio 1)
    else (- EINVAL, [])
  | TYPEC_MUX_2CH_USBSS_2CH_AM =>
    if mode_supported hdp TYPEC_MUX_2CH_USBSS_2CH_AM
    then gpiod_then (gpiod_direction_output amsel_gpio 0)
                    (gpiod_direction_output en_gpio 1)
    else (- EINVAL, [])
  | TYPEC_MUX_2CH_USBSS_2CH_AM_B =>
    if mode_supported hdp TYPEC_MUX_2CH_USBSS_2CH_AM_B
    then gpiod_then (gpiod_direction_output amsel_gpio 0)
                    (gpiod_direction_input en_gpio)
    else (- EINVAL, [])
  end.

(** The part of [tihd3ss460_probe] that fills [mode_support], a [u8]
    that [devm_kzalloc] has zeroed, from the presence of the three
    device properties. *)
Definition probe_mode_support
    (have_2ch_usbss have_4ch_am have_2ch_usbss_2ch_am : bool) : Z :=
  let m0 := 0 in
  let m1 := if have_2ch_usbss
            then u8 (Z.lor m0 (Z.shiftl 1 (mux_mode_val TYPEC_MUX_2CH_USBSS)))
            else m0 in
  let m2 := if have_4ch_am
            then u8 (Z.lor m1 (Z.shiftl 1 (mux_mode_val TYPEC_MUX_4CH_AM)))
            else m1 in
  let m3 := if have_2ch_usbss_2ch_am
            then u8 (Z.lor m2 (Z.shiftl 1
                                 (mux_mode_val TYPEC_MUX_2CH_USBSS_2CH_AM)))
            else m2 in
  if m3 =? 0 then u8 (-1) else m3.

(** The mode the mux is asked for once [TYPEC_MUX_DEFAULT] has been
    replaced. *)
Definition resolved_mode (hdp : tihd3ss460_platform_data)
    (mode : typec_mux_mode) : typec_mux_mode :=
  if typec_mux_mode_eqb mode TYPEC_MUX_DEFAULT
  then default_mux_mode hdp else mode.

(** The two operations that set up a mode which connects something. *)
Definition mode_ops (mode : typec_mux_mode) : list gpio_op :=
  match mode with
  | TYPEC_MUX_2CH_USBSS =>
    [gpiod_direction_input amsel_gpio; gpiod_direction_output en_gpio 1]
  | TYPEC_MUX_4CH_AM =>
    [gpiod_direction_output amsel_gpio 1; gpiod_direction_output en_gpio 1]
  | TYPEC_MUX_2CH_USBSS_2CH_AM =>
    [gpiod_direction_output amsel_gpio 0; gpiod_direction_output en_gpio 1]
  | TYPEC_MUX_2CH_USBSS_2CH_AM_B =>
    [gpiod_direction_output amsel_gpio 0; gpiod_direction_input en_gpio]
  | TYPEC_MUX_NONE | TYPEC_MUX_DEFAULT => [gpiod_direction_output en_gpio 0]
  end.

Definition connects (mode : typec_mux_mode) : bool :=
  match mode with
  | TYPEC_MUX_NONE | TYPEC_MUX_DEFAULT => false
  | _ => true
  end.

End Driver.

(** The values of the mode constants when the enumeration is numbered in
    the order above, and GPIO lines that never fail. *)
Definition mux_mode_val_in_order (m : typec_mux_mode) : Z :=
  match m with
  | TYPEC_MUX_NONE => 0 | TYPEC_MUX_DEFAULT => 1 | TYPEC_MUX_2CH_USBSS => 2
  | TYPEC_MUX_4CH_AM => 3 | TYPEC_MUX_2CH_USBSS_2CH_AM => 4
  | TYPEC_MUX_2CH_USBSS_2CH_AM_B => 5
  end.

Definition gpiod_ok (o : gpio_op) : Z := 0.

End Hd3ss460.
(** ** The message-ID counter over a run *)

(** The occasions on which the counter is cleared: the Port Manager
    transmitted a SoftReset; the Port Manager transmitted a hard reset;
    the simulated peer started a hard reset, of which the Port Manager
    is told; the session ended, which the state machine carries out in
    [SSTATE_TO_NONE]. *)
Inductive id_reset_cause :=
| SOFT_RESET_SENT
| HARD_RESET_SENT
| HARD_RESET_FROM_PEER
| SESSION_END.

(** What happens to the counter in the course of a run: a message [m]
    is synthesized, or the counter is cleared. *)
Inductive id_event :=
| id_synth (m : pd_message)
| id_reset (c : id_reset_cause).

(** The counter the events call for: one more (as an [unsigned int])
    for each synthesized message, zero after a reset. *)
Definition counter_step (c : Z) (ev : id_event) : Z :=
  match ev with
  | id_synth _ => u32 (c + 1)
  | id_reset _ => 0
  end.

Definition counter_after (c : Z) (evs : list id_event) : Z :=
  fold_left counter_step evs c.

Definition is_synth (ev : id_event) : bool :=
  match ev with
  | id_synth _ => true
  | id_reset _ => false
  end.

Definition no_reset (evs : list id_event) : bool := forallb is_synth evs.

(** Every synthesized message of [evs] carries the counter of its
    moment modulo 8, the counter being [c] at the start. *)
Fixpoint ids_ok (c : Z) (evs : list id_event) : Prop :=
  match evs with
  | [] => True
  | ev :: rest =>
    match ev with
    | id_synth m => pd_header_id (header m) = c mod 8
    | id_reset _ => True
    end /\ ids_ok (counter_step c ev) rest
  end.

(** The transmission the classifier finds latched: a hard reset, a
    SoftReset. *)
Definition hard_reset_latched (d : tcpmtest_data) : bool :=
  tx_type_eqb (tx_type d) TCPC_TX_HARD_RESET.

Definition soft_reset_latched (d : tcpmtest_data) : bool :=
  tx_type_eqb (tx_type d) TCPC_TX_SOP &&
  (pd_header_cnt (header (tx_msg d)) =? 0) &&
  match ctrl_of (pd_header_type (header (tx_msg d))) with
  | Some PD_CTRL_SOFT_RESET => true
  | _ => false
  end.

(** The calls made on the way from [d] to [d'], and whether the Port
    Manager was told of a hard reset among them. *)
Definition new_calls (d d' : tcpmtest_data) : list call :=
  skipn (List.length (calls d)) (calls d').

Definition is_pd_hard_reset (c : call) : bool :=
  match c with
  | tcpm_pd_hard_reset => true
  | _ => false
  end.

Definition told_hard_reset (d d' : tcpmtest_data) : bool :=
  existsb is_pd_hard_reset (new_calls d d').

(** The reset, if any, at a call of a classifier that takes [d] to
    [d'], and at a call of the state machine on [d]. *)
Definition classifier_reset (d d' : tcpmtest_data) : option id_reset_cause :=
  if hard_reset_latched d then Some HARD_RESET_SENT
  else if soft_reset_latched d then Some SOFT_RESET_SENT
  else if told_hard_reset d d' then Some HARD_RESET_FROM_PEER
  else None.

Definition state_machine_reset (d : tcpmtest_data) : option id_reset_cause :=
  if simstate_eqb (state d) SSTATE_TO_NONE then Some SESSION_END else None.

(** The events of one call that takes [d] to [d'], [r] being its
    reset: without a reset, a message was synthesized exactly when the
    counter moved, and it is the staged one. *)
Definition call_ids (r : option id_reset_cause) (d d' : tcpmtest_data)
    : list id_event :=
  match r with
  | Some c => [id_reset c]
  | None => if rx_id d' =? rx_id d then [] else [id_synth (rx_msg d')]
  end.

Definition classifier_ids (d d' : tcpmtest_data) : list id_event :=
  call_ids (classifier_reset d d') d d'.

Definition state_machine_ids (d d' : tcpmtest_data) : list id_event :=
  call_ids (state_machine_reset d) d d'.

(** What the events of a call stand for: at a reset the counter is
    zero afterwards and no message was synthesized; without one, either
    nothing was synthesized and the counter, the staged message and its
    flag are as before, or a message was synthesized under the old
    counter and the counter incremented. *)
Definition ids_exact (r : option id_reset_cause) (d d' : tcpmtest_data)
    : Prop :=
  match r with
  | Some _ => rx_id d' = 0 /\ rx_msg d' = rx_msg d
  | None =>
    (rx_id d' = rx_id d /\ rx_msg d' = rx_msg d /\
     msg_rx (request d') = msg_rx (request d)) \/
    staged_with_id d d'
  end.

(** The events of the transmit block of the event work on [d]: those
    of the classifier of the active mode, if a transmission is latched
    and a session is active. *)
Definition event_msg_tx_ids (d : tcpmtest_data) : list id_event :=
  if msg_tx (request d) then
    let d1 := set_msg_tx false d in
    if testmode_eqb (sysfs_mode d1) TESTMODE_SNK then
      classifier_ids d1 (tcpmtest_process_tx_msg_for_snk d1)
    else if testmode_eqb (sysfs_mode d1) TESTMODE_SRC then
      classifier_ids d1 (tcpmtest_process_tx_msg_for_src d1)
    else []
  else [].

(** The events of one pass of the event work on [d]: those of the
    transmit block, which runs once the mode change and the VBUS change
    are dealt with, then those of the state machine. *)
Definition event_work_ids (d : tcpmtest_data) : list id_event :=
  let d2 := event_vbus_chng (event_mode_set d) in
  let d3 := event_msg_tx d2 in
  event_msg_tx_ids d2 ++ state_machine_ids d3 (tcpmtest_state_machine d3 false).

(** The events of one run of the timeout work that takes [d] to [d']:
    those of the state machine, which runs once the staged message is
    delivered; the delivery keeps the state and the counter. *)
Definition tmo_work_ids (d d' : tcpmtest_data) : list id_event :=
  state_machine_ids d d'.

(** One step of the simulator with its events.  A write to the mode
    attribute and a call into the facade have none. *)
Inductive id_step : tcpmtest_data -> list id_event -> tcpmtest_data -> Prop :=
| id_step_sysfs_store : forall d buf count,
    id_step d [] (fst (tcpmtest_sysfs_store d buf count))
| id_step_facade_call : forall d d',
    facade_call d d' -> id_step d [] d'
| id_step_event_work : forall d,
    id_step d (event_work_ids d) (tcpmtest_event_work d)
| id_step_tmo_work : forall d d',
    tcpmtest_tmo_work d = Some d' -> id_step d (tmo_work_ids d d') d'.

(** A run from [d0] to [d] with its events in order. *)
Inductive run : tcpmtest_data -> list id_event -> tcpmtest_data -> Prop :=
| run_nil : forall d, run d [] d
| run_step : forall d0 evs d evs' d',
    run d0 evs d -> id_step d evs' d' -> run d0 (evs ++ evs') d'.

(** While no session is active the simulator is idle and the counter is
    zero. *)
Definition idle_counter (d : tcpmtest_data) : Prop :=
  sysfs_mode d = TESTMODE_NONE -> state d = SSTATE_NONE /\ rx_id d = 0.

(** The transmit call on a state and a message where it is known not to
    fault. *)
Definition pd_transmit_or (d : tcpmtest_data) (type : tcpm_transmit_type)
    (m : pd_message) : tcpmtest_data :=
  match tcpmtest_pd_transmit d type (Some m) with
  | Some d' => d'
  | None => d
  end.

(** A source session from the delivery of the SourceCapabilities on: the
    Port Manager sends its Request, the event work stages the Accept,
    the timeout work delivers it and stages the PowerReady, the timeout
    work delivers that; then the Port Manager sends a SoftReset and asks
    for the capabilities again. *)
Definition src_requested : tcpmtest_data :=
  tcpmtest_event_work (pd_transmit_or src_waiting TCPC_TX_SOP request_msg).

Definition src_accepted : tcpmtest_data := tmo_work_or src_requested.

Definition src_powered : tcpmtest_data := tmo_work_or src_accepted.

Definition src_soft_reset : tcpmtest_data :=
  tcpmtest_event_work
    (pd_transmit_or src_powered TCPC_TX_SOP (ctrl_msg PD_CTRL_SOFT_RESET 0)).

Definition src_caps_again : tcpmtest_data :=
  tcpmtest_event_work
    (pd_transmit_or src_soft_reset TCPC_TX_SOP
       (ctrl_msg PD_CTRL_GET_SOURCE_CAP 1)).
(** * Properties *)

(** The PDO literal quoted next to [tcpmtest_src_pdos] in the driver. *)
Example PDO_FIXED_literal :
  PDO_FIXED 5000 1500
    (Z.lor PDO_FIXED_DUAL_ROLE (Z.lor PDO_FIXED_USB_COMM PDO_FIXED_DATA_SWAP))
  = 0x26019096.
Proof. reflexivity. Qed.

(** Splits a conjunction, and nothing else. *)
Ltac split_and := match goal with |- _ /\ _ => split end.

(** ** The VBUS setter *)

Lemma eqb_orb_refl : forall a b : bool, Bool.eqb (a || b) (a || b) = true.
Proof. intros a b; apply Bool.eqb_reflx. Qed.

(** C7: [tcpmtest_set_vbus] stores [source || sink] as the VBUS-present
    value; it latches a VBUS change and queues the event work exactly
    when that value differs from the stored one, and otherwise does
    nothing; a second call with the same pair right after the first one
    changes nothing (so the change is latched at most once). *)
Theorem set_vbus_latches_only_on_change :
  forall (d : tcpmtest_data) (source sink : bool),
    let changed := negb (Bool.eqb (source || sink) (vbus_present d)) in
    let d' := tcpmtest_set_vbus d source sink in
    vbus_present d' = source || sink /\
    vbus_chng (request d') = vbus_chng (request d) || changed /\
    calls d' = calls d ++ (if changed then [queue_work_event] else []) /\
    (if changed then True else d' = d) /\
    tcpmtest_set_vbus d' source sink = d'.
Proof.
  intros d source sink changed d'.
  subst changed d'. unfold tcpmtest_set_vbus.
  destruct (Bool.eqb (source || sink) (vbus_present d)) eqn:E; simpl.
  - apply Bool.eqb_prop in E.
    rewrite E, Bool.eqb_reflx, Bool.orb_false_r, app_nil_r. simpl.
    repeat split; reflexivity.
  - rewrite eqb_orb_refl. simpl.
    rewrite Bool.orb_true_r. repeat split; reflexivity.
Qed.

(** ** The PDO-type cache and the request logger *)

Lemma land_7_mod : forall x, Z.land x 7 = x mod 8.
Proof. intro x. exact (Z.land_ones x 3 ltac:(lia)). Qed.

Lemma rdo_index_range : forall rdo, 0 <= rdo_index rdo <= 7.
Proof.
  intro rdo. unfold rdo_index, RDO_OBJ_POS_MASK. rewrite land_7_mod.
  pose proof (Z.mod_pos_bound (Z.shiftr rdo RDO_OBJ_POS_SHIFT) 8). lia.
Qed.

Lemma pd_header_cnt_range : forall h, 0 <= pd_header_cnt h <= 7.
Proof.
  intro h. unfold pd_header_cnt, PD_HEADER_CNT_MASK. rewrite land_7_mod.
  pose proof (Z.mod_pos_bound (Z.shiftr h PD_HEADER_CNT_SHIFT) 8). lia.
Qed.

(** The cache index of a request is inside the cache exactly when the
    object position is not 0. *)
Lemma request_pdo_index_in_bounds :
  forall rdo,
    Arr.in_bounds PDO_MAX_OBJECTS (request_pdo_index rdo)
    = negb (rdo_index rdo =? 0).
Proof.
  intro rdo. pose proof (rdo_index_range rdo) as R.
  unfold request_pdo_index, Arr.in_bounds, PDO_MAX_OBJECTS, u32, UINT_MOD.
  change (2 ^ 32) with 4294967296.
  destruct (Z.eqb_spec (rdo_index rdo) 0) as [E | E].
  - rewrite E. vm_compute. reflexivity.
  - rewrite Z.mod_small by lia. cbv [negb].
    apply andb_true_intro; split; [apply Z.leb_le | apply Z.ltb_lt]; lia.
Qed.

(** Any Request whose first RDO carries object position 0 makes the
    logger, and with it the transmit operation, fault. *)
Lemma pd_transmit_request_pos0 :
  forall d type msg,
    tx_type_val type <= tx_type_val TCPC_TX_SOP_PRIME_PRIME ->
    pd_header_rev (header msg) = PD_REV20 ->
    data_of (pd_header_type (header msg)) = Some PD_DATA_REQUEST ->
    pd_header_cnt (header msg) <> 0 ->
    rdo_index (payload msg 0) = 0 ->
    tcpmtest_log_request_pdo d (payload msg 0) = None /\
    tcpmtest_pd_transmit d type (Some msg) = None.
Proof.
  intros d type msg Htx Hrev Hty Hcnt Hidx.
  assert (Hlog : tcpmtest_log_request_pdo d (payload msg 0) = None).
  { unfold tcpmtest_log_request_pdo, Arr.get. cbv zeta.
    rewrite request_pdo_index_in_bounds, Hidx. reflexivity. }
  split; [exact Hlog |].
  unfold tcpmtest_pd_transmit, tcpmtest_log_msg. cbv zeta.
  replace (tx_type_val type >? tx_type_val TCPC_TX_SOP_PRIME_PRIME)
    with false by (symmetry; rewrite Z.gtb_ltb; apply Z.ltb_ge; exact Htx).
  rewrite Hrev. change (negb (PD_REV20 =? PD_REV20)) with false. cbv iota.
  pose proof (pd_header_cnt_range (header msg)) as R.
  destruct (Z.to_nat (pd_header_cnt (header msg))) as [| n] eqn:En; [lia |].
  cbn [tcpmtest_log_dobjs]. cbv zeta. rewrite Hty, Hlog. reflexivity.
Qed.

(** C10: a Request data message whose RDO carries object position 0 is a
    message the transmit operation accepts like any other; for it the
    request logger computes the index [0 - 1], which as an unsigned
    number is 4294967295 and lies outside the seven-entry cache, so the
    transmit operation faults. *)
Theorem request_pdo_index_escapes_cache :
  rdo_index (payload request_pos0_msg 0) = 0 /\
  request_pdo_index (payload request_pos0_msg 0) = 4294967295 /\
  Arr.in_bounds PDO_MAX_OBJECTS
    (request_pdo_index (payload request_pos0_msg 0)) = false /\
  tcpmtest_log_request_pdo tcpmtest_probe_data (payload request_pos0_msg 0)
    = None /\
  tcpmtest_pd_transmit tcpmtest_probe_data TCPC_TX_SOP
    (Some request_pos0_msg) = None.
Proof.
  split_and; [reflexivity |].
  split_and; [vm_compute; reflexivity |].
  split_and; [rewrite request_pdo_index_in_bounds; reflexivity |].
  apply pd_transmit_request_pos0; try reflexivity.
  - vm_compute. discriminate.
  - vm_compute. discriminate.
Qed.

(** ** The inbound classifier *)

Lemma ctrl_of_val : forall t, ctrl_of (ctrl_val t) = Some t.
Proof. destruct t; reflexivity. Qed.

Lemma data_of_val : forall t, data_of (data_val t) = Some t.
Proof. destruct t; reflexivity. Qed.

(** What the sink classifier does with a control message over SOP. *)
Lemma process_snk_sop_ctrl :
  forall vdm d,
    tx_type d = TCPC_TX_SOP ->
    pd_header_cnt (header (tx_msg d)) = 0 ->
    process_tx_msg_for_snk_with vdm d =
    match ctrl_of (pd_header_type (header (tx_msg d))) with
    | Some PD_CTRL_REJECT | Some PD_CTRL_GET_SOURCE_CAP | Some PD_CTRL_DR_SWAP
    | Some PD_CTRL_PR_SWAP | Some PD_CTRL_VCONN_SWAP =>
      tcpmtest_hard_reset d true
    | Some PD_CTRL_GET_SINK_CAP => tcpmtest_mk_snk_sink_cap d
    | Some PD_CTRL_SOFT_RESET => set_rx_id 0 d
    | _ => d
    end.
Proof.
  intros vdm d Htx Hcnt. unfold process_tx_msg_for_snk_with. cbv zeta.
  rewrite Htx, Hcnt.
  destruct (ctrl_of (pd_header_type (header (tx_msg d)))) as [[]|];
    reflexivity.
Qed.

(** What the source classifier does with a control message over SOP. *)
Lemma process_src_sop_ctrl :
  forall d,
    tx_type d = TCPC_TX_SOP ->
    pd_header_cnt (header (tx_msg d)) = 0 ->
    tcpmtest_process_tx_msg_for_src d =
    match ctrl_of (pd_header_type (header (tx_msg d))) with
    | Some PD_CTRL_ACCEPT | Some PD_CTRL_REJECT | Some PD_CTRL_GET_SINK_CAP
    | Some PD_CTRL_DR_SWAP | Some PD_CTRL_PR_SWAP | Some PD_CTRL_VCONN_SWAP =>
      tcpmtest_hard_reset d true
    | Some PD_CTRL_GET_SOURCE_CAP => tcpmtest_mk_src_data_source_cap d
    | Some PD_CTRL_SOFT_RESET => set_rx_id 0 d
    | _ => d
    end.
Proof.
  intros d Htx Hcnt. unfold tcpmtest_process_tx_msg_for_src. cbv zeta.
  rewrite Htx, Hcnt.
  destruct (ctrl_of (pd_header_type (header (tx_msg d)))) as [[]|];
    reflexivity.
Qed.

(** What the source classifier does with a data message over SOP. *)
Lemma process_src_sop_data :
  forall d,
    tx_type d = TCPC_TX_SOP ->
    pd_header_cnt (header (tx_msg d)) <> 0 ->
    tcpmtest_process_tx_msg_for_src d =
    match data_of (pd_header_type (header (tx_msg d))) with
    | Some PD_DATA_SOURCE_CAP => tcpmtest_hard_reset d true
    | Some PD_DATA_REQUEST =>
      if simstate_eqb (state d) SSTATE_SRC_WAIT_FOR_REQUEST
      then set_state SSTATE_SRC_SEND_REQUEST d else d
    | _ => d
    end.
Proof.
  intros d Htx Hcnt. unfold tcpmtest_process_tx_msg_for_src. cbv zeta.
  rewrite Htx. apply Z.eqb_neq in Hcnt. rewrite Hcnt.
  destruct (data_of (pd_header_type (header (tx_msg d)))) as [[]|];
    reflexivity.
Qed.

Lemma hard_reset_from_peer :
  forall d, peer_hard_reset d (tcpmtest_hard_reset d true).
Proof. intro d. reflexivity. Qed.

Lemma PD_HEADER_id_mod :
  forall type pwr dr id cnt,
    PD_HEADER type pwr dr id cnt = PD_HEADER type pwr dr (id mod 8) cnt.
Proof.
  intros. unfold PD_HEADER, PD_HEADER_ID_MASK.
  rewrite !land_7_mod, Z.mod_mod by lia. reflexivity.
Qed.

Lemma small_cases_8 :
  forall x, 0 <= x <= 7 ->
    x = 0 \/ x = 1 \/ x = 2 \/ x = 3 \/ x = 4 \/ x = 5 \/ x = 6 \/ x = 7.
Proof. intros; lia. Qed.

Lemma small_cases_16 :
  forall x, 0 <= x <= 15 ->
    x = 0 \/ x = 1 \/ x = 2 \/ x = 3 \/ x = 4 \/ x = 5 \/ x = 6 \/ x = 7 \/
    x = 8 \/ x = 9 \/ x = 10 \/ x = 11 \/ x = 12 \/ x = 13 \/ x = 14 \/
    x = 15.
Proof. intros; lia. Qed.

Ltac split_cases H := repeat (destruct H as [H | H]); subst.

(** The fields of a header built by [PD_HEADER] read back. *)
Lemma PD_HEADER_fields :
  forall type pwr dr id cnt,
    0 <= type <= 15 -> 0 <= cnt <= 7 ->
    pd_header_type (PD_HEADER type pwr dr id cnt) = type /\
    pd_header_cnt (PD_HEADER type pwr dr id cnt) = cnt /\
    pd_header_id (PD_HEADER type pwr dr id cnt) = id mod 8 /\
    pd_header_rev (PD_HEADER type pwr dr id cnt) = PD_REV20.
Proof.
  intros type pwr dr id cnt Ht Hc.
  rewrite PD_HEADER_id_mod.
  pose proof (Z.mod_pos_bound id 8 ltac:(lia)) as Hi.
  generalize dependent (id mod 8). intros i Hi.
  assert (Hi' : 0 <= i <= 7) by lia. clear Hi.
  apply small_cases_16 in Ht. apply small_cases_8 in Hc.
  apply small_cases_8 in Hi'.
  split_cases Ht; split_cases Hc; split_cases Hi'; destruct pwr, dr;
    vm_compute; repeat split; reflexivity.
Qed.

Lemma ctrl_val_range : forall t, 0 <= ctrl_val t <= 15.
Proof. destruct t; simpl; lia. Qed.

Lemma data_val_range : forall t, 0 <= data_val t <= 15.
Proof. destruct t; simpl; lia. Qed.

Lemma mk_snk_sink_cap_stages :
  forall d,
    stages_data_reply PD_DATA_SINK_CAP 1
      (PDO_FIXED 5000 2000 PDO_FIXED_USB_COMM) d (tcpmtest_mk_snk_sink_cap d).
Proof.
  intro d. unfold stages_data_reply.
  destruct (PD_HEADER_fields (data_val PD_DATA_SINK_CAP) TYPEC_SINK
              TYPEC_DEVICE (rx_id d) 1 (data_val_range _) ltac:(lia))
    as (Hty & Hcnt & _ & _).
  repeat split; [exact Hty | exact Hcnt].
Qed.

(** C2 (as amended): a control message the Port Manager transmits over
    SOP is classified as follows.  GoodCRC, GotoMin, Ping and PowerReady
    are absorbed in both roles; Accept is absorbed in the sink role and
    answered by a peer-initiated hard reset in the source role; Reject and
    the DR, PR and Vconn swap requests are answered by a peer-initiated
    hard reset in both roles, and so is GetSourceCap in the sink role;
    SoftReset sets only the message-ID counter to zero; GetSinkCap in the
    sink role stages a SinkCapabilities reply. *)
Theorem ctrl_msg_reactions :
  forall d t,
    tx_type d = TCPC_TX_SOP ->
    pd_header_cnt (header (tx_msg d)) = 0 ->
    ctrl_of (pd_header_type (header (tx_msg d))) = Some t ->
    match t with
    | PD_CTRL_GOOD_CRC | PD_CTRL_GOTO_MIN | PD_CTRL_PING | PD_CTRL_PS_RDY =>
      absorbed d (tcpmtest_process_tx_msg_for_snk d) /\
      absorbed d (tcpmtest_process_tx_msg_for_src d)
    | PD_CTRL_ACCEPT =>
      absorbed d (tcpmtest_process_tx_msg_for_snk d) /\
      peer_hard_reset d (tcpmtest_process_tx_msg_for_src d)
    | PD_CTRL_REJECT | PD_CTRL_DR_SWAP | PD_CTRL_PR_SWAP
    | PD_CTRL_VCONN_SWAP =>
      peer_hard_reset d (tcpmtest_process_tx_msg_for_snk d) /\
      peer_hard_reset d (tcpmtest_process_tx_msg_for_src d)
    | PD_CTRL_GET_SOURCE_CAP =>
      peer_hard_reset d (tcpmtest_process_tx_msg_for_snk d)
    | PD_CTRL_SOFT_RESET =>
      soft_reset_only d (tcpmtest_process_tx_msg_for_snk d) /\
      soft_reset_only d (tcpmtest_process_tx_msg_for_src d)
    | PD_CTRL_GET_SINK_CAP =>
      stages_data_reply PD_DATA_SINK_CAP 1
        (PDO_FIXED 5000 2000 PDO_FIXED_USB_COMM)
        d (tcpmtest_process_tx_msg_for_snk d)
    | PD_CTRL_WAIT => True
    end.
Proof.
  intros d t Htx Hcnt Ht.
  unfold tcpmtest_process_tx_msg_for_snk.
  rewrite (process_snk_sop_ctrl _ d Htx Hcnt).
  rewrite (process_src_sop_ctrl d Htx Hcnt).
  rewrite Ht.
  destruct t; try exact I; try split;
    try reflexivity; try apply hard_reset_from_peer;
    apply mk_snk_sink_cap_stages.
Qed.

Lemma ctrl_msg_reactions_witness :
  tx_type src_running_accept = TCPC_TX_SOP /\
  pd_header_cnt (header (tx_msg src_running_accept)) = 0 /\
  ctrl_of (pd_header_type (header (tx_msg src_running_accept)))
    = Some PD_CTRL_ACCEPT /\
  absorbed src_running_accept
    (tcpmtest_process_tx_msg_for_snk src_running_accept) /\
  peer_hard_reset src_running_accept
    (tcpmtest_process_tx_msg_for_src src_running_accept).
Proof.
  assert (H1 : tx_type src_running_accept = TCPC_TX_SOP) by reflexivity.
  assert (H2 : pd_header_cnt (header (tx_msg src_running_accept)) = 0)
    by reflexivity.
  assert (H3 : ctrl_of (pd_header_type (header (tx_msg src_running_accept)))
               = Some PD_CTRL_ACCEPT) by reflexivity.
  exact (conj H1 (conj H2 (conj H3
           (ctrl_msg_reactions src_running_accept PD_CTRL_ACCEPT H1 H2 H3)))).
Defined.

(** C2 as stated fails in the source role: there an Accept control
    message is not absorbed; the classifier clears the message-ID counter
    and reports a hard reset from the peer. *)
Lemma src_role_accept_not_absorbed :
  tx_type src_running_accept = TCPC_TX_SOP /\
  pd_header_cnt (header (tx_msg src_running_accept)) = 0 /\
  ctrl_of (pd_header_type (header (tx_msg src_running_accept)))
    = Some PD_CTRL_ACCEPT /\
  ~ absorbed src_running_accept
      (tcpmtest_process_tx_msg_for_src src_running_accept) /\
  rx_id src_running_accept = 3 /\
  rx_id (tcpmtest_process_tx_msg_for_src src_running_accept) = 0 /\
  calls (tcpmtest_process_tx_msg_for_src src_running_accept)
    = calls src_running_accept ++ [tcpm_pd_hard_reset].
Proof.
  repeat split; try reflexivity.
  unfold absorbed. intro H. apply (f_equal rx_id) in H.
  vm_compute in H. discriminate H.
Qed.

(** ** An unsolicited SinkCapabilities message in a running source
    session *)

Lemma set_state_same : forall d, set_state (state d) d = d.
Proof. destruct d; reflexivity. Qed.

Lemma event_mode_set_idle :
  forall d, mode_set (request d) = false -> event_mode_set d = d.
Proof. intros d H. unfold event_mode_set. rewrite H. reflexivity. Qed.

Lemma event_vbus_chng_idle :
  forall d, vbus_chng (request d) = false -> event_vbus_chng d = d.
Proof. intros d H. unfold event_vbus_chng. rewrite H. reflexivity. Qed.

(** In its four resting states the state machine does nothing. *)
Lemma state_machine_resting :
  forall d timeout,
    state d = SSTATE_NONE \/ state d = SSTATE_SNK_RUN \/
    state d = SSTATE_SRC_WAIT_FOR_REQUEST \/ state d = SSTATE_SRC_RUN ->
    tcpmtest_state_machine d timeout = d.
Proof.
  intros d timeout H.
  unfold tcpmtest_state_machine, state_machine_switch. cbv zeta.
  destruct H as [H | [H | [H | H]]]; rewrite H; cbn; rewrite <- H;
    apply set_state_same.
Qed.

(** C3 (as amended): in source mode with the state machine in
    [SSTATE_SRC_RUN], a SinkCapabilities data message transmitted by the
    Port Manager over SOP is absorbed.  The classifier leaves the state
    as it is; the pass of the event work that processes the message
    completes the transmission with success and issues no hard reset:
    state, message-ID counter and the staged-reply flag stay as they
    were. *)
Theorem src_running_absorbs_sink_cap :
  forall d rx,
    sysfs_mode d = TESTMODE_SRC ->
    state d = SSTATE_SRC_RUN ->
    request d = mk_request false rx true false ->
    tx_type d = TCPC_TX_SOP ->
    pd_header_cnt (header (tx_msg d)) <> 0 ->
    data_of (pd_header_type (header (tx_msg d))) = Some PD_DATA_SINK_CAP ->
    absorbed d (tcpmtest_process_tx_msg_for_src d) /\
    state (tcpmtest_event_work d) = SSTATE_SRC_RUN /\
    rx_id (tcpmtest_event_work d) = rx_id d /\
    request (tcpmtest_event_work d) = mk_request false rx false false /\
    calls (tcpmtest_event_work d) =
      calls d ++ [tcpm_pd_transmit_complete TCPC_TX_SUCCESS]
              ++ (if rx then [mod_delayed_work_tmo SRC_RESP_DELAY] else []).
Proof.
  intros d rx Hmode Hstate Hreq Htx Hcnt Hty.
  assert (Hsrc : forall d1, tx_type d1 = TCPC_TX_SOP ->
            tx_msg d1 = tx_msg d ->
            tcpmtest_process_tx_msg_for_src d1 = d1).
  { intros d1 Htx1 Hmsg. rewrite process_src_sop_data; rewrite ?Hmsg; auto.
    rewrite Hty. reflexivity. }
  split. { apply Hsrc; auto. }
  unfold tcpmtest_event_work. cbv zeta.
  rewrite event_mode_set_idle by (rewrite Hreq; reflexivity).
  rewrite event_vbus_chng_idle by (rewrite Hreq; reflexivity).
  assert (Hm : event_msg_tx d =
               log_call (tcpm_pd_transmit_complete TCPC_TX_SUCCESS)
                        (set_msg_tx false d)).
  { unfold event_msg_tx. rewrite Hreq. cbn [msg_tx]. cbv zeta.
    replace (sysfs_mode (set_msg_tx false d)) with TESTMODE_SRC
      by (rewrite <- Hmode; reflexivity).
    cbn [testmode_eqb].
    rewrite (Hsrc (set_msg_tx false d)) by (try exact Htx; reflexivity).
    reflexivity. }
  rewrite Hm.
  rewrite state_machine_resting
    by (right; right; right; rewrite <- Hstate; reflexivity).
  replace (msg_rx (request (log_call
             (tcpm_pd_transmit_complete TCPC_TX_SUCCESS)
             (set_msg_tx false d)))) with rx
    by (cbn; rewrite Hreq; reflexivity).
  destruct rx; cbn; rewrite Hreq, ?app_nil_r, <- ?app_assoc;
    repeat split; assumption || reflexivity.
Qed.

Lemma src_running_absorbs_sink_cap_witness :
  sysfs_mode src_running_sink_cap = TESTMODE_SRC /\
  state src_running_sink_cap = SSTATE_SRC_RUN /\
  request src_running_sink_cap = mk_request false false true false /\
  tx_type src_running_sink_cap = TCPC_TX_SOP /\
  pd_header_cnt (header (tx_msg src_running_sink_cap)) <> 0 /\
  data_of (pd_header_type (header (tx_msg src_running_sink_cap)))
    = Some PD_DATA_SINK_CAP /\
  (absorbed src_running_sink_cap
     (tcpmtest_process_tx_msg_for_src src_running_sink_cap) /\
   state (tcpmtest_event_work src_running_sink_cap) = SSTATE_SRC_RUN /\
   rx_id (tcpmtest_event_work src_running_sink_cap)
     = rx_id src_running_sink_cap /\
   request (tcpmtest_event_work src_running_sink_cap)
     = mk_request false false false false /\
   calls (tcpmtest_event_work src_running_sink_cap) =
     calls src_running_sink_cap
       ++ [tcpm_pd_transmit_complete TCPC_TX_SUCCESS] ++ []).
Proof.
  assert (H5 : pd_header_cnt (header (tx_msg src_running_sink_cap)) <> 0)
    by (vm_compute; discriminate).
  exact (conj eq_refl (conj eq_refl (conj eq_refl (conj eq_refl (conj H5
          (conj eq_refl
            (src_running_absorbs_sink_cap src_running_sink_cap false
               eq_refl eq_refl eq_refl eq_refl H5 eq_refl))))))).
Defined.

(** C3 as stated fails: in a running source session the processing of a
    SinkCapabilities data message issues no hard reset; the message-ID
    counter keeps its value 3 and the only call made is the completion of
    the transmission. *)
Lemma src_running_sink_cap_no_hard_reset :
  sysfs_mode src_running_sink_cap = TESTMODE_SRC /\
  state src_running_sink_cap = SSTATE_SRC_RUN /\
  pd_header_cnt (header (tx_msg src_running_sink_cap)) = 1 /\
  data_of (pd_header_type (header (tx_msg src_running_sink_cap)))
    = Some PD_DATA_SINK_CAP /\
  ~ peer_hard_reset src_running_sink_cap
      (tcpmtest_process_tx_msg_for_src src_running_sink_cap) /\
  calls (tcpmtest_event_work src_running_sink_cap)
    = [tcpm_pd_transmit_complete TCPC_TX_SUCCESS] /\
  ~ In tcpm_pd_hard_reset (calls (tcpmtest_event_work src_running_sink_cap)) /\
  rx_id (tcpmtest_event_work src_running_sink_cap) = 3.
Proof.
  repeat split; try reflexivity.
  - unfold peer_hard_reset. intro H. apply (f_equal rx_id) in H.
    vm_compute in H. discriminate H.
  - intros [H | []]. discriminate H.
Qed.

(** ** Logging a transmitted message *)

Lemma set_cache_same :
  forall d, set_src_cap_pdo_type (src_cap_pdo_type d) d = d.
Proof. destruct d; reflexivity. Qed.

(** Logging the objects of a message that is not a Request touches the
    PDO-type cache only, and stays inside it. *)
Lemma log_dobjs_not_request :
  forall hdr m n ix d,
    data_of (pd_header_type hdr) <> Some PD_DATA_REQUEST ->
    0 <= ix -> ix + Z.of_nat n <= PDO_MAX_OBJECTS ->
    exists a,
      tcpmtest_log_dobjs n ix hdr m d = Some (set_src_cap_pdo_type a d).
Proof.
  intros hdr m n. induction n as [| n IH]; intros ix d Hty Hlo Hhi.
  - exists (src_cap_pdo_type d). simpl. now rewrite set_cache_same.
  - assert (Hin : Arr.in_bounds PDO_MAX_OBJECTS ix = true).
    { unfold Arr.in_bounds. apply andb_true_intro.
      split; [apply Z.leb_le | apply Z.ltb_lt]; lia. }
    assert (Hnext : ix + 1 + Z.of_nat n <= PDO_MAX_OBJECTS) by lia.
    cbn [tcpmtest_log_dobjs]. cbv zeta.
    unfold tcpmtest_log_capability_pdo, Arr.set. rewrite Hin.
    destruct (data_of (pd_header_type hdr)) as [[]|];
      try congruence;
      try (apply IH; [assumption | lia | assumption]);
      match goal with
      | |- context [tcpmtest_log_dobjs n (ix + 1) hdr m ?d1] =>
        destruct (IH (ix + 1) d1 Hty ltac:(lia) Hnext) as [a Ha];
        exists a; rewrite Ha; reflexivity
      end.
Qed.

Lemma log_msg_not_request :
  forall d type m,
    data_of (pd_header_type (header m)) <> Some PD_DATA_REQUEST ->
    exists a,
      tcpmtest_log_msg d type (Some m) = Some (set_src_cap_pdo_type a d).
Proof.
  intros d type m Hty. unfold tcpmtest_log_msg. cbv zeta.
  destruct (tx_type_val type >? tx_type_val TCPC_TX_SOP_PRIME_PRIME).
  { exists (src_cap_pdo_type d). now rewrite set_cache_same. }
  destruct (negb (pd_header_rev (header m) =? PD_REV20)).
  { exists (src_cap_pdo_type d). now rewrite set_cache_same. }
  apply log_dobjs_not_request; [assumption | lia |].
  pose proof (pd_header_cnt_range (header m)).
  rewrite Z2Nat.id by lia. unfold PDO_MAX_OBJECTS. lia.
Qed.

(** ** The sink session *)

Lemma state_machine_snk_start :
  forall d timeout,
    state d = SSTATE_SNK_START ->
    tcpmtest_state_machine d timeout =
    set_state SSTATE_SNK_RUN
      (log_call tcpm_cc_change
         (set_cc2_status TYPEC_CC_RA
            (set_cc1_status TYPEC_CC_RD (set_vbus_present false d)))).
Proof.
  intros d timeout H.
  unfold tcpmtest_state_machine, state_machine_switch. cbv zeta.
  rewrite H. reflexivity.
Qed.

Lemma snk_request_fields :
  forall d, is_snk_request (rx_msg (tcpmtest_mk_snk_request d)).
Proof.
  intro d. unfold is_snk_request.
  destruct (PD_HEADER_fields (data_val PD_DATA_REQUEST) TYPEC_SINK
              TYPEC_DEVICE (rx_id d) 1 (data_val_range _) ltac:(lia))
    as (Hty & Hcnt & _ & _).
  split; [exact Hty |]. split; [exact Hcnt |].
  repeat split; vm_compute; reflexivity.
Qed.

Lemma process_snk_source_cap :
  forall d,
    tx_type d = TCPC_TX_SOP ->
    pd_header_cnt (header (tx_msg d)) <> 0 ->
    data_of (pd_header_type (header (tx_msg d))) = Some PD_DATA_SOURCE_CAP ->
    tcpmtest_process_tx_msg_for_snk d = tcpmtest_mk_snk_request d.
Proof.
  intros d Htx Hcnt Hty.
  unfold tcpmtest_process_tx_msg_for_snk, process_tx_msg_for_snk_with.
  cbv zeta. rewrite Htx. apply Z.eqb_neq in Hcnt. rewrite Hcnt, Hty.
  reflexivity.
Qed.

(** ** The dispatcher, block by block *)

(** Reduces the projections of assignments to fields. *)
Ltac proj_simpl :=
  cbn [cc1_status cc2_status vbus_present polarity vconn_enable pd_rx_enable
       data_role power_role delay request state tx_type tx_msg rx_msg rx_id
       src_cap_pdo_type sysfs_mode sysfs_mode_req calls
       mode_set msg_rx msg_tx vbus_chng header payload
       set_cc1_status set_cc2_status set_vbus_present set_polarity
       set_vconn_enable set_pd_rx_enable set_data_role set_power_role
       set_delay set_request set_state set_tx_type set_tx_msg set_rx_msg
       set_rx_id set_src_cap_pdo_type set_sysfs_mode set_sysfs_mode_req
       set_calls set_mode_set set_msg_rx set_msg_tx set_vbus_chng log_call
       set_rx_header set_rx_payload request_none].

Lemma event_vbus_chng_cases :
  forall d,
    event_vbus_chng d = d \/
    event_vbus_chng d = log_call tcpm_vbus_change (set_vbus_chng false d).
Proof.
  intro d. unfold event_vbus_chng.
  destruct (vbus_chng (request d)); [right | left]; reflexivity.
Qed.

Lemma event_msg_tx_snk :
  forall d,
    msg_tx (request d) = true -> sysfs_mode d = TESTMODE_SNK ->
    event_msg_tx d =
    log_call (tcpm_pd_transmit_complete TCPC_TX_SUCCESS)
             (tcpmtest_process_tx_msg_for_snk (set_msg_tx false d)).
Proof.
  intros d Htx Hmode. unfold event_msg_tx. rewrite Htx. cbv zeta.
  change (sysfs_mode (set_msg_tx false d)) with (sysfs_mode d).
  rewrite Hmode. reflexivity.
Qed.

Lemma event_msg_tx_src :
  forall d,
    msg_tx (request d) = true -> sysfs_mode d = TESTMODE_SRC ->
    event_msg_tx d =
    log_call (tcpm_pd_transmit_complete TCPC_TX_SUCCESS)
             (tcpmtest_process_tx_msg_for_src (set_msg_tx false d)).
Proof.
  intros d Htx Hmode. unfold event_msg_tx. rewrite Htx. cbv zeta.
  change (sysfs_mode (set_msg_tx false d)) with (sysfs_mode d).
  rewrite Hmode. reflexivity.
Qed.

Lemma event_msg_tx_idle :
  forall d, msg_tx (request d) = false -> event_msg_tx d = d.
Proof. intros d H. unfold event_msg_tx. rewrite H. reflexivity. Qed.

Lemma mk_snk_request_msg_rx :
  forall d, msg_rx (request (tcpmtest_mk_snk_request d)) = true.
Proof. reflexivity. Qed.

(** The pass that processes a SourceCapabilities message in a running
    sink session. *)
Lemma event_work_snk_source_cap :
  forall d,
    mode_set (request d) = false ->
    msg_tx (request d) = true ->
    sysfs_mode d = TESTMODE_SNK ->
    state d = SSTATE_SNK_RUN ->
    tx_type d = TCPC_TX_SOP ->
    pd_header_cnt (header (tx_msg d)) <> 0 ->
    data_of (pd_header_type (header (tx_msg d))) = Some PD_DATA_SOURCE_CAP ->
    exists d',
      tcpmtest_event_work d =
      log_call (mod_delayed_work_tmo SRC_RESP_DELAY)
        (log_call (tcpm_pd_transmit_complete TCPC_TX_SUCCESS)
           (tcpmtest_mk_snk_request d')) /\
      state d' = SSTATE_SNK_RUN.
Proof.
  intros d Hms Hmt Hmode Hstate Htx Hcnt Hty.
  unfold tcpmtest_event_work. cbv zeta.
  rewrite (event_mode_set_idle d Hms).
  set (d2 := event_vbus_chng d).
  assert (H2 : msg_tx (request d2) = true /\ sysfs_mode d2 = TESTMODE_SNK /\
               state d2 = SSTATE_SNK_RUN /\ tx_type d2 = TCPC_TX_SOP /\
               tx_msg d2 = tx_msg d).
  { subst d2. destruct (event_vbus_chng_cases d) as [E | E]; rewrite E;
      proj_simpl; repeat split_and; assumption || reflexivity. }
  destruct H2 as (Hmt2 & Hmode2 & Hstate2 & Htx2 & Hmsg2).
  rewrite (event_msg_tx_snk d2 Hmt2 Hmode2).
  rewrite process_snk_source_cap;
    [ | proj_simpl; assumption
      | proj_simpl; rewrite Hmsg2; assumption
      | proj_simpl; rewrite Hmsg2; assumption ].
  rewrite state_machine_resting
    by (right; left; unfold tcpmtest_mk_snk_request, stage_header;
        proj_simpl; assumption).
  rewrite mk_snk_request_msg_rx || (proj_simpl).
  exists (set_msg_tx false d2). split.
  - unfold tcpmtest_mk_snk_request, stage_header. proj_simpl. reflexivity.
  - proj_simpl. assumption.
Qed.

(** C6: when the mode change to sink is processed the dispatcher enters
    [SSTATE_SNK_START], and the one state-machine advance of that pass
    sets CC1 to Rd and CC2 to Ra, clears VBUS-present, notifies a CC
    change and moves to [SSTATE_SNK_RUN].  In a sink session in
    [SSTATE_SNK_RUN], a SourceCapabilities data message the Port Manager
    transmits over SOP is accepted by the transmit operation, and the
    pass that processes it stages a Request with one RDO: object position
    1, operating and maximum current 1500 mA, USB communications
    capable. *)
Theorem snk_attach_then_request :
  forall d0 d msg,
    sysfs_mode d0 = TESTMODE_NONE ->
    request d0 = request_none ->
    sysfs_mode d = TESTMODE_SNK ->
    state d = SSTATE_SNK_RUN ->
    mode_set (request d) = false ->
    pd_header_cnt (header msg) <> 0 ->
    data_of (pd_header_type (header msg)) = Some PD_DATA_SOURCE_CAP ->
    (state (event_mode_set
        (fst (tcpmtest_sysfs_store d0 (Some "snk"%string) 3)))
       = SSTATE_SNK_START /\
     tcpmtest_event_work (fst (tcpmtest_sysfs_store d0 (Some "snk"%string) 3))
       = tcpmtest_state_machine
           (event_mode_set
               (fst (tcpmtest_sysfs_store d0 (Some "snk"%string) 3))) false /\
     sysfs_mode (tcpmtest_event_work
       (fst (tcpmtest_sysfs_store d0 (Some "snk"%string) 3)))
       = TESTMODE_SNK /\
     cc1_status (tcpmtest_event_work
       (fst (tcpmtest_sysfs_store d0 (Some "snk"%string) 3)))
       = TYPEC_CC_RD /\
     cc2_status (tcpmtest_event_work
       (fst (tcpmtest_sysfs_store d0 (Some "snk"%string) 3)))
       = TYPEC_CC_RA /\
     vbus_present (tcpmtest_event_work
       (fst (tcpmtest_sysfs_store d0 (Some "snk"%string) 3)))
       = false /\
     state (tcpmtest_event_work
       (fst (tcpmtest_sysfs_store d0 (Some "snk"%string) 3)))
       = SSTATE_SNK_RUN /\
     calls (tcpmtest_event_work
       (fst (tcpmtest_sysfs_store d0 (Some "snk"%string) 3)))
       = calls d0 ++ [queue_work_event; tcpm_cc_change]) /\
    exists d1,
      tcpmtest_pd_transmit d TCPC_TX_SOP (Some msg) = Some d1 /\
      msg_rx (request (tcpmtest_event_work d1)) = true /\
      is_snk_request (rx_msg (tcpmtest_event_work d1)) /\
      state (tcpmtest_event_work d1) = SSTATE_SNK_RUN.
Proof.
  intros d0 d msg Hmode0 Hreq0 Hmode Hstate Hms Hcnt Hty. split.
  - destruct d0 as [cc1 cc2 vb pol vc pdrx dr pr dl rq st tt tm rm
                    rid cache mode mreq cs].
    cbn [sysfs_mode request] in Hmode0, Hreq0. subst.
    repeat (split_and; [vm_compute; reflexivity |]).
    transitivity ((cs ++ [queue_work_event]) ++ [tcpm_cc_change]);
      [vm_compute; reflexivity | rewrite <- app_assoc; reflexivity].
  - destruct (log_msg_not_request d TCPC_TX_SOP msg) as [a Ha].
    { rewrite Hty; discriminate. }
    exists (log_call queue_work_event
              (set_msg_tx true
                 (set_tx_msg msg
                    (set_tx_type TCPC_TX_SOP (set_src_cap_pdo_type a d))))).
    split.
    { unfold tcpmtest_pd_transmit. rewrite Ha. reflexivity. }
    destruct (event_work_snk_source_cap
                (log_call queue_work_event
                   (set_msg_tx true
                      (set_tx_msg msg
                         (set_tx_type TCPC_TX_SOP
                            (set_src_cap_pdo_type a d))))))
      as [d' [E Hst]]; try (proj_simpl; assumption || reflexivity).
    rewrite E. proj_simpl.
    split_and; [apply mk_snk_request_msg_rx |].
    split_and; [apply snk_request_fields |].
    unfold tcpmtest_mk_snk_request, stage_header. proj_simpl. exact Hst.
Qed.

Lemma snk_attach_then_request_witness :
  sysfs_mode tcpmtest_probe_data = TESTMODE_NONE /\
  request tcpmtest_probe_data = request_none /\
  sysfs_mode snk_attached = TESTMODE_SNK /\
  state snk_attached = SSTATE_SNK_RUN /\
  mode_set (request snk_attached) = false /\
  pd_header_cnt (header source_cap_msg) <> 0 /\
  data_of (pd_header_type (header source_cap_msg))
    = Some PD_DATA_SOURCE_CAP /\
  exists d1,
    tcpmtest_pd_transmit snk_attached TCPC_TX_SOP (Some source_cap_msg)
      = Some d1 /\
    msg_rx (request (tcpmtest_event_work d1)) = true /\
    is_snk_request (rx_msg (tcpmtest_event_work d1)) /\
    state (tcpmtest_event_work d1) = SSTATE_SNK_RUN.
Proof.
  assert (H6 : pd_header_cnt (header source_cap_msg) <> 0)
    by (vm_compute; discriminate).
  exact (conj eq_refl (conj eq_refl (conj eq_refl (conj eq_refl
          (conj eq_refl (conj H6 (conj eq_refl
            (proj2 (snk_attach_then_request tcpmtest_probe_data snk_attached
                      source_cap_msg eq_refl eq_refl eq_refl eq_refl eq_refl
                      H6 eq_refl))))))))).
Defined.

(** ** Synthesized messages and the reactions of the classifier *)

Lemma stage_header_id :
  forall type pwr dr cnt d,
    0 <= type <= 15 -> 0 <= cnt <= 7 ->
    pd_header_id (header (rx_msg (stage_header type pwr dr cnt d)))
    = rx_id d mod 8.
Proof.
  intros type pwr dr cnt d Ht Hc. unfold stage_header. proj_simpl.
  apply (PD_HEADER_fields type pwr dr (rx_id d) cnt Ht Hc).
Qed.

Lemma stage_header_written :
  forall type pwr dr cnt d,
    0 <= type <= 15 -> 0 <= cnt <= 7 ->
    written d (stage_header type pwr dr cnt d).
Proof.
  intros type pwr dr cnt d Ht Hc.
  exists (mk_pd_message (PD_HEADER_LE type pwr dr (rx_id d) cnt)
                        (payload (rx_msg d))).
  split; [ | reflexivity].
  apply (PD_HEADER_fields type pwr dr (rx_id d) cnt Ht Hc).
Qed.

Lemma set_rx_payload_written :
  forall d d' i v, written d d' -> written d (set_rx_payload i v d').
Proof.
  intros d d' i v (m & Hid & ->).
  exists (mk_pd_message (header m) (Arr.upd (payload m) i v)).
  split; [exact Hid | reflexivity].
Qed.

Lemma set_msg_rx_written :
  forall d d', written d d' -> reaction d (set_msg_rx true d').
Proof.
  intros d d' (m & Hid & ->). exact (reaction_reply d m Hid).
Qed.

(** A synthesizer is a reply reaction: it writes the message, sets the
    delivery flag and increments the counter. *)
Ltac reply_reaction :=
  cbv zeta; apply set_msg_rx_written;
  repeat apply set_rx_payload_written;
  apply stage_header_written;
  [apply data_val_range || apply ctrl_val_range | lia].

Lemma mk_snk_request_reaction :
  forall d, reaction d (tcpmtest_mk_snk_request d).
Proof. intro d. unfold tcpmtest_mk_snk_request. reply_reaction. Qed.

Lemma mk_snk_sink_cap_reaction :
  forall d, reaction d (tcpmtest_mk_snk_sink_cap d).
Proof. intro d. unfold tcpmtest_mk_snk_sink_cap. reply_reaction. Qed.

Lemma mk_snk_disc_ident_reaction :
  forall d, reaction d (tcpmtest_mk_snk_disc_ident_resp_vdm d).
Proof. intro d. unfold tcpmtest_mk_snk_disc_ident_resp_vdm. reply_reaction. Qed.

Lemma mk_snk_disc_svid_reaction :
  forall d, reaction d (tcpmtest_mk_snk_disc_svid_resp_vdm d).
Proof. intro d. unfold tcpmtest_mk_snk_disc_svid_resp_vdm. reply_reaction. Qed.

Lemma mk_snk_disc_modes_reaction :
  forall vdo d svid, reaction d (mk_snk_disc_modes_resp_vdm_with vdo d svid).
Proof.
  intros vdo d svid. unfold mk_snk_disc_modes_resp_vdm_with.
  destruct (negb (svid mod 2 ^ 16 =? USB_SID_DISPLAYPORT)).
  - constructor.
  - reply_reaction.
Qed.

Lemma mk_src_data_source_cap_reaction :
  forall d, reaction d (tcpmtest_mk_src_data_source_cap d).
Proof. intro d. unfold tcpmtest_mk_src_data_source_cap. reply_reaction. Qed.

Lemma mk_src_accept_reaction :
  forall d, reaction d (tcpmtest_mk_src_accept d).
Proof. intro d. unfold tcpmtest_mk_src_accept. reply_reaction. Qed.

Lemma mk_src_ps_rdy_reaction :
  forall d, reaction d (tcpmtest_mk_src_ps_rdy d).
Proof. intro d. unfold tcpmtest_mk_src_ps_rdy. reply_reaction. Qed.

Lemma tx_type_eqb_eq :
  forall a b, tx_type_eqb a b = true -> a = b.
Proof.
  intros a b; destruct a, b; intro H;
    reflexivity || (vm_compute in H; discriminate H).
Qed.

Lemma process_vdm_snk_reaction :
  forall vdo d cnt,
    reaction d (process_tx_vdm_for_snk_with
                  (mk_snk_disc_modes_resp_vdm_with vdo) d cnt).
Proof.
  intros vdo d cnt. unfold process_tx_vdm_for_snk_with. cbv zeta.
  repeat match goal with
         | |- reaction _ (if ?c then _ else _) => destruct c
         end;
    try apply reaction_none;
    auto using mk_snk_disc_ident_reaction, mk_snk_disc_svid_reaction,
               mk_snk_disc_modes_reaction.
Qed.

(** The sink classifier, in either variant, reacts in one of the listed
    ways. *)
Lemma process_snk_reaction :
  forall vdo d,
    reaction d (process_tx_msg_for_snk_with
                  (process_tx_vdm_for_snk_with
                     (mk_snk_disc_modes_resp_vdm_with vdo)) d).
Proof.
  intros vdo d. unfold process_tx_msg_for_snk_with. cbv zeta.
  destruct (tx_type_eqb (tx_type d) TCPC_TX_HARD_RESET) eqn:Ehr.
  { apply reaction_tx_hard_reset, tx_type_eqb_eq, Ehr. }
  destruct (tx_type_eqb (tx_type d) TCPC_TX_SOP) eqn:Esop;
    [ | apply reaction_none ].
  apply tx_type_eqb_eq in Esop. cbn [negb].
  destruct (pd_header_cnt (header (tx_msg d)) =? 0) eqn:Ecnt.
  - apply Z.eqb_eq in Ecnt.
    destruct (ctrl_of (pd_header_type (header (tx_msg d)))) as [[]|] eqn:Ety;
      try apply reaction_none;
      try (apply reaction_peer_hard_reset; exact Esop).
    + apply mk_snk_sink_cap_reaction.
    + apply reaction_soft_reset; assumption.
  - destruct (data_of (pd_header_type (header (tx_msg d)))) as [[]|];
      try apply reaction_none;
      try (apply reaction_peer_hard_reset; exact Esop).
    + apply mk_snk_request_reaction.
    + apply process_vdm_snk_reaction.
Qed.

Lemma simstate_eqb_eq :
  forall a b, simstate_eqb a b = true -> a = b.
Proof. intros a b; destruct a, b; simpl; congruence. Qed.

(** So does the source classifier. *)
Lemma process_src_reaction :
  forall d, reaction d (tcpmtest_process_tx_msg_for_src d).
Proof.
  intro d. unfold tcpmtest_process_tx_msg_for_src. cbv zeta.
  destruct (tx_type_eqb (tx_type d) TCPC_TX_HARD_RESET) eqn:Ehr.
  { apply reaction_tx_hard_reset, tx_type_eqb_eq, Ehr. }
  destruct (tx_type_eqb (tx_type d) TCPC_TX_SOP) eqn:Esop;
    [ | apply reaction_none ].
  apply tx_type_eqb_eq in Esop. cbn [negb].
  destruct (pd_header_cnt (header (tx_msg d)) =? 0) eqn:Ecnt.
  - apply Z.eqb_eq in Ecnt.
    destruct (ctrl_of (pd_header_type (header (tx_msg d)))) as [[]|] eqn:Ety;
      try apply reaction_none;
      try (apply reaction_peer_hard_reset; exact Esop).
    + apply mk_src_data_source_cap_reaction.
    + apply reaction_soft_reset; assumption.
  - destruct (data_of (pd_header_type (header (tx_msg d)))) as [[]|];
      try apply reaction_none;
      try (apply reaction_peer_hard_reset; exact Esop).
    destruct (simstate_eqb (state d) SSTATE_SRC_WAIT_FOR_REQUEST) eqn:Est.
    + apply reaction_advance, simstate_eqb_eq, Est.
    + apply reaction_none.
Qed.

(** What a reaction leaves alone. *)
Lemma reaction_frame :
  forall d d',
    reaction d d' ->
    sysfs_mode d' = sysfs_mode d /\
    sysfs_mode_req d' = sysfs_mode_req d /\
    (state d' = state d \/
     state d = SSTATE_SRC_WAIT_FOR_REQUEST /\
     state d' = SSTATE_SRC_SEND_REQUEST) /\
    (calls d' = calls d \/ calls d' = calls d ++ [tcpm_pd_hard_reset]).
Proof.
  intros d d' H. destruct H; unfold tcpmtest_hard_reset; proj_simpl;
    repeat split_and; auto.
Qed.

Lemma event_msg_tx_cases :
  forall d,
    event_msg_tx d = d \/
    exists d' status,
      reaction (set_msg_tx false d) d' /\
      event_msg_tx d = log_call (tcpm_pd_transmit_complete status) d'.
Proof.
  intro d. unfold event_msg_tx.
  destruct (msg_tx (request d)); [right | left; reflexivity]. cbv zeta.
  destruct (testmode_eqb (sysfs_mode (set_msg_tx false d)) TESTMODE_SNK).
  { eexists; eexists; split; [ | reflexivity].
    apply (process_snk_reaction
             (VDO_MODE_DP 0 MODE_DP_PIN_C 0 1 MODE_DP_V13 MODE_DP_SNK)). }
  destruct (testmode_eqb (sysfs_mode (set_msg_tx false d)) TESTMODE_SRC).
  { eexists; eexists; split; [ | reflexivity]. apply process_src_reaction. }
  eexists; eexists; split; [ | reflexivity]. apply reaction_none.
Qed.

(** The blocks of a pass that come before the state machine keep the
    mode, the requested mode and, except for a source waiting for a
    request, the state; they only add calls of their own. *)
Lemma event_prefix_frame :
  forall d,
    let d3 := event_msg_tx (event_vbus_chng d) in
    sysfs_mode d3 = sysfs_mode d /\
    sysfs_mode_req d3 = sysfs_mode_req d /\
    (state d <> SSTATE_SRC_WAIT_FOR_REQUEST -> state d3 = state d) /\
    exists pre, calls d3 = calls d ++ pre /\ Forall pre_step_call pre.
Proof.
  intros d d3. subst d3.
  assert (H2 : sysfs_mode (event_vbus_chng d) = sysfs_mode d /\
               sysfs_mode_req (event_vbus_chng d) = sysfs_mode_req d /\
               state (event_vbus_chng d) = state d /\
               exists pre, calls (event_vbus_chng d) = calls d ++ pre /\
                           Forall pre_step_call pre).
  { destruct (event_vbus_chng_cases d) as [E | E]; rewrite E; proj_simpl;
      repeat split_and; try reflexivity.
    - exists []. now rewrite app_nil_r.
    - exists [tcpm_vbus_change]. split; [reflexivity |].
      constructor; [left; reflexivity | constructor]. }
  destruct H2 as (Hm & Hr & Hs & pre2 & Hc & Hp).
  destruct (event_msg_tx_cases (event_vbus_chng d))
    as [E | (d' & status & Hre & E)]; rewrite E.
  - repeat split_and; auto. exists pre2. auto.
  - apply reaction_frame in Hre. revert Hre. proj_simpl.
    intros (Hm' & Hr' & Hs' & Hc').
    repeat split_and; try congruence.
    + intro Hw. destruct Hs' as [Hs' | [Hs' _]]; congruence.
    + destruct Hc' as [Hc' | Hc']; rewrite Hc', Hc.
      * exists (pre2 ++ [tcpm_pd_transmit_complete status]).
        split; [now rewrite app_assoc |].
        apply Forall_app; split; [assumption |].
        constructor; [right; right; eexists; reflexivity | constructor].
      * exists (pre2 ++ [tcpm_pd_hard_reset;
                         tcpm_pd_transmit_complete status]).
        split; [now rewrite <- !app_assoc |].
        apply Forall_app; split; [assumption |].
        constructor; [right; left; reflexivity |].
        constructor; [right; right; eexists; reflexivity | constructor].
Qed.

(** ** The end of a session *)

Lemma state_machine_to_none :
  forall d timeout,
    state d = SSTATE_TO_NONE ->
    tcpmtest_state_machine d timeout =
    set_state SSTATE_NONE
      (set_sysfs_mode TESTMODE_NONE
         (log_call (detach_call (sysfs_mode_req d))
            (tcpmtest_hard_reset
               (set_cc2_status TYPEC_CC_OPEN
                  (set_cc1_status TYPEC_CC_OPEN (set_vbus_present false d)))
               false))).
Proof.
  intros d timeout H.
  unfold tcpmtest_state_machine, state_machine_switch. cbv zeta.
  rewrite H. unfold tcpmtest_hard_reset. proj_simpl.
  destruct (sysfs_mode_req d); reflexivity.
Qed.

Lemma event_mode_set_detach :
  forall d,
    sysfs_mode d <> TESTMODE_NONE ->
    mode_set (request d) = true ->
    sysfs_mode_req d = TESTMODE_RESET \/ sysfs_mode_req d = TESTMODE_NONE ->
    event_mode_set d = set_state SSTATE_TO_NONE (set_mode_set false d).
Proof.
  intros d Hmode Hms Hreq. unfold event_mode_set. rewrite Hms. cbv zeta.
  proj_simpl.
  destruct Hreq as [Hreq | Hreq]; rewrite Hreq;
    destruct (sysfs_mode d); try reflexivity; contradiction Hmode; reflexivity.
Qed.

(** C8: when a mode change to Reset (or to None) is processed while a
    session is active, the dispatcher enters [SSTATE_TO_NONE] and the
    state-machine step of the same pass clears VBUS-present, opens both CC
    lines, clears all pending request flags and the message-ID counter,
    and lands in [SSTATE_NONE] with the active mode None.  The last call
    of the pass is the full controller reset if Reset was requested and a
    CC change if None was requested; neither of the two notifications is
    issued earlier in the pass. *)
Theorem reset_mid_session :
  forall d,
    sysfs_mode d <> TESTMODE_NONE ->
    mode_set (request d) = true ->
    sysfs_mode_req d = TESTMODE_RESET \/ sysfs_mode_req d = TESTMODE_NONE ->
    state (event_mode_set d) = SSTATE_TO_NONE /\
    vbus_present (tcpmtest_event_work d) = false /\
    cc1_status (tcpmtest_event_work d) = TYPEC_CC_OPEN /\
    cc2_status (tcpmtest_event_work d) = TYPEC_CC_OPEN /\
    request (tcpmtest_event_work d) = request_none /\
    rx_id (tcpmtest_event_work d) = 0 /\
    state (tcpmtest_event_work d) = SSTATE_NONE /\
    sysfs_mode (tcpmtest_event_work d) = TESTMODE_NONE /\
    exists pre,
      calls (tcpmtest_event_work d)
        = calls d ++ pre ++ [detach_call (sysfs_mode_req d)] /\
      ~ In tcpm_tcpc_reset pre /\ ~ In tcpm_cc_change pre.
Proof.
  intros d Hmode Hms Hreq.
  pose proof (event_mode_set_detach d Hmode Hms Hreq) as E1.
  split. { rewrite E1. reflexivity. }
  unfold tcpmtest_event_work. cbv zeta. rewrite E1.
  set (d1 := set_state SSTATE_TO_NONE (set_mode_set false d)).
  destruct (event_prefix_frame d1) as (_ & Hr & Hs & pre & Hc & Hp).
  set (d3 := event_msg_tx (event_vbus_chng d1)) in *.
  assert (Hs3 : state d3 = SSTATE_TO_NONE)
    by (rewrite Hs; [reflexivity | discriminate]).
  rewrite (state_machine_to_none d3 false Hs3).
  unfold tcpmtest_hard_reset. proj_simpl.
  repeat (split_and; [reflexivity |]).
  exists pre. split_and.
  - rewrite Hc, Hr. subst d1. proj_simpl. now rewrite app_assoc.
  - rewrite Forall_forall in Hp.
    split; intro Hin; apply Hp in Hin;
      destruct Hin as [Hin | [Hin | [st Hin]]]; discriminate Hin.
Qed.

Lemma reset_mid_session_witness :
  sysfs_mode src_running_reset <> TESTMODE_NONE /\
  mode_set (request src_running_reset) = true /\
  (sysfs_mode_req src_running_reset = TESTMODE_RESET \/
   sysfs_mode_req src_running_reset = TESTMODE_NONE) /\
  state (tcpmtest_event_work src_running_reset) = SSTATE_NONE /\
  exists pre,
    calls (tcpmtest_event_work src_running_reset)
      = calls src_running_reset ++ pre ++ [tcpm_tcpc_reset] /\
    ~ In tcpm_tcpc_reset pre /\ ~ In tcpm_cc_change pre.
Proof.
  assert (H1 : sysfs_mode src_running_reset <> TESTMODE_NONE)
    by (vm_compute; discriminate).
  assert (H3 : sysfs_mode_req src_running_reset = TESTMODE_RESET \/
               sysfs_mode_req src_running_reset = TESTMODE_NONE)
    by (left; reflexivity).
  pose proof (reset_mid_session src_running_reset H1 eq_refl H3) as H.
  exact (conj H1 (conj eq_refl (conj H3
          (conj (proj1 (proj2 (proj2 (proj2 (proj2 (proj2 (proj2 H)))))))
                (proj2 (proj2 (proj2 (proj2 (proj2 (proj2 (proj2
                   (proj2 H)))))))))))).
Defined.

(** ** Mode changes and the idle invariant *)

Ltac unfold_mk :=
  unfold tcpmtest_mk_src_data_source_cap, tcpmtest_mk_src_accept,
         tcpmtest_mk_src_ps_rdy, tcpmtest_mk_snk_request,
         tcpmtest_mk_snk_sink_cap, stage_header, tcpmtest_hard_reset.

Lemma event_mode_set_result :
  forall d,
    mode_set (request d) = true ->
    event_mode_set d =
    set_state (snd (mode_change_result d))
      (set_sysfs_mode (fst (mode_change_result d)) (set_mode_set false d)).
Proof.
  intros d Hms. unfold event_mode_set, mode_change_result. rewrite Hms.
  cbv zeta. proj_simpl.
  destruct d as [cc1 cc2 vb pol vc pdrx dr pr dl rq st tt tm rm
                 rid cache mode mreq cs].
  proj_simpl. destruct mreq, mode; reflexivity.
Qed.

Lemma event_mode_set_frame :
  forall d,
    (sysfs_mode (event_mode_set d) = sysfs_mode d /\
     (state (event_mode_set d) = state d \/
      sysfs_mode d <> TESTMODE_NONE)) \/
    (sysfs_mode d = TESTMODE_NONE /\
     sysfs_mode (event_mode_set d) <> TESTMODE_NONE).
Proof.
  intro d. destruct (mode_set (request d)) eqn:Hms.
  - rewrite (event_mode_set_result d Hms). unfold mode_change_result.
    proj_simpl.
    destruct (sysfs_mode_req d), (sysfs_mode d); proj_simpl;
      try (left; split;
           [reflexivity
           | first [left; reflexivity | right; discriminate]]);
      (right; split; [reflexivity | discriminate]).
  - rewrite (event_mode_set_idle d Hms). left; split; [ | left]; reflexivity.
Qed.

(** The state machine keeps the active mode, except that it ends the
    session from [SSTATE_TO_NONE]. *)
Lemma state_machine_mode :
  forall d timeout,
    (sysfs_mode (tcpmtest_state_machine d timeout) = sysfs_mode d /\
     (state d = SSTATE_NONE ->
      state (tcpmtest_state_machine d timeout) = SSTATE_NONE)) \/
    (sysfs_mode (tcpmtest_state_machine d timeout) = TESTMODE_NONE /\
     state (tcpmtest_state_machine d timeout) = SSTATE_NONE).
Proof.
  intros d timeout.
  destruct (state d) eqn:Hs;
    try (rewrite state_machine_to_none by exact Hs;
         right; split; reflexivity);
    left; (split; [ | try discriminate]);
    unfold tcpmtest_state_machine, state_machine_switch; cbv zeta;
    rewrite Hs;
    repeat match goal with
           | |- context [if ?c then _ else _] => destruct c
           end;
    unfold_mk; proj_simpl; reflexivity || (intros _; exact Hs).
Qed.

Lemma state_machine_idle :
  forall d timeout,
    idle_when_detached d -> idle_when_detached (tcpmtest_state_machine d timeout).
Proof.
  intros d timeout Hinv. unfold idle_when_detached in *.
  destruct (state_machine_mode d timeout) as [[Hm Hs] | [_ Hs]].
  - rewrite Hm. intro H. apply Hs, Hinv, H.
  - intros _. exact Hs.
Qed.

(** Logging succeeds or faults; when it succeeds only the PDO-type cache
    has changed. *)
Lemma log_dobjs_frame :
  forall hdr m n ix d d',
    tcpmtest_log_dobjs n ix hdr m d = Some d' ->
    exists a, d' = set_src_cap_pdo_type a d.
Proof.
  intros hdr m n. induction n as [| n IH]; intros ix d d' H.
  - injection H as <-. exists (src_cap_pdo_type d).
    now rewrite set_cache_same.
  - cbn [tcpmtest_log_dobjs] in H. cbv zeta in H.
    assert (Hstep : forall d1, (exists a1, d1 = set_src_cap_pdo_type a1 d) ->
              tcpmtest_log_dobjs n (ix + 1) hdr m d1 = Some d' ->
              exists a, d' = set_src_cap_pdo_type a d).
    { intros d1 [a1 ->] H1. apply IH in H1. destruct H1 as [a ->].
      exists a. reflexivity. }
    assert (Hsame : exists a1, d = set_src_cap_pdo_type a1 d).
    { exists (src_cap_pdo_type d). now rewrite set_cache_same. }
    unfold tcpmtest_log_capability_pdo, tcpmtest_log_request_pdo in H.
    cbv zeta in H.
    destruct (data_of (pd_header_type hdr)) as [[]|];
      try (apply (Hstep d Hsame H));
      repeat match type of H with
             | match (match ?x with _ => _ end) with _ => _ end = _ =>
               destruct x; try discriminate H
             end;
      try (apply (Hstep d Hsame H));
      (eapply Hstep; [ | exact H]; eexists; reflexivity).
Qed.

Lemma log_msg_frame :
  forall d type msg d',
    tcpmtest_log_msg d type msg = Some d' ->
    exists a, d' = set_src_cap_pdo_type a d.
Proof.
  intros d type msg d' H. unfold tcpmtest_log_msg in H.
  destruct msg as [m |]; [ | discriminate H]. cbv zeta in H.
  assert (Hsame : forall d1, Some d = Some d1 ->
            exists a, d1 = set_src_cap_pdo_type a d).
  { intros d1 E. injection E as <-. exists (src_cap_pdo_type d).
    now rewrite set_cache_same. }
  destruct (tx_type_val type >? tx_type_val TCPC_TX_SOP_PRIME_PRIME);
    [now apply Hsame |].
  destruct (negb (pd_header_rev (header m) =? PD_REV20));
    [now apply Hsame |].
  eapply log_dobjs_frame, H.
Qed.

Lemma step_idle :
  forall d d', step d d' -> idle_when_detached d -> idle_when_detached d'.
Proof.
  intros d d' Hstep Hinv. unfold idle_when_detached in *.
  destruct Hstep; try exact Hinv.
  - (* sysfs store *)
    unfold tcpmtest_sysfs_store. destruct buf; [ | exact Hinv].
    repeat match goal with
           | |- context [if ?c then _ else _] => destruct c
           end; proj_simpl; exact Hinv.
  - unfold tcpmtest_set_pd_rx.
    destruct (negb _); proj_simpl; exact Hinv.
  - unfold tcpmtest_set_vbus. cbv zeta.
    destruct (negb _); proj_simpl; exact Hinv.
  - (* transmit *)
    unfold tcpmtest_pd_transmit in H.
    destruct (tcpmtest_log_msg d type msg) as [d1 |] eqn:E;
      [ | discriminate H].
    apply log_msg_frame in E. destruct E as [a ->].
    injection H as <-. destruct msg; proj_simpl; exact Hinv.
  - (* event work *)
    unfold tcpmtest_event_work. cbv zeta.
    set (d1 := event_mode_set d).
    assert (H1 : idle_when_detached d1).
    { unfold idle_when_detached. subst d1.
      destruct (event_mode_set_frame d) as [[Hm [Hs | Hs]] | [_ Hm]];
        rewrite ?Hm, ?Hs; try assumption; intro; contradiction. }
    destruct (event_prefix_frame d1) as (Hm & _ & Hs & _).
    set (d3 := event_msg_tx (event_vbus_chng d1)) in *.
    assert (H3 : idle_when_detached d3).
    { unfold idle_when_detached. rewrite Hm. intro Hn.
      rewrite Hs; rewrite (H1 Hn); [reflexivity | discriminate]. }
    apply (state_machine_idle d3 false) in H3.
    destruct (msg_rx (request (tcpmtest_state_machine d3 false)));
      proj_simpl; exact H3.
  - (* timeout work *)
    unfold tcpmtest_tmo_work in H. cbv zeta in H.
    assert (Hd : forall d3,
              idle_when_detached d3 ->
              Some (tcpmtest_state_machine (set_delay 0 d3) true) = Some d' ->
              sysfs_mode d' = TESTMODE_NONE -> state d' = SSTATE_NONE).
    { intros d3 H3 E. injection E as <-.
      apply (state_machine_idle (set_delay 0 d3) true). exact H3. }
    destruct (msg_rx (request d)); [ | exact (Hd d Hinv H)].
    destruct (tcpmtest_log_msg (set_msg_rx false d) TCPC_TX_SOP
                (Some (rx_msg (set_msg_rx false d)))) as [d2 |] eqn:E;
      [ | discriminate H].
    apply log_msg_frame in E. destruct E as [a ->].
    refine (Hd _ _ H). unfold idle_when_detached. proj_simpl. exact Hinv.
Qed.

Lemma reachable_idle :
  forall d, reachable d -> idle_when_detached d.
Proof.
  intros d H. induction H as [| d d' _ IH Hstep].
  - intros _. reflexivity.
  - exact (step_idle d d' Hstep IH).
Qed.

(** C4 (as amended): processing a latched mode change does the
    following.  With no active mode, a request for Sink (Source) records
    the new mode and enters [SSTATE_SNK_START] ([SSTATE_SRC_START]).  A
    request for None or Reset enters [SSTATE_TO_NONE] from any state when
    a mode is active, and changes neither mode nor state when no mode is
    active.  Every other combination changes neither mode nor state.  In
    every state the simulator can reach, the active mode changes only
    when the state machine is in [SSTATE_NONE]: no new session is armed
    before the state machine is back to idle. *)
Theorem mode_change_rule :
  forall d,
    mode_set (request d) = true ->
    sysfs_mode (event_mode_set d) = fst (mode_change_result d) /\
    state (event_mode_set d) = snd (mode_change_result d) /\
    (reachable d ->
     sysfs_mode (event_mode_set d) <> sysfs_mode d ->
     state d = SSTATE_NONE /\ sysfs_mode d = TESTMODE_NONE).
Proof.
  intros d Hms. rewrite (event_mode_set_result d Hms). proj_simpl.
  split; [reflexivity | split; [reflexivity |]].
  intros Hreach Hneq.
  assert (Hn : sysfs_mode d = TESTMODE_NONE).
  { unfold mode_change_result in Hneq.
    destruct (sysfs_mode_req d), (sysfs_mode d); try reflexivity;
      contradiction Hneq; reflexivity. }
  split; [exact (reachable_idle d Hreach Hn) | exact Hn].
Qed.

Lemma mode_change_rule_witness :
  mode_set (request idle_src) = true /\
  reachable idle_src /\
  sysfs_mode (event_mode_set idle_src) = TESTMODE_SRC /\
  state (event_mode_set idle_src) = SSTATE_SRC_START /\
  state idle_src = SSTATE_NONE /\ sysfs_mode idle_src = TESTMODE_NONE.
Proof.
  assert (Hreach : reachable idle_src).
  { exact (reachable_step _ _ reachable_probe
             (step_sysfs_store tcpmtest_probe_data (Some "src"%string) 3)). }
  assert (Hneq : sysfs_mode (event_mode_set idle_src) <> sysfs_mode idle_src)
    by (vm_compute; discriminate).
  pose proof (mode_change_rule idle_src eq_refl) as H.
  exact (conj eq_refl (conj Hreach (conj (proj1 H) (conj (proj1 (proj2 H))
          (proj2 (proj2 H) Hreach Hneq))))).
Defined.

(** C4 as stated fails: with no active mode a request for Reset does not
    enter [SSTATE_TO_NONE]; the state stays [SSTATE_NONE] and the pass
    makes no call. *)
Lemma idle_reset_skips_transition :
  mode_set (request idle_reset) = true /\
  sysfs_mode_req idle_reset = TESTMODE_RESET /\
  state (event_mode_set idle_reset) = SSTATE_NONE /\
  state (event_mode_set idle_reset) <> SSTATE_TO_NONE /\
  calls (tcpmtest_event_work idle_reset) = calls idle_reset.
Proof.
  repeat (split_and; [vm_compute; reflexivity || discriminate |]).
  vm_compute; reflexivity.
Qed.

(** ** The source session: Accept, then PowerReady *)

Lemma u32_mod_8 : forall x, u32 x mod 8 = x mod 8.
Proof.
  intro x. unfold u32, UINT_MOD. apply Z.mod_mod_divide.
  exists (2 ^ 29). reflexivity.
Qed.

Lemma log_msg_ctrl :
  forall d type m,
    pd_header_cnt (header m) = 0 ->
    tcpmtest_log_msg d type (Some m) = Some d.
Proof.
  intros d type m Hcnt. unfold tcpmtest_log_msg. cbv zeta.
  destruct (tx_type_val type >? tx_type_val TCPC_TX_SOP_PRIME_PRIME);
    [reflexivity |].
  destruct (negb (pd_header_rev (header m) =? PD_REV20)); [reflexivity |].
  rewrite Hcnt. reflexivity.
Qed.

Lemma log_msg_request :
  forall d type m,
    is_request m -> tcpmtest_log_msg d type (Some m) = Some d.
Proof.
  intros d type m (Hty & Hcnt & Hidx). unfold tcpmtest_log_msg. cbv zeta.
  destruct (tx_type_val type >? tx_type_val TCPC_TX_SOP_PRIME_PRIME);
    [reflexivity |].
  destruct (negb (pd_header_rev (header m) =? PD_REV20)); [reflexivity |].
  rewrite Hcnt. change (Z.to_nat 1) with 1%nat.
  cbn [tcpmtest_log_dobjs]. cbv zeta. rewrite Hty.
  unfold tcpmtest_log_request_pdo, Arr.get. cbv zeta.
  rewrite request_pdo_index_in_bounds.
  apply Z.eqb_neq in Hidx. rewrite Hidx. reflexivity.
Qed.

Lemma state_machine_src_send_request :
  forall d timeout,
    state d = SSTATE_SRC_SEND_REQUEST ->
    tcpmtest_state_machine d timeout =
    set_state SSTATE_SRC_SEND_PS_RDY (tcpmtest_mk_src_accept d).
Proof.
  intros d timeout H.
  unfold tcpmtest_state_machine, state_machine_switch. cbv zeta.
  rewrite H. reflexivity.
Qed.

Lemma state_machine_src_send_ps_rdy :
  forall d timeout,
    state d = SSTATE_SRC_SEND_PS_RDY ->
    tcpmtest_state_machine d timeout =
    if msg_rx (request d) then d
    else set_state SSTATE_SRC_RUN (tcpmtest_mk_src_ps_rdy d).
Proof.
  intros d timeout H.
  unfold tcpmtest_state_machine, state_machine_switch. cbv zeta.
  rewrite H. destruct (msg_rx (request d)); cbn [negb fst snd Z.leb Z.compare].
  - rewrite <- H. apply set_state_same.
  - reflexivity.
Qed.

Lemma mk_src_accept_is_accept :
  forall d, is_ctrl_msg PD_CTRL_ACCEPT (rx_msg (tcpmtest_mk_src_accept d)) /\
            pd_header_id (header (rx_msg (tcpmtest_mk_src_accept d)))
            = rx_id d mod 8.
Proof.
  intro d. unfold is_ctrl_msg, tcpmtest_mk_src_accept, stage_header.
  proj_simpl.
  destruct (PD_HEADER_fields (ctrl_val PD_CTRL_ACCEPT) TYPEC_SOURCE
              TYPEC_HOST (rx_id d) 0 (ctrl_val_range _) ltac:(lia))
    as (Hty & Hcnt & Hid & _).
  repeat split_and; assumption.
Qed.

Lemma mk_src_ps_rdy_is_ps_rdy :
  forall d, is_ctrl_msg PD_CTRL_PS_RDY (rx_msg (tcpmtest_mk_src_ps_rdy d)) /\
            pd_header_id (header (rx_msg (tcpmtest_mk_src_ps_rdy d)))
            = rx_id d mod 8.
Proof.
  intro d. unfold is_ctrl_msg, tcpmtest_mk_src_ps_rdy, stage_header.
  proj_simpl.
  destruct (PD_HEADER_fields (ctrl_val PD_CTRL_PS_RDY) TYPEC_SOURCE
              TYPEC_HOST (rx_id d) 0 (ctrl_val_range _) ltac:(lia))
    as (Hty & Hcnt & Hid & _).
  repeat split_and; assumption.
Qed.

(** The pass that processes a Request in a waiting source session. *)
Lemma event_work_src_request :
  forall d,
    request d = mk_request false false true false ->
    sysfs_mode d = TESTMODE_SRC ->
    state d = SSTATE_SRC_WAIT_FOR_REQUEST ->
    tx_type d = TCPC_TX_SOP ->
    pd_header_cnt (header (tx_msg d)) <> 0 ->
    data_of (pd_header_type (header (tx_msg d))) = Some PD_DATA_REQUEST ->
    tcpmtest_event_work d =
    log_call (mod_delayed_work_tmo SRC_RESP_DELAY)
      (set_state SSTATE_SRC_SEND_PS_RDY
         (tcpmtest_mk_src_accept
            (log_call (tcpm_pd_transmit_complete TCPC_TX_SUCCESS)
               (set_state SSTATE_SRC_SEND_REQUEST (set_msg_tx false d))))).
Proof.
  intros d Hreq Hmode Hstate Htx Hcnt Hty.
  unfold tcpmtest_event_work. cbv zeta.
  rewrite event_mode_set_idle by (rewrite Hreq; reflexivity).
  rewrite event_vbus_chng_idle by (rewrite Hreq; reflexivity).
  rewrite event_msg_tx_src by (assumption || (rewrite Hreq; reflexivity)).
  rewrite process_src_sop_data by (proj_simpl; assumption).
  change (tx_msg (set_msg_tx false d)) with (tx_msg d). rewrite Hty.
  change (state (set_msg_tx false d)) with (state d). rewrite Hstate.
  cbn [simstate_eqb].
  rewrite state_machine_src_send_request by reflexivity.
  reflexivity.
Qed.

(** The timeout work delivers a staged control message and steps the
    state machine. *)
Lemma tmo_work_delivers_ctrl :
  forall d,
    msg_rx (request d) = true ->
    pd_header_cnt (header (rx_msg d)) = 0 ->
    tcpmtest_tmo_work d =
    Some (tcpmtest_state_machine
            (set_delay 0
               (log_call (tcpm_pd_receive (rx_msg d)) (set_msg_rx false d)))
            true).
Proof.
  intros d Hrx Hcnt. unfold tcpmtest_tmo_work. cbv zeta. rewrite Hrx.
  rewrite log_msg_ctrl by exact Hcnt. reflexivity.
Qed.

(** A pass with nothing latched but a staged message, in a resting state,
    arms the response timer. *)
Lemma event_work_staged_only :
  forall d,
    request d = mk_request false true false false ->
    state d = SSTATE_NONE \/ state d = SSTATE_SNK_RUN \/
    state d = SSTATE_SRC_WAIT_FOR_REQUEST \/ state d = SSTATE_SRC_RUN ->
    tcpmtest_event_work d = log_call (mod_delayed_work_tmo SRC_RESP_DELAY) d.
Proof.
  intros d Hreq Hstate. unfold tcpmtest_event_work. cbv zeta.
  rewrite event_mode_set_idle by (rewrite Hreq; reflexivity).
  rewrite event_vbus_chng_idle by (rewrite Hreq; reflexivity).
  rewrite event_msg_tx_idle by (rewrite Hreq; reflexivity).
  rewrite state_machine_resting by exact Hstate.
  rewrite Hreq. reflexivity.
Qed.

Lemma received_log_call :
  forall c d,
    received (log_call c d) =
    received d ++ match c with tcpm_pd_receive m => [m] | _ => [] end.
Proof.
  intros c d. unfold received. proj_simpl.
  rewrite flat_map_app. cbn [flat_map]. now rewrite app_nil_r.
Qed.

Lemma rx_msg_set_state :
  forall s d, rx_msg (set_state s d) = rx_msg d.
Proof. reflexivity. Qed.

Lemma rx_msg_log_set_state :
  forall c s d, rx_msg (log_call c (set_state s d)) = rx_msg d.
Proof. reflexivity. Qed.

(** C1: in source mode the advance step from [SSTATE_SRC_SEND_REQUEST]
    stages an Accept and moves to [SSTATE_SRC_SEND_PS_RDY]; the advance
    step from [SSTATE_SRC_SEND_PS_RDY] does nothing while a staged message
    waits for delivery and otherwise stages a PowerReady and moves to
    [SSTATE_SRC_RUN].  A source session that waits for the request, with
    nothing pending, and is sent a well-formed Request over SOP runs as
    follows: the transmit operation accepts the message; the pass that
    processes it stages the Accept; the response timer delivers the
    Accept and the session reaches [SSTATE_SRC_RUN] with the PowerReady
    staged; the next pass and timer deliver the PowerReady.  The Port
    Manager has then received exactly the Accept followed by the
    PowerReady, with consecutive message IDs. *)
Theorem src_session_accept_then_ps_rdy :
  forall d msg,
    sysfs_mode d = TESTMODE_SRC ->
    state d = SSTATE_SRC_WAIT_FOR_REQUEST ->
    request d = request_none ->
    is_request msg ->
    (forall d0 timeout,
       state d0 = SSTATE_SRC_SEND_REQUEST ->
       tcpmtest_state_machine d0 timeout =
       set_state SSTATE_SRC_SEND_PS_RDY (tcpmtest_mk_src_accept d0)) /\
    (forall d0 timeout,
       state d0 = SSTATE_SRC_SEND_PS_RDY ->
       tcpmtest_state_machine d0 timeout =
       if msg_rx (request d0) then d0
       else set_state SSTATE_SRC_RUN (tcpmtest_mk_src_ps_rdy d0)) /\
    exists d1 d3 d4 accept ps_rdy,
      tcpmtest_pd_transmit d TCPC_TX_SOP (Some msg) = Some d1 /\
      state (tcpmtest_event_work d1) = SSTATE_SRC_SEND_PS_RDY /\
      received (tcpmtest_event_work d1) = received d /\
      tcpmtest_tmo_work (tcpmtest_event_work d1) = Some d3 /\
      state d3 = SSTATE_SRC_RUN /\
      received d3 = received d ++ [accept] /\
      tcpmtest_tmo_work (tcpmtest_event_work d3) = Some d4 /\
      state d4 = SSTATE_SRC_RUN /\
      received d4 = received d ++ [accept; ps_rdy] /\
      is_ctrl_msg PD_CTRL_ACCEPT accept /\
      is_ctrl_msg PD_CTRL_PS_RDY ps_rdy /\
      pd_header_id (header accept) = rx_id d mod 8 /\
      pd_header_id (header ps_rdy) = (rx_id d + 1) mod 8.
Proof.
  intros d msg Hmode Hstate Hreq Hmsg.
  split; [exact state_machine_src_send_request |].
  split; [exact state_machine_src_send_ps_rdy |].
  set (d1 := log_call queue_work_event
               (set_msg_tx true (set_tx_msg msg (set_tx_type TCPC_TX_SOP d)))).
  assert (E1 : tcpmtest_pd_transmit d TCPC_TX_SOP (Some msg) = Some d1).
  { unfold tcpmtest_pd_transmit. rewrite (log_msg_request d _ msg Hmsg).
    reflexivity. }
  destruct Hmsg as (Hty & Hcnt & _).
  set (d1' := log_call (tcpm_pd_transmit_complete TCPC_TX_SUCCESS)
                (set_state SSTATE_SRC_SEND_REQUEST (set_msg_tx false d1))).
  assert (E2 : tcpmtest_event_work d1 =
               log_call (mod_delayed_work_tmo SRC_RESP_DELAY)
                 (set_state SSTATE_SRC_SEND_PS_RDY
                    (tcpmtest_mk_src_accept d1'))).
  { apply event_work_src_request; subst d1; proj_simpl;
      rewrite ?Hreq, ?Hcnt; try assumption; try reflexivity; discriminate. }
  set (d2 := tcpmtest_event_work d1) in *.
  destruct (mk_src_accept_is_accept d1') as ((Hacnt & Haty) & Haid).
  assert (Hrx2 : rx_msg d2 = rx_msg (tcpmtest_mk_src_accept d1'))
    by (rewrite E2; apply rx_msg_log_set_state).
  assert (Hreq2 : request d2 = mk_request false true false false).
  { rewrite E2. subst d1' d1. unfold_mk. proj_simpl. rewrite Hreq.
    reflexivity. }
  set (d2' := set_delay 0
                (log_call (tcpm_pd_receive (rx_msg d2))
                   (set_msg_rx false d2))).
  assert (E3 : tcpmtest_tmo_work d2 =
               Some (set_state SSTATE_SRC_RUN (tcpmtest_mk_src_ps_rdy d2'))).
  { rewrite tmo_work_delivers_ctrl;
      [ | rewrite Hreq2; reflexivity | rewrite Hrx2; exact Hacnt].
    fold d2'. rewrite state_machine_src_send_ps_rdy
      by (subst d2'; proj_simpl; rewrite E2; reflexivity).
    replace (msg_rx (request d2')) with false
      by (subst d2'; proj_simpl; reflexivity).
    reflexivity. }
  set (d3 := set_state SSTATE_SRC_RUN (tcpmtest_mk_src_ps_rdy d2')) in *.
  destruct (mk_src_ps_rdy_is_ps_rdy d2') as ((Hpcnt & Hpty) & Hpid).
  assert (Hrx3 : rx_msg d3 = rx_msg (tcpmtest_mk_src_ps_rdy d2'))
    by (subst d3; apply rx_msg_set_state).
  assert (Hreq3 : request d3 = mk_request false true false false).
  { subst d3 d2'. unfold_mk. proj_simpl. rewrite Hreq2. reflexivity. }
  assert (E4 : tcpmtest_event_work d3 =
               log_call (mod_delayed_work_tmo SRC_RESP_DELAY) d3).
  { apply event_work_staged_only; [exact Hreq3 |].
    right; right; right; reflexivity. }
  set (d3' := set_delay 0
                (log_call (tcpm_pd_receive (rx_msg d3))
                   (set_msg_rx false
                      (log_call (mod_delayed_work_tmo SRC_RESP_DELAY) d3)))).
  assert (E5 : tcpmtest_tmo_work (tcpmtest_event_work d3) = Some d3').
  { rewrite E4. rewrite tmo_work_delivers_ctrl;
      [ | proj_simpl; rewrite Hreq3; reflexivity
        | proj_simpl; rewrite Hrx3; exact Hpcnt].
    rewrite state_machine_resting
      by (right; right; right; reflexivity).
    reflexivity. }
  assert (Hrcv2 : received d2 = received d).
  { rewrite E2. rewrite received_log_call, app_nil_r.
    unfold received. subst d1' d1. unfold_mk. proj_simpl.
    rewrite !flat_map_app. cbn [flat_map]. now rewrite !app_nil_r. }
  assert (Hrcv3 : received d3 = received d ++ [rx_msg d2]).
  { rewrite <- Hrcv2. unfold received. subst d3 d2'. unfold_mk. proj_simpl.
    rewrite flat_map_app. reflexivity. }
  assert (Hrcv4 : received d3' = received d ++ [rx_msg d2; rx_msg d3]).
  { change [rx_msg d2; rx_msg d3] with ([rx_msg d2] ++ [rx_msg d3]).
    rewrite app_assoc, <- Hrcv3. unfold received. subst d3'. proj_simpl.
    rewrite !flat_map_app. cbn [flat_map]. now rewrite !app_nil_r. }
  exists d1, d3, d3', (rx_msg d2), (rx_msg d3). fold d2.
  split_and; [exact E1 |].
  split_and; [rewrite E2; reflexivity |].
  split_and; [exact Hrcv2 |].
  split_and; [exact E3 |].
  split_and; [reflexivity |].
  split_and; [exact Hrcv3 |].
  split_and; [exact E5 |].
  split_and; [reflexivity |].
  split_and; [exact Hrcv4 |].
  split_and; [rewrite Hrx2; split; assumption |].
  split_and; [rewrite Hrx3; split; assumption |].
  split_and.
  - rewrite Hrx2, Haid. subst d1' d1. proj_simpl. reflexivity.
  - rewrite Hrx3, Hpid. subst d2'. proj_simpl. rewrite E2.
    subst d1' d1. unfold_mk. proj_simpl. apply u32_mod_8.
Qed.

Lemma src_session_accept_then_ps_rdy_witness :
  sysfs_mode src_waiting = TESTMODE_SRC /\
  state src_waiting = SSTATE_SRC_WAIT_FOR_REQUEST /\
  request src_waiting = request_none /\
  is_request request_msg /\
  exists d1 d3 d4 accept ps_rdy,
    tcpmtest_pd_transmit src_waiting TCPC_TX_SOP (Some request_msg)
      = Some d1 /\
    state (tcpmtest_event_work d1) = SSTATE_SRC_SEND_PS_RDY /\
    received (tcpmtest_event_work d1) = received src_waiting /\
    tcpmtest_tmo_work (tcpmtest_event_work d1) = Some d3 /\
    state d3 = SSTATE_SRC_RUN /\
    received d3 = received src_waiting ++ [accept] /\
    tcpmtest_tmo_work (tcpmtest_event_work d3) = Some d4 /\
    state d4 = SSTATE_SRC_RUN /\
    received d4 = received src_waiting ++ [accept; ps_rdy] /\
    is_ctrl_msg PD_CTRL_ACCEPT accept /\
    is_ctrl_msg PD_CTRL_PS_RDY ps_rdy /\
    pd_header_id (header accept) = rx_id src_waiting mod 8 /\
    pd_header_id (header ps_rdy) = (rx_id src_waiting + 1) mod 8.
Proof.
  assert (H4 : is_request request_msg).
  { split; [reflexivity | split; [reflexivity |]].
    vm_compute. discriminate. }
  exact (conj eq_refl (conj eq_refl (conj eq_refl (conj H4
          (proj2 (proj2 (src_session_accept_then_ps_rdy src_waiting
                           request_msg eq_refl eq_refl eq_refl H4))))))).
Defined.

(** The sample session has received the SourceCapabilities before the
    request arrives, so that the Port Manager sees SourceCapabilities,
    Accept, PowerReady with message IDs 0, 1, 2. *)
Example src_waiting_received :
  map (fun m => (pd_header_type (header m), pd_header_cnt (header m),
                 pd_header_id (header m))) (received src_waiting)
  = [(data_val PD_DATA_SOURCE_CAP, 1, 0)] /\
  rx_id src_waiting = 1.
Proof. split; vm_compute; reflexivity. Qed.

(** ** The message-ID counter *)

Lemma reaction_staged :
  forall d m,
    pd_header_id (header m) = rx_id d mod 8 ->
    staged_with_id d
      (set_msg_rx true (set_rx_msg m (set_rx_id (u32 (rx_id d + 1)) d))).
Proof.
  intros d m H. unfold staged_with_id.
  repeat split_and; [reflexivity | exact H | reflexivity].
Qed.

Lemma rx_payload_header :
  forall i v d, header (rx_msg (set_rx_payload i v d)) = header (rx_msg d).
Proof. reflexivity. Qed.

Lemma rx_msg_set_msg_rx :
  forall b d, rx_msg (set_msg_rx b d) = rx_msg d.
Proof. reflexivity. Qed.

Lemma rx_id_set_msg_rx :
  forall b d, rx_id (set_msg_rx b d) = rx_id d.
Proof. reflexivity. Qed.

Lemma rx_id_set_rx_payload :
  forall i v d, rx_id (set_rx_payload i v d) = rx_id d.
Proof. reflexivity. Qed.

Lemma rx_id_stage_header :
  forall type pwr dr cnt d,
    rx_id (stage_header type pwr dr cnt d) = u32 (rx_id d + 1).
Proof. reflexivity. Qed.

Lemma msg_rx_set_msg_rx :
  forall d, msg_rx (request (set_msg_rx true d)) = true.
Proof. reflexivity. Qed.

(** A synthesizer body: a staged header, payload writes, the flag. *)
Ltac synth_staged :=
  cbv zeta; unfold staged_with_id;
  rewrite msg_rx_set_msg_rx, rx_msg_set_msg_rx, rx_id_set_msg_rx,
          ?rx_payload_header, ?rx_id_set_rx_payload, rx_id_stage_header;
  repeat split_and;
  [ reflexivity
  | apply stage_header_id;
    [apply data_val_range || apply ctrl_val_range | lia]
  | reflexivity ].

Lemma mk_snk_request_staged :
  forall d, staged_with_id d (tcpmtest_mk_snk_request d).
Proof. intro d. unfold tcpmtest_mk_snk_request. synth_staged. Qed.

Lemma mk_snk_sink_cap_staged :
  forall d, staged_with_id d (tcpmtest_mk_snk_sink_cap d).
Proof. intro d. unfold tcpmtest_mk_snk_sink_cap. synth_staged. Qed.

Lemma mk_snk_disc_ident_staged :
  forall d, staged_with_id d (tcpmtest_mk_snk_disc_ident_resp_vdm d).
Proof. intro d. unfold tcpmtest_mk_snk_disc_ident_resp_vdm. synth_staged. Qed.

Lemma mk_snk_disc_svid_staged :
  forall d, staged_with_id d (tcpmtest_mk_snk_disc_svid_resp_vdm d).
Proof. intro d. unfold tcpmtest_mk_snk_disc_svid_resp_vdm. synth_staged. Qed.

Lemma mk_snk_disc_modes_staged :
  forall d svid,
    svid mod 2 ^ 16 = USB_SID_DISPLAYPORT ->
    staged_with_id d (tcpmtest_mk_snk_disc_modes_resp_vdm d svid).
Proof.
  intros d svid H.
  unfold tcpmtest_mk_snk_disc_modes_resp_vdm, mk_snk_disc_modes_resp_vdm_with.
  rewrite H. change (negb (USB_SID_DISPLAYPORT =? USB_SID_DISPLAYPORT))
    with false. cbv iota. synth_staged.
Qed.

Lemma mk_src_data_source_cap_staged :
  forall d, staged_with_id d (tcpmtest_mk_src_data_source_cap d).
Proof. intro d. unfold tcpmtest_mk_src_data_source_cap. synth_staged. Qed.

Lemma mk_src_accept_staged :
  forall d, staged_with_id d (tcpmtest_mk_src_accept d).
Proof. intro d. unfold tcpmtest_mk_src_accept. synth_staged. Qed.

Lemma mk_src_ps_rdy_staged :
  forall d, staged_with_id d (tcpmtest_mk_src_ps_rdy d).
Proof. intro d. unfold tcpmtest_mk_src_ps_rdy. synth_staged. Qed.

Lemma staged_set_state :
  forall s d d', staged_with_id d d' -> staged_with_id d (set_state s d').
Proof. intros s d d' H. exact H. Qed.

Lemma rx_id_event_prefix :
  forall d, rx_id (event_vbus_chng (event_mode_set d)) = rx_id d.
Proof.
  intro d.
  assert (H1 : rx_id (event_mode_set d) = rx_id d).
  { destruct (mode_set (request d)) eqn:Hms.
    - rewrite (event_mode_set_result d Hms). reflexivity.
    - rewrite (event_mode_set_idle d Hms). reflexivity. }
  destruct (event_vbus_chng_cases (event_mode_set d)) as [E | E];
    rewrite E; proj_simpl; exact H1.
Qed.

Lemma u32_succ_neq : forall x, u32 (x + 1) <> x.
Proof.
  intros x H. unfold u32, UINT_MOD in H.
  pose proof (Z.mod_pos_bound (x + 1) (2 ^ 32) ltac:(lia)) as B.
  destruct (Z.eq_dec x (2 ^ 32 - 1)) as [E | E].
  - rewrite E in H. vm_compute in H. discriminate H.
  - rewrite Z.mod_small in H by lia. lia.
Qed.


Lemma u32_add_mod_8 : forall x y, (u32 x + y) mod 8 = (x + y) mod 8.
Proof.
  intros x y. rewrite Z.add_mod by lia. rewrite u32_mod_8.
  rewrite <- Z.add_mod by lia. reflexivity.
Qed.

(** *** The events and the counter they call for *)

Lemma counter_after_app :
  forall evs evs' c,
    counter_after c (evs ++ evs') = counter_after (counter_after c evs) evs'.
Proof. intros evs evs' c. apply fold_left_app. Qed.

Lemma ids_ok_app :
  forall evs evs' c,
    ids_ok c evs -> ids_ok (counter_after c evs) evs' ->
    ids_ok c (evs ++ evs').
Proof.
  induction evs as [| ev evs IH]; intros evs' c H H'; [exact H' |].
  destruct H as [Hev Hrest]. split; [exact Hev |].
  apply IH; [exact Hrest | exact H'].
Qed.

(** The message synthesized after the events [evs1] carries the counter
    those events call for. *)
Lemma ids_ok_at :
  forall evs1 c evs m evs2,
    ids_ok c evs -> evs = evs1 ++ id_synth m :: evs2 ->
    pd_header_id (header m) = counter_after c evs1 mod 8.
Proof.
  induction evs1 as [| ev evs1 IH]; intros c evs m evs2 H E; subst evs.
  - destruct H as [H _]. exact H.
  - destruct H as [_ H]. exact (IH _ _ m evs2 H eq_refl).
Qed.

Lemma counter_after_no_reset :
  forall mid c,
    no_reset mid = true ->
    counter_after c mid mod 8 = (c + Z.of_nat (List.length mid)) mod 8.
Proof.
  induction mid as [| ev mid IH]; intros c H.
  - cbn [counter_after fold_left List.length Z.of_nat]. now rewrite Z.add_0_r.
  - cbn [no_reset forallb] in H. apply andb_prop in H. destruct H as [Hev H].
    destruct ev as [m | k]; [ | discriminate Hev].
    change (counter_after c (id_synth m :: mid))
      with (counter_after (u32 (c + 1)) mid).
    rewrite (IH _ H), u32_add_mod_8.
    change (List.length (id_synth m :: mid)) with (S (List.length mid)).
    rewrite Nat2Z.inj_succ. f_equal. lia.
Qed.

(** *** One call and its events *)

Lemma call_ids_ok :
  forall r d d',
    ids_exact r d d' ->
    rx_id d' = counter_after (rx_id d) (call_ids r d d') /\
    ids_ok (rx_id d) (call_ids r d d').
Proof.
  intros r d d' H. unfold call_ids. destruct r as [k |].
  - destruct H as [H _]. split; [exact H | exact (conj I I)].
  - destruct H as [(Hid & _ & _) | (_ & Hhdr & Hid)].
    + rewrite Hid, Z.eqb_refl. split; [reflexivity | exact I].
    + destruct (Z.eqb_spec (rx_id d') (rx_id d)) as [E | _].
      * rewrite Hid in E. exfalso. exact (u32_succ_neq _ E).
      * split; [exact Hid | exact (conj Hhdr I)].
Qed.

Lemma skipn_length_app :
  forall (A : Type) (l l' : list A), skipn (List.length l) (l ++ l') = l'.
Proof.
  induction l as [| a l IH]; intro l'; [reflexivity | exact (IH l')].
Qed.

Lemma told_same_calls :
  forall d d', calls d' = calls d -> told_hard_reset d d' = false.
Proof.
  intros d d' H. unfold told_hard_reset, new_calls.
  rewrite H, skipn_all. reflexivity.
Qed.

Lemma told_peer_hard_reset :
  forall d, told_hard_reset d (tcpmtest_hard_reset d true) = true.
Proof.
  intro d. unfold told_hard_reset, new_calls.
  change (calls (tcpmtest_hard_reset d true))
    with (calls d ++ [tcpm_pd_hard_reset]).
  rewrite skipn_length_app. reflexivity.
Qed.

Lemma soft_reset_latched_spec :
  forall d,
    soft_reset_latched d = true <->
    tx_type d = TCPC_TX_SOP /\
    pd_header_cnt (header (tx_msg d)) = 0 /\
    ctrl_of (pd_header_type (header (tx_msg d))) = Some PD_CTRL_SOFT_RESET.
Proof.
  intro d. unfold soft_reset_latched. split.
  - intro H. apply andb_prop in H. destruct H as [H Hty].
    apply andb_prop in H. destruct H as [Htx Hcnt].
    split; [exact (tx_type_eqb_eq _ _ Htx) |].
    split; [apply Z.eqb_eq; exact Hcnt |].
    destruct (ctrl_of (pd_header_type (header (tx_msg d)))) as [[] |];
      try discriminate Hty; reflexivity.
  - intros (Htx & Hcnt & Hty). rewrite Htx, Hcnt, Hty. reflexivity.
Qed.

(** The events of a classifier call, from its reaction and from what it
    does on the two resets the Port Manager transmits. *)
Lemma classifier_ids_exact :
  forall d d',
    reaction d d' ->
    (tx_type d = TCPC_TX_HARD_RESET -> d' = tcpmtest_hard_reset d false) ->
    (soft_reset_latched d = true -> d' = set_rx_id 0 d) ->
    ids_exact (classifier_reset d d') d d'.
Proof.
  intros d d' Hr Hhard Hsoft. unfold classifier_reset.
  destruct (hard_reset_latched d) eqn:Hh.
  { rewrite (Hhard (tx_type_eqb_eq _ _ Hh)). split; reflexivity. }
  destruct (soft_reset_latched d) eqn:Hs.
  { rewrite (Hsoft eq_refl). split; reflexivity. }
  clear Hhard Hsoft. destruct Hr as [ | Htx | Htx | Htx Hcnt Hty | m Hm | Hst].
  - rewrite told_same_calls by reflexivity.
    left. repeat split_and; reflexivity.
  - unfold hard_reset_latched in Hh. rewrite Htx in Hh. discriminate Hh.
  - rewrite told_peer_hard_reset. split; reflexivity.
  - rewrite (proj2 (soft_reset_latched_spec d) (conj Htx (conj Hcnt Hty)))
      in Hs. discriminate Hs.
  - rewrite told_same_calls by reflexivity.
    right. apply reaction_staged. exact Hm.
  - rewrite told_same_calls by reflexivity.
    left. repeat split_and; reflexivity.
Qed.

Lemma process_snk_ids_exact :
  forall d,
    ids_exact (classifier_reset d (tcpmtest_process_tx_msg_for_snk d))
              d (tcpmtest_process_tx_msg_for_snk d).
Proof.
  intro d. apply classifier_ids_exact.
  - apply (process_snk_reaction
             (VDO_MODE_DP 0 MODE_DP_PIN_C 0 1 MODE_DP_V13 MODE_DP_SNK)).
  - intro H.
    unfold tcpmtest_process_tx_msg_for_snk, process_tx_msg_for_snk_with.
    rewrite H. reflexivity.
  - intro H. apply soft_reset_latched_spec in H.
    destruct H as (Htx & Hcnt & Hty).
    unfold tcpmtest_process_tx_msg_for_snk.
    rewrite (process_snk_sop_ctrl _ d Htx Hcnt), Hty. reflexivity.
Qed.

Lemma process_src_ids_exact :
  forall d,
    ids_exact (classifier_reset d (tcpmtest_process_tx_msg_for_src d))
              d (tcpmtest_process_tx_msg_for_src d).
Proof.
  intro d. apply classifier_ids_exact.
  - apply process_src_reaction.
  - intro H. unfold tcpmtest_process_tx_msg_for_src.
    rewrite H. reflexivity.
  - intro H. apply soft_reset_latched_spec in H.
    destruct H as (Htx & Hcnt & Hty).
    rewrite (process_src_sop_ctrl d Htx Hcnt), Hty. reflexivity.
Qed.

Lemma state_machine_ids_exact :
  forall d timeout,
    ids_exact (state_machine_reset d) d (tcpmtest_state_machine d timeout).
Proof.
  intros d timeout. unfold state_machine_reset.
  destruct (state d) eqn:Hs; cbn [simstate_eqb]; unfold ids_exact;
    try (left; rewrite state_machine_resting by tauto;
         repeat split_and; reflexivity).
  - left. rewrite state_machine_snk_start by exact Hs.
    repeat split_and; reflexivity.
  - left. unfold tcpmtest_state_machine, state_machine_switch. cbv zeta.
    rewrite Hs. repeat split_and; reflexivity.
  - left. unfold tcpmtest_state_machine, state_machine_switch. cbv zeta.
    rewrite Hs. destruct timeout; repeat split_and; reflexivity.
  - unfold tcpmtest_state_machine, state_machine_switch. cbv zeta.
    rewrite Hs. destruct (pd_rx_enable d).
    + right. apply staged_set_state, mk_src_data_source_cap_staged.
    + left. repeat split_and; reflexivity.
  - right. rewrite state_machine_src_send_request by exact Hs.
    apply staged_set_state, mk_src_accept_staged.
  - rewrite state_machine_src_send_ps_rdy by exact Hs.
    destruct (msg_rx (request d)) eqn:Hm.
    + left. repeat split_and; [reflexivity | reflexivity | exact Hm].
    + right. apply staged_set_state, mk_src_ps_rdy_staged.
  - rewrite state_machine_to_none by exact Hs. split; reflexivity.
Qed.

(** *** One step and its events *)

Lemma rx_id_log_call : forall c d, rx_id (log_call c d) = rx_id d.
Proof. reflexivity. Qed.

Lemma event_msg_tx_ids_ok :
  forall d,
    rx_id (event_msg_tx d) = counter_after (rx_id d) (event_msg_tx_ids d) /\
    ids_ok (rx_id d) (event_msg_tx_ids d).
Proof.
  intro d. unfold event_msg_tx, event_msg_tx_ids.
  destruct (msg_tx (request d)); [ | split; [reflexivity | exact I]].
  cbv zeta.
  change (rx_id d) with (rx_id (set_msg_tx false d)).
  change (sysfs_mode (set_msg_tx false d)) with (sysfs_mode d).
  set (d1 := set_msg_tx false d). clearbody d1.
  destruct (testmode_eqb (sysfs_mode d) TESTMODE_SNK).
  { rewrite rx_id_log_call. apply call_ids_ok, process_snk_ids_exact. }
  destruct (testmode_eqb (sysfs_mode d) TESTMODE_SRC).
  { rewrite rx_id_log_call. apply call_ids_ok, process_src_ids_exact. }
  rewrite rx_id_log_call. split; [reflexivity | exact I].
Qed.

Lemma event_work_ids_ok :
  forall d,
    rx_id (tcpmtest_event_work d)
      = counter_after (rx_id d) (event_work_ids d) /\
    ids_ok (rx_id d) (event_work_ids d).
Proof.
  intro d. unfold tcpmtest_event_work, event_work_ids. cbv zeta.
  rewrite <- (rx_id_event_prefix d).
  set (d2 := event_vbus_chng (event_mode_set d)). clearbody d2.
  destruct (event_msg_tx_ids_ok d2) as [Hc Hok].
  set (d3 := event_msg_tx d2) in *. clearbody d3.
  destruct (call_ids_ok _ _ _ (state_machine_ids_exact d3 false))
    as [Hc' Hok'].
  fold (state_machine_ids d3 (tcpmtest_state_machine d3 false)) in Hc', Hok'.
  set (d4 := tcpmtest_state_machine d3 false) in *. clearbody d4.
  rewrite counter_after_app, <- Hc, <- Hc'. split.
  - destruct (msg_rx (request d4)); reflexivity.
  - apply ids_ok_app; [exact Hok |]. rewrite <- Hc. exact Hok'.
Qed.

(** The timeout work delivers the staged message, which keeps the state
    and the counter, and then calls the state machine. *)
Lemma tmo_work_state_machine :
  forall d d',
    tcpmtest_tmo_work d = Some d' ->
    exists d1,
      rx_id d1 = rx_id d /\ state d1 = state d /\ rx_msg d1 = rx_msg d /\
      d' = tcpmtest_state_machine d1 true.
Proof.
  intros d d' H. unfold tcpmtest_tmo_work in H. cbv zeta in H.
  destruct (msg_rx (request d)).
  - destruct (tcpmtest_log_msg (set_msg_rx false d) TCPC_TX_SOP
                (Some (rx_msg (set_msg_rx false d)))) as [d2 |] eqn:E;
      [ | discriminate H].
    apply log_msg_frame in E. destruct E as [a ->].
    injection H as <-.
    refine (ex_intro _ _ (conj _ (conj _ (conj _ eq_refl)))); reflexivity.
  - injection H as <-.
    refine (ex_intro _ _ (conj _ (conj _ (conj _ eq_refl)))); reflexivity.
Qed.

Lemma tmo_work_ids_ok :
  forall d d',
    tcpmtest_tmo_work d = Some d' ->
    rx_id d' = counter_after (rx_id d) (tmo_work_ids d d') /\
    ids_ok (rx_id d) (tmo_work_ids d d').
Proof.
  intros d d' H.
  destruct (tmo_work_state_machine d d' H) as (d1 & Hid & Hst & _ & ->).
  pose proof (call_ids_ok _ _ _ (state_machine_ids_exact d1 true)) as Hok.
  unfold tmo_work_ids, state_machine_ids, state_machine_reset, call_ids.
  unfold state_machine_reset, call_ids in Hok.
  rewrite Hid, Hst in Hok. exact Hok.
Qed.

Lemma sysfs_store_rx_id :
  forall d buf count,
    rx_id (fst (tcpmtest_sysfs_store d buf count)) = rx_id d.
Proof.
  intros d buf count. unfold tcpmtest_sysfs_store.
  destruct buf; [ | reflexivity].
  repeat match goal with
         | |- context [if ?c then _ else _] => destruct c
         end; reflexivity.
Qed.

Lemma facade_call_rx_id :
  forall d d', facade_call d d' -> rx_id d' = rx_id d.
Proof.
  intros d d' H. destruct H; try reflexivity.
  - unfold tcpmtest_set_pd_rx. destruct (negb _); reflexivity.
  - unfold tcpmtest_set_vbus. cbv zeta. destruct (negb _); reflexivity.
  - unfold tcpmtest_pd_transmit in H.
    destruct (tcpmtest_log_msg d type msg) as [d1 |] eqn:E;
      [ | discriminate H].
    apply log_msg_frame in E. destruct E as [a ->].
    injection H as <-. destruct msg; reflexivity.
Qed.

Lemma id_step_ok :
  forall d evs d',
    id_step d evs d' ->
    rx_id d' = counter_after (rx_id d) evs /\ ids_ok (rx_id d) evs.
Proof.
  intros d evs d' H. destruct H.
  - split; [apply sysfs_store_rx_id | exact I].
  - split; [apply facade_call_rx_id; assumption | exact I].
  - apply event_work_ids_ok.
  - apply tmo_work_ids_ok. assumption.
Qed.

Lemma run_ok :
  forall d0 evs d,
    run d0 evs d ->
    rx_id d = counter_after (rx_id d0) evs /\ ids_ok (rx_id d0) evs.
Proof.
  intros d0 evs d H. induction H as [d | d0 evs d evs' d' _ [IHc IHok] Hs].
  - split; [reflexivity | exact I].
  - destruct (id_step_ok _ _ _ Hs) as [Hc Hok].
    rewrite counter_after_app, <- IHc. split; [exact Hc |].
    apply ids_ok_app; [exact IHok |]. rewrite <- IHc. exact Hok.
Qed.

Lemma step_id_step :
  forall d d', step d d' <-> exists evs, id_step d evs d'.
Proof.
  intros d d'. split.
  - intro H. destruct H.
    + eexists. apply id_step_sysfs_store.
    + eexists. apply id_step_facade_call, call_set_cc.
    + eexists. apply id_step_facade_call, call_start_drp_toggling.
    + eexists. apply id_step_facade_call, call_set_polarity.
    + eexists. apply id_step_facade_call, call_set_vconn.
    + eexists. apply id_step_facade_call, call_set_roles.
    + eexists. apply id_step_facade_call, call_set_pd_rx.
    + eexists. apply id_step_facade_call, call_set_vbus.
    + eexists. eapply id_step_facade_call, call_pd_transmit. eassumption.
    + eexists. apply id_step_facade_call, call_init.
    + eexists. apply id_step_event_work.
    + eexists. apply id_step_tmo_work. assumption.
  - intros [evs H]. destruct H as [d buf count | d d' H | d | d d' H].
    + apply step_sysfs_store.
    + destruct H.
      * apply step_init.
      * apply step_set_cc.
      * apply step_start_drp_toggling.
      * apply step_set_polarity.
      * apply step_set_vconn.
      * apply step_set_roles.
      * apply step_set_pd_rx.
      * apply step_set_vbus.
      * eapply step_pd_transmit. eassumption.
    + apply step_event_work.
    + apply step_tmo_work. assumption.
Qed.

Lemma reachable_run :
  forall d, reachable d <-> exists evs, run tcpmtest_probe_data evs d.
Proof.
  intro d. split.
  - intro H. induction H as [| d d' _ [evs IH] Hs].
    + exists []. apply run_nil.
    + apply step_id_step in Hs. destruct Hs as [evs' Hs].
      exists (evs ++ evs'). exact (run_step _ _ _ _ _ IH Hs).
  - intros [evs H].
    remember tcpmtest_probe_data as d0 eqn:E.
    induction H as [d | d0 evs d evs' d' _ IH Hs].
    + subst d. apply reachable_probe.
    + apply reachable_step with d; [exact (IH E) |].
      apply step_id_step. exists evs'. exact Hs.
Qed.

(** *** The counter while no session is active *)

Lemma testmode_eqb_eq :
  forall a b, testmode_eqb a b = true -> a = b.
Proof. intros a b; destruct a, b; simpl; congruence. Qed.

Lemma state_machine_keeps_mode :
  forall d timeout,
    state d <> SSTATE_TO_NONE ->
    sysfs_mode (tcpmtest_state_machine d timeout) = sysfs_mode d.
Proof.
  intros d timeout Hn.
  destruct (state d) eqn:Hs; try contradiction;
    try (rewrite state_machine_resting by tauto; reflexivity).
  - rewrite state_machine_snk_start by exact Hs. reflexivity.
  - unfold tcpmtest_state_machine, state_machine_switch. cbv zeta.
    rewrite Hs. reflexivity.
  - unfold tcpmtest_state_machine, state_machine_switch. cbv zeta.
    rewrite Hs. destruct timeout; reflexivity.
  - unfold tcpmtest_state_machine, state_machine_switch. cbv zeta.
    rewrite Hs. destruct (pd_rx_enable d); reflexivity.
  - rewrite state_machine_src_send_request by exact Hs. reflexivity.
  - rewrite state_machine_src_send_ps_rdy by exact Hs.
    destruct (msg_rx (request d)); reflexivity.
Qed.

Lemma state_machine_idle_counter :
  forall d timeout,
    idle_counter d -> idle_counter (tcpmtest_state_machine d timeout).
Proof.
  intros d timeout H. unfold idle_counter in *.
  destruct (simstate_eqb (state d) SSTATE_TO_NONE) eqn:E.
  - apply simstate_eqb_eq in E.
    rewrite state_machine_to_none by exact E. intros _.
    split; reflexivity.
  - assert (Hn : state d <> SSTATE_TO_NONE)
      by (intro Hs; rewrite Hs in E; discriminate E).
    rewrite (state_machine_keeps_mode d timeout Hn). intro Hm.
    destruct (H Hm) as [Hs Hid].
    rewrite state_machine_resting by tauto. split; assumption.
Qed.

Lemma rx_id_event_mode_set :
  forall d, rx_id (event_mode_set d) = rx_id d.
Proof.
  intro d. destruct (mode_set (request d)) eqn:Hms.
  - rewrite (event_mode_set_result d Hms). reflexivity.
  - rewrite (event_mode_set_idle d Hms). reflexivity.
Qed.

Lemma event_mode_set_idle_counter :
  forall d, idle_counter d -> idle_counter (event_mode_set d).
Proof.
  intros d H. unfold idle_counter in *. rewrite rx_id_event_mode_set.
  destruct (event_mode_set_frame d) as [[Hm [Hs | Hs]] | [_ Hm]].
  - rewrite Hm, Hs. exact H.
  - rewrite Hm. intro Hn. contradiction.
  - intro Hn. contradiction.
Qed.

Lemma event_vbus_chng_idle_counter :
  forall d, idle_counter d -> idle_counter (event_vbus_chng d).
Proof.
  intros d H.
  destruct (event_vbus_chng_cases d) as [E | E]; rewrite E; exact H.
Qed.

Lemma event_msg_tx_idle_counter :
  forall d, idle_counter d -> idle_counter (event_msg_tx d).
Proof.
  intros d H. unfold event_msg_tx.
  destruct (msg_tx (request d)); [ | exact H]. cbv zeta.
  change (sysfs_mode (set_msg_tx false d)) with (sysfs_mode d).
  destruct (testmode_eqb (sysfs_mode d) TESTMODE_SNK) eqn:Esnk.
  { apply testmode_eqb_eq in Esnk. unfold idle_counter.
    pose proof (process_snk_reaction
                  (VDO_MODE_DP 0 MODE_DP_PIN_C 0 1 MODE_DP_V13 MODE_DP_SNK)
                  (set_msg_tx false d)) as Hr.
    apply reaction_frame in Hr. destruct Hr as (Hm & _).
    change (sysfs_mode (set_msg_tx false d)) with (sysfs_mode d) in Hm.
    intro Hn. exfalso.
    change (sysfs_mode (tcpmtest_process_tx_msg_for_snk (set_msg_tx false d))
            = TESTMODE_NONE) in Hn.
    unfold tcpmtest_process_tx_msg_for_snk, tcpmtest_process_tx_vdm_for_snk,
           tcpmtest_mk_snk_disc_modes_resp_vdm in Hn.
    rewrite Hm, Esnk in Hn. discriminate Hn. }
  destruct (testmode_eqb (sysfs_mode d) TESTMODE_SRC) eqn:Esrc.
  { apply testmode_eqb_eq in Esrc. unfold idle_counter.
    pose proof (process_src_reaction (set_msg_tx false d)) as Hr.
    apply reaction_frame in Hr. destruct Hr as (Hm & _).
    change (sysfs_mode (set_msg_tx false d)) with (sysfs_mode d) in Hm.
    intro Hn. exfalso.
    change (sysfs_mode (tcpmtest_process_tx_msg_for_src (set_msg_tx false d))
            = TESTMODE_NONE) in Hn.
    rewrite Hm, Esrc in Hn. discriminate Hn. }
  exact H.
Qed.

Lemma facade_call_mode_state :
  forall d d',
    facade_call d d' -> sysfs_mode d' = sysfs_mode d /\ state d' = state d.
Proof.
  intros d d' H. destruct H; try (split; reflexivity).
  - unfold tcpmtest_set_pd_rx. destruct (negb _); split; reflexivity.
  - unfold tcpmtest_set_vbus. cbv zeta. destruct (negb _); split; reflexivity.
  - unfold tcpmtest_pd_transmit in H.
    destruct (tcpmtest_log_msg d type msg) as [d1 |] eqn:E;
      [ | discriminate H].
    apply log_msg_frame in E. destruct E as [a ->].
    injection H as <-. destruct msg; split; reflexivity.
Qed.

Lemma id_step_idle_counter :
  forall d evs d', id_step d evs d' -> idle_counter d -> idle_counter d'.
Proof.
  intros d evs d' Hs H. destruct Hs as [d buf count | d d' Hc | d | d d' Ht].
  - unfold tcpmtest_sysfs_store. destruct buf; [ | exact H].
    repeat match goal with
           | |- context [if ?c then _ else _] => destruct c
           end; exact H.
  - destruct (facade_call_mode_state d d' Hc) as [Hm Hst].
    unfold idle_counter. rewrite Hm, Hst, (facade_call_rx_id d d' Hc).
    exact H.
  - unfold tcpmtest_event_work. cbv zeta.
    apply event_mode_set_idle_counter, event_vbus_chng_idle_counter,
          event_msg_tx_idle_counter in H.
    apply (state_machine_idle_counter _ false) in H.
    set (d4 := tcpmtest_state_machine _ false) in *. clearbody d4.
    destruct (msg_rx (request d4)); exact H.
  - unfold tcpmtest_tmo_work in Ht. cbv zeta in Ht.
    assert (Hd : forall d3,
              idle_counter d3 ->
              Some (tcpmtest_state_machine (set_delay 0 d3) true) = Some d' ->
              idle_counter d').
    { intros d3 H3 E. injection E as <-.
      apply (state_machine_idle_counter (set_delay 0 d3) true). exact H3. }
    destruct (msg_rx (request d)); [ | exact (Hd d H Ht)].
    destruct (tcpmtest_log_msg (set_msg_rx false d) TCPC_TX_SOP
                (Some (rx_msg (set_msg_rx false d)))) as [d2 |] eqn:E;
      [ | discriminate Ht].
    apply log_msg_frame in E. destruct E as [a ->].
    refine (Hd _ _ Ht). exact H.
Qed.

Lemma run_idle_counter :
  forall d0 evs d, run d0 evs d -> idle_counter d0 -> idle_counter d.
Proof.
  intros d0 evs d H. induction H as [d | d0 evs d evs' d' _ IH Hs].
  - exact (fun H0 => H0).
  - intro H0. exact (id_step_idle_counter _ _ _ Hs (IH H0)).
Qed.

(** C5: over every run of the simulator, the message-ID counter is the
    one its events call for: it is incremented (as an [unsigned int])
    by each synthesized message and set to zero by each reset, and
    nothing else moves it.  Each synthesized message carries the counter
    of its moment modulo 8 in the ID field of its header, a value in
    0 .. 7; of two synthesized messages with no reset between them the
    later carries the ID of the earlier plus the number of messages
    synthesized from the one to the other, modulo 8, so the next one
    carries the ID plus one; the messages after a reset count from 0.
    The resets are those of the classifier when the Port Manager
    transmitted a hard reset or a SoftReset or is told of a hard reset
    of the simulated peer, and that of the state machine at the end of
    the session in [SSTATE_TO_NONE]: at each of them the counter is
    zero afterwards and no message is synthesized, and a call of a
    classifier or of the state machine without one either leaves the
    counter, the staged message and its flag alone or synthesizes one
    message under the old counter.  The timeout work calls the state
    machine after a delivery that keeps the state, the counter and the
    staged message; the event work calls the classifier in its transmit
    block and then the state machine, and nothing else in it moves the
    counter.  The steps with their events are
    the steps of the simulator, the runs from the probed device reach
    the reachable states, and while no session is active the counter is
    zero. *)
Theorem message_id_counter :
  (forall d d', step d d' <-> exists evs, id_step d evs d') /\
  (forall d, reachable d <-> exists evs, run tcpmtest_probe_data evs d) /\
  (forall d timeout,
     ids_exact (classifier_reset d (tcpmtest_process_tx_msg_for_snk d))
               d (tcpmtest_process_tx_msg_for_snk d) /\
     ids_exact (classifier_reset d (tcpmtest_process_tx_msg_for_src d))
               d (tcpmtest_process_tx_msg_for_src d) /\
     ids_exact (state_machine_reset d)
               d (tcpmtest_state_machine d timeout)) /\
  (forall d d',
     tcpmtest_tmo_work d = Some d' ->
     exists d1,
       rx_id d1 = rx_id d /\ state d1 = state d /\ rx_msg d1 = rx_msg d /\
       d' = tcpmtest_state_machine d1 true) /\
  (forall d,
     rx_id (event_vbus_chng (event_mode_set d)) = rx_id d /\
     rx_id (event_msg_tx d) = counter_after (rx_id d) (event_msg_tx_ids d) /\
     rx_id (tcpmtest_event_work d)
     = rx_id (tcpmtest_state_machine
                (event_msg_tx (event_vbus_chng (event_mode_set d))) false)) /\
  (forall d0 evs d,
     run d0 evs d ->
     rx_id d = counter_after (rx_id d0) evs /\
     (forall evs1 m evs2,
        evs = evs1 ++ id_synth m :: evs2 ->
        pd_header_id (header m) = counter_after (rx_id d0) evs1 mod 8 /\
        0 <= pd_header_id (header m) <= 7) /\
     (forall evs1 m mid m' evs2,
        evs = evs1 ++ id_synth m :: mid ++ id_synth m' :: evs2 ->
        no_reset mid = true ->
        pd_header_id (header m')
        = (pd_header_id (header m) + 1 + Z.of_nat (List.length mid)) mod 8) /\
     (forall evs1 c mid m evs2,
        evs = evs1 ++ id_reset c :: mid ++ id_synth m :: evs2 ->
        no_reset mid = true ->
        pd_header_id (header m) = Z.of_nat (List.length mid) mod 8) /\
     (forall mid m evs2,
        evs = mid ++ id_synth m :: evs2 ->
        no_reset mid = true ->
        pd_header_id (header m)
        = (rx_id d0 + Z.of_nat (List.length mid)) mod 8) /\
     (idle_counter d0 -> idle_counter d)) /\
  idle_counter tcpmtest_probe_data.
Proof.
  split_and; [exact step_id_step |].
  split_and; [exact reachable_run |].
  split_and.
  { intros d timeout.
    split_and; [apply process_snk_ids_exact |].
    split_and; [apply process_src_ids_exact | apply state_machine_ids_exact]. }
  split_and; [exact tmo_work_state_machine |].
  split_and.
  { intro d.
    split_and; [apply rx_id_event_prefix |].
    split_and; [apply event_msg_tx_ids_ok |].
    unfold tcpmtest_event_work. cbv zeta.
    destruct (msg_rx (request _)); reflexivity. }
  split_and; [ | intros _; split; reflexivity].
  intros d0 evs d Hrun.
  destruct (run_ok _ _ _ Hrun) as [Hc Hok].
  split_and; [exact Hc |].
  split_and.
  { intros evs1 m evs2 E.
    rewrite (ids_ok_at evs1 _ _ m evs2 Hok E).
    split; [reflexivity |].
    pose proof (Z.mod_pos_bound (counter_after (rx_id d0) evs1) 8
                  ltac:(lia)). lia. }
  split_and.
  { intros evs1 m mid m' evs2 E Hmid.
    rewrite (ids_ok_at evs1 _ _ m _ Hok E).
    assert (E' : evs = (evs1 ++ id_synth m :: mid) ++ id_synth m' :: evs2)
      by (rewrite E, <- app_assoc; reflexivity).
    rewrite (ids_ok_at _ _ _ m' evs2 Hok E').
    rewrite counter_after_app.
    change (counter_after (counter_after (rx_id d0) evs1) (id_synth m :: mid))
      with (counter_after (u32 (counter_after (rx_id d0) evs1 + 1)) mid).
    rewrite (counter_after_no_reset mid _ Hmid), u32_add_mod_8.
    symmetry.
    rewrite <- (Z.add_assoc (counter_after (rx_id d0) evs1 mod 8)).
    rewrite Z.add_mod_idemp_l by lia.
    rewrite Z.add_assoc. reflexivity. }
  split_and.
  { intros evs1 c mid m evs2 E Hmid.
    assert (E' : evs = (evs1 ++ id_reset c :: mid) ++ id_synth m :: evs2)
      by (rewrite E, <- app_assoc; reflexivity).
    rewrite (ids_ok_at _ _ _ m evs2 Hok E').
    rewrite counter_after_app.
    change (counter_after (counter_after (rx_id d0) evs1) (id_reset c :: mid))
      with (counter_after 0 mid).
    rewrite (counter_after_no_reset mid _ Hmid). reflexivity. }
  split_and.
  { intros mid m evs2 E Hmid.
    rewrite (ids_ok_at mid _ _ m evs2 Hok E).
    apply counter_after_no_reset. exact Hmid. }
  exact (run_idle_counter _ _ _ Hrun).
Qed.

(** A source session after the delivery of the SourceCapabilities, with
    ID 0: the Accept is synthesized with ID 1 and the PowerReady with
    ID 2, the Port Manager sends a SoftReset, and the capabilities it
    then asks for come with ID 0 again. *)
Lemma message_id_counter_witness :
  run src_waiting
      [id_synth (rx_msg src_requested); id_synth (rx_msg src_accepted);
       id_reset SOFT_RESET_SENT; id_synth (rx_msg src_caps_again)]
      src_caps_again /\
  rx_id src_caps_again = 1 /\
  pd_header_id (header (rx_msg src_requested)) = 1 /\
  pd_header_id (header (rx_msg src_accepted)) = 2 /\
  pd_header_id (header (rx_msg src_caps_again)) = 0.
Proof.
  assert (T1 : tcpmtest_pd_transmit src_waiting TCPC_TX_SOP (Some request_msg)
               = Some (pd_transmit_or src_waiting TCPC_TX_SOP request_msg))
    by (vm_compute; reflexivity).
  assert (E1 : event_work_ids
                 (pd_transmit_or src_waiting TCPC_TX_SOP request_msg)
               = [id_synth (rx_msg src_requested)])
    by (vm_compute; reflexivity).
  assert (T2 : tcpmtest_tmo_work src_requested = Some src_accepted)
    by (vm_compute; reflexivity).
  assert (E2 : tmo_work_ids src_requested src_accepted
               = [id_synth (rx_msg src_accepted)])
    by (vm_compute; reflexivity).
  assert (T3 : tcpmtest_tmo_work src_accepted = Some src_powered)
    by (vm_compute; reflexivity).
  assert (E3 : tmo_work_ids src_accepted src_powered = [])
    by (vm_compute; reflexivity).
  assert (T4 : tcpmtest_pd_transmit src_powered TCPC_TX_SOP
                 (Some (ctrl_msg PD_CTRL_SOFT_RESET 0))
               = Some (pd_transmit_or src_powered TCPC_TX_SOP
                         (ctrl_msg PD_CTRL_SOFT_RESET 0)))
    by (vm_compute; reflexivity).
  assert (E4 : event_work_ids
                 (pd_transmit_or src_powered TCPC_TX_SOP
                    (ctrl_msg PD_CTRL_SOFT_RESET 0))
               = [id_reset SOFT_RESET_SENT])
    by (vm_compute; reflexivity).
  assert (T5 : tcpmtest_pd_transmit src_soft_reset TCPC_TX_SOP
                 (Some (ctrl_msg PD_CTRL_GET_SOURCE_CAP 1))
               = Some (pd_transmit_or src_soft_reset TCPC_TX_SOP
                         (ctrl_msg PD_CTRL_GET_SOURCE_CAP 1)))
    by (vm_compute; reflexivity).
  assert (E5 : event_work_ids
                 (pd_transmit_or src_soft_reset TCPC_TX_SOP
                    (ctrl_msg PD_CTRL_GET_SOURCE_CAP 1))
               = [id_synth (rx_msg src_caps_again)])
    by (vm_compute; reflexivity).
  pose proof (run_step _ _ _ _ _ (run_nil src_waiting)
                (id_step_facade_call _ _ (call_pd_transmit _ _ _ _ T1)))
    as R.
  pose proof (run_step _ _ _ _ _ R (id_step_event_work _)) as R1.
  rewrite E1 in R1. clear R T1 E1.
  assert (F1 : tcpmtest_event_work
                 (pd_transmit_or src_waiting TCPC_TX_SOP request_msg)
               = src_requested) by (vm_compute; reflexivity).
  rewrite F1 in R1. clear F1.
  pose proof (run_step src_waiting _ src_requested _ src_accepted R1
                (id_step_tmo_work src_requested src_accepted T2)) as R2.
  rewrite E2 in R2. clear R1 T2 E2.
  pose proof (run_step src_waiting _ src_accepted _ src_powered R2
                (id_step_tmo_work src_accepted src_powered T3)) as R3.
  rewrite E3 in R3. clear R2 T3 E3.
  pose proof (run_step src_waiting _ src_powered _ _ R3
                (id_step_facade_call src_powered _
                   (call_pd_transmit src_powered _ _ _ T4)))
    as R4.
  clear R3 T4.
  pose proof (run_step src_waiting _ _ _ _ R4 (id_step_event_work _)) as R5.
  rewrite E4 in R5. clear R4 E4.
  assert (F5 : tcpmtest_event_work
                 (pd_transmit_or src_powered TCPC_TX_SOP
                    (ctrl_msg PD_CTRL_SOFT_RESET 0))
               = src_soft_reset) by (vm_compute; reflexivity).
  rewrite F5 in R5. clear F5.
  pose proof (run_step src_waiting _ src_soft_reset _ _ R5
                (id_step_facade_call src_soft_reset _
                   (call_pd_transmit src_soft_reset _ _ _ T5)))
    as R6.
  clear R5 T5.
  pose proof (run_step src_waiting _ _ _ _ R6 (id_step_event_work _)) as R7.
  rewrite E5 in R7. clear R6 E5.
  assert (F7 : tcpmtest_event_work
                 (pd_transmit_or src_soft_reset TCPC_TX_SOP
                    (ctrl_msg PD_CTRL_GET_SOURCE_CAP 1))
               = src_caps_again) by (vm_compute; reflexivity).
  rewrite F7 in R7. clear F7.
  cbn [app] in R7.
  destruct (proj1 (proj2 (proj2 (proj2 (proj2 (proj2 message_id_counter)))))
              _ _ _ R7)
    as (Hc & Hat & Hnext & Hreset & _).
  split; [exact R7 |].
  split; [rewrite Hc; vm_compute; reflexivity |].
  destruct (Hat [] _ _ eq_refl) as [H1 _].
  split; [rewrite H1; vm_compute; reflexivity |].
  split.
  - rewrite (Hnext [] _ [] _ _ eq_refl eq_refl), H1. vm_compute. reflexivity.
  - rewrite (Hreset [_; _] _ [] _ _ eq_refl eq_refl). reflexivity.
Defined.

(** ** The two variants compared *)

Lemma app_one_neq : forall (A : Type) (l : list A) (x : A), l ++ [x] <> l.
Proof.
  intros A l x H. apply (f_equal (@List.length A)) in H.
  rewrite List.length_app in H. simpl in H. lia.
Qed.

Lemma hard_reset_peer_neq :
  forall d d', calls d' = calls d -> tcpmtest_hard_reset d true <> d'.
Proof.
  intros d d' Hc H. apply (f_equal calls) in H. rewrite Hc in H.
  exact (app_one_neq _ _ _ H).
Qed.

Lemma snk_variants_agree :
  forall d,
    same_up_to_mode_vdo d (tcpmtest_process_tx_msg_for_snk d)
                          (Polling.tcpmtest_process_tx_msg_for_snk d).
Proof.
  intro d.
  unfold tcpmtest_process_tx_msg_for_snk,
         Polling.tcpmtest_process_tx_msg_for_snk,
         process_tx_msg_for_snk_with. cbv zeta.
  destruct (tx_type_eqb (tx_type d) TCPC_TX_HARD_RESET);
    [left; reflexivity |].
  destruct (negb (tx_type_eqb (tx_type d) TCPC_TX_SOP));
    [left; reflexivity |].
  destruct (pd_header_cnt (header (tx_msg d)) =? 0); [left; reflexivity |].
  destruct (data_of (pd_header_type (header (tx_msg d)))) as [[]|];
    try (left; reflexivity).
  unfold tcpmtest_process_tx_vdm_for_snk,
         Polling.tcpmtest_process_tx_vdm_for_snk,
         process_tx_vdm_for_snk_with. cbv zeta.
  repeat match goal with
         | |- same_up_to_mode_vdo _ (if ?c then _ else _) _ =>
           destruct c; try (left; reflexivity)
         end.
  unfold tcpmtest_mk_snk_disc_modes_resp_vdm,
         Polling.tcpmtest_mk_snk_disc_modes_resp_vdm.
  fold mode_vdo_event. fold mode_vdo_polling.
  destruct (Z.eq_dec (PD_VDO_VID (payload (tx_msg d) 0) mod 2 ^ 16)
                     USB_SID_DISPLAYPORT) as [E | E].
  - right. exists (PD_VDO_VID (payload (tx_msg d) 0)).
    split; [exact E | split; reflexivity].
  - left. unfold mk_snk_disc_modes_resp_vdm_with.
    apply Z.eqb_neq in E. rewrite E. reflexivity.
Qed.

Lemma polling_src_sop_ctrl :
  forall d,
    tx_type d = TCPC_TX_SOP ->
    pd_header_cnt (header (tx_msg d)) = 0 ->
    Polling.tcpmtest_process_tx_msg_for_src d =
    match ctrl_of (pd_header_type (header (tx_msg d))) with
    | Some PD_CTRL_REJECT | Some PD_CTRL_GET_SOURCE_CAP | Some PD_CTRL_DR_SWAP
    | Some PD_CTRL_PR_SWAP | Some PD_CTRL_VCONN_SWAP =>
      tcpmtest_hard_reset d true
    | Some PD_CTRL_GET_SINK_CAP => tcpmtest_mk_snk_sink_cap d
    | Some PD_CTRL_SOFT_RESET => set_rx_id 0 d
    | _ => d
    end.
Proof.
  intros d Htx Hcnt. unfold Polling.tcpmtest_process_tx_msg_for_src.
  cbv zeta. rewrite Htx, Hcnt.
  destruct (ctrl_of (pd_header_type (header (tx_msg d)))) as [[]|];
    reflexivity.
Qed.

Lemma polling_src_sop_data :
  forall d,
    tx_type d = TCPC_TX_SOP ->
    pd_header_cnt (header (tx_msg d)) <> 0 ->
    Polling.tcpmtest_process_tx_msg_for_src d =
    match data_of (pd_header_type (header (tx_msg d))) with
    | Some PD_DATA_SOURCE_CAP | Some PD_DATA_SINK_CAP =>
      tcpmtest_hard_reset d true
    | Some PD_DATA_REQUEST => tcpmtest_mk_snk_request d
    | Some PD_DATA_VENDOR_DEF =>
      Polling.tcpmtest_process_tx_vdm_for_snk d
        (pd_header_cnt (header (tx_msg d)))
    | _ => d
    end.
Proof.
  intros d Htx Hcnt. unfold Polling.tcpmtest_process_tx_msg_for_src.
  cbv zeta. rewrite Htx. apply Z.eqb_neq in Hcnt. rewrite Hcnt.
  destruct (data_of (pd_header_type (header (tx_msg d)))) as [[]|];
    reflexivity.
Qed.

Lemma src_variants_not_sop :
  forall d,
    tx_type d <> TCPC_TX_SOP ->
    tcpmtest_process_tx_msg_for_src d
    = Polling.tcpmtest_process_tx_msg_for_src d.
Proof.
  intros d H.
  unfold tcpmtest_process_tx_msg_for_src,
         Polling.tcpmtest_process_tx_msg_for_src. cbv zeta.
  destruct (tx_type_eqb (tx_type d) TCPC_TX_HARD_RESET); [reflexivity |].
  destruct (tx_type_eqb (tx_type d) TCPC_TX_SOP) eqn:E; [ | reflexivity].
  apply tx_type_eqb_eq in E. contradiction.
Qed.

(** C9 (as amended): the sink-role message-processing functions of the
    two variants react alike to every message, except that their
    responses to a DisplayPort discover-modes request advertise different
    mode VDOs (0x445 and 0x405).  The source-role functions react alike
    to every transmission that is not SOP, to the control messages other
    than Accept, GetSourceCap and GetSinkCap, and to the data messages
    SourceCapabilities, BIST and those of reserved type; they react
    differently to Accept, GetSourceCap, GetSinkCap, Request and
    SinkCapabilities, and to a vendor-defined message the work-queue
    variant does not react while the kthread variant answers as its sink
    role does. *)
Theorem variants_compared :
  forall d,
    same_up_to_mode_vdo d (tcpmtest_process_tx_msg_for_snk d)
                          (Polling.tcpmtest_process_tx_msg_for_snk d) /\
    mode_vdo_event = 0x445 /\ mode_vdo_polling = 0x405 /\
    (tx_type d <> TCPC_TX_SOP ->
     tcpmtest_process_tx_msg_for_src d
     = Polling.tcpmtest_process_tx_msg_for_src d) /\
    (tx_type d = TCPC_TX_SOP ->
     if pd_header_cnt (header (tx_msg d)) =? 0 then
       match ctrl_of (pd_header_type (header (tx_msg d))) with
       | Some PD_CTRL_ACCEPT | Some PD_CTRL_GET_SOURCE_CAP
       | Some PD_CTRL_GET_SINK_CAP =>
         tcpmtest_process_tx_msg_for_src d
         <> Polling.tcpmtest_process_tx_msg_for_src d
       | _ =>
         tcpmtest_process_tx_msg_for_src d
         = Polling.tcpmtest_process_tx_msg_for_src d
       end
     else
       match data_of (pd_header_type (header (tx_msg d))) with
       | Some PD_DATA_REQUEST | Some PD_DATA_SINK_CAP =>
         tcpmtest_process_tx_msg_for_src d
         <> Polling.tcpmtest_process_tx_msg_for_src d
       | Some PD_DATA_VENDOR_DEF =>
         tcpmtest_process_tx_msg_for_src d = d /\
         Polling.tcpmtest_process_tx_msg_for_src d
         = Polling.tcpmtest_process_tx_vdm_for_snk d
             (pd_header_cnt (header (tx_msg d)))
       | _ =>
         tcpmtest_process_tx_msg_for_src d
         = Polling.tcpmtest_process_tx_msg_for_src d
       end).
Proof.
  intro d.
  split_and; [apply snk_variants_agree |].
  split_and; [reflexivity |]. split_and; [reflexivity |].
  split_and; [apply src_variants_not_sop |].
  intro Htx.
  destruct (pd_header_cnt (header (tx_msg d)) =? 0) eqn:Ecnt.
  - apply Z.eqb_eq in Ecnt.
    rewrite (process_src_sop_ctrl d Htx Ecnt).
    rewrite (polling_src_sop_ctrl d Htx Ecnt).
    destruct (ctrl_of (pd_header_type (header (tx_msg d)))) as [[]|];
      try reflexivity.
    + apply hard_reset_peer_neq. reflexivity.
    + intro H. symmetry in H. revert H.
      apply hard_reset_peer_neq. reflexivity.
    + apply hard_reset_peer_neq. reflexivity.
  - apply Z.eqb_neq in Ecnt.
    rewrite (process_src_sop_data d Htx Ecnt).
    rewrite (polling_src_sop_data d Htx Ecnt).
    destruct (data_of (pd_header_type (header (tx_msg d)))) as [[]|];
      try reflexivity.
    + intro H. apply (f_equal rx_id) in H. revert H.
      destruct (simstate_eqb (state d) SSTATE_SRC_WAIT_FOR_REQUEST);
        unfold_mk; proj_simpl; intro H; symmetry in H;
        exact (u32_succ_neq _ H).
    + intro H. symmetry in H. revert H.
      apply hard_reset_peer_neq. reflexivity.
    + split; reflexivity.
Qed.

(** C9 as stated fails: to an Accept in a running source session the
    kthread variant does not react, while the work-queue variant clears
    the message-ID counter and reports a hard reset from the peer. *)
Lemma variants_differ_on_src_accept :
  tx_type src_running_accept = TCPC_TX_SOP /\
  pd_header_cnt (header (tx_msg src_running_accept)) = 0 /\
  ctrl_of (pd_header_type (header (tx_msg src_running_accept)))
    = Some PD_CTRL_ACCEPT /\
  Polling.tcpmtest_process_tx_msg_for_src src_running_accept
    = src_running_accept /\
  tcpmtest_process_tx_msg_for_src src_running_accept
    <> Polling.tcpmtest_process_tx_msg_for_src src_running_accept /\
  rx_id (Polling.tcpmtest_process_tx_msg_for_src src_running_accept) = 3 /\
  rx_id (tcpmtest_process_tx_msg_for_src src_running_accept) = 0 /\
  calls (Polling.tcpmtest_process_tx_msg_for_src src_running_accept) = [] /\
  calls (tcpmtest_process_tx_msg_for_src src_running_accept)
    = [tcpm_pd_hard_reset].
Proof.
  repeat (split_and; [vm_compute; reflexivity |]).
  split_and.
  - intro H. apply (f_equal rx_id) in H. vm_compute in H. discriminate H.
  - repeat (split_and; [vm_compute; reflexivity |]). vm_compute; reflexivity.
Qed.

(** * Further properties of the code *)

(** ** The DisplayPort VDO header *)

(** A field placed above [s] low bits adds up with them. *)
Lemma lor_shiftl_add :
  forall hi lo s,
    0 <= s -> 0 <= lo < 2 ^ s ->
    Z.lor (Z.shiftl hi s) lo = hi * 2 ^ s + lo.
Proof.
  intros hi lo s Hs Hlo.
  assert (Hnc : Z.land (Z.shiftl hi s) lo = 0).
  { apply Z.bits_inj'. intros n Hn.
    rewrite Z.land_spec, Z.bits_0.
    destruct (Z.lt_ge_cases n s) as [Hlt | Hge].
    - rewrite Z.shiftl_spec_low by assumption. reflexivity.
    - rewrite Bool.andb_false_iff. right.
      destruct (Z.eq_dec lo 0) as [-> | Hnz]; [apply Z.bits_0 |].
      apply Z.bits_above_log2; [lia |].
      apply Z.lt_le_trans with s; [ | assumption].
      apply Z.log2_lt_pow2; lia. }
  rewrite <- Z.lxor_lor by exact Hnc.
  rewrite <- Z.add_nocarry_lxor by exact Hnc.
  now rewrite Z.shiftl_mul_pow2.
Qed.

Lemma land_1_mod : forall x, Z.land x 1 = x mod 2.
Proof. intro x. exact (Z.land_ones x 1 ltac:(lia)). Qed.

Lemma land_3_mod : forall x, Z.land x 3 = x mod 4.
Proof. intro x. exact (Z.land_ones x 2 ltac:(lia)). Qed.

Lemma land_15_mod : forall x, Z.land x 15 = x mod 16.
Proof. intro x. exact (Z.land_ones x 4 ltac:(lia)). Qed.

Lemma land_63_mod : forall x, Z.land x 63 = x mod 64.
Proof. intro x. exact (Z.land_ones x 6 ltac:(lia)). Qed.

Lemma land_255_mod : forall x, Z.land x 255 = x mod 256.
Proof. intro x. exact (Z.land_ones x 8 ltac:(lia)). Qed.

Ltac masks_to_mod :=
  rewrite ?land_1_mod, ?land_3_mod, ?land_15_mod, ?land_63_mod,
          ?land_255_mod.

(** The mode VDO is the sum of its masked fields at their positions. *)
Lemma mode_dp_sum :
  forall a b c e f g,
    0 <= a < 256 -> 0 <= b < 256 -> 0 <= c < 2 -> 0 <= e < 2 ->
    0 <= f < 16 -> 0 <= g < 4 ->
    Z.lor (Z.shiftl a 16)
   (Z.lor (Z.shiftl b 8)
   (Z.lor (Z.shiftl c 7)
   (Z.lor (Z.shiftl e 6) (Z.lor (Z.shiftl f 2) g))))
    = a * 65536 + b * 256 + c * 128 + e * 64 + f * 4 + g.
Proof.
  intros a b c e f g Ha Hb Hc He Hf Hg.
  rewrite (lor_shiftl_add f g 2) by (change (2 ^ 2) with 4; lia).
  rewrite (lor_shiftl_add e _ 6) by (change (2 ^ 2) with 4;
                                     change (2 ^ 6) with 64; lia).
  rewrite (lor_shiftl_add c _ 7)
    by (change (2 ^ 2) with 4; change (2 ^ 6) with 64;
        change (2 ^ 7) with 128; lia).
  rewrite (lor_shiftl_add b _ 8)
    by (change (2 ^ 2) with 4; change (2 ^ 6) with 64;
        change (2 ^ 7) with 128; change (2 ^ 8) with 256; lia).
  rewrite (lor_shiftl_add a _ 16)
    by (change (2 ^ 2) with 4; change (2 ^ 6) with 64;
        change (2 ^ 7) with 128; change (2 ^ 8) with 256;
        change (2 ^ 16) with 65536; lia).
  change (2 ^ 2) with 4; change (2 ^ 6) with 64;
    change (2 ^ 7) with 128; change (2 ^ 8) with 256;
    change (2 ^ 16) with 65536. lia.
Qed.

Lemma mode_dp_as_sum :
  forall snkp srcp usb gdr sign sdir,
    VDO_MODE_DP snkp srcp usb gdr sign sdir =
    (snkp mod 256) * 65536 + (srcp mod 256) * 256 + (usb mod 2) * 128
    + (gdr mod 2) * 64 + (sign mod 16) * 4 + sdir mod 4.
Proof.
  intros. unfold VDO_MODE_DP. masks_to_mod.
  apply mode_dp_sum; apply Z.mod_pos_bound; lia.
Qed.

Ltac pow2_consts :=
  change (2 ^ 2) with 4 in *; change (2 ^ 4) with 16 in *;
  change (2 ^ 6) with 64 in *; change (2 ^ 7) with 128 in *;
  change (2 ^ 8) with 256 in *; change (2 ^ 16) with 65536 in *;
  change (2 ^ 24) with 16777216 in *.

(** X1: the decoders of the mode VDO read back what [VDO_MODE_DP] was
    given, each field cut to its width, and the bits 31..24 stay zero. *)
Theorem mode_dp_decoders :
  forall snkp srcp usb gdr sign sdir,
    PD_DP_UFP_D_PIN (VDO_MODE_DP snkp srcp usb gdr sign sdir)
      = Z.land snkp 0xff /\
    PD_DP_DFP_D_PIN (VDO_MODE_DP snkp srcp usb gdr sign sdir)
      = Z.land srcp 0xff /\
    PD_DP_USB20_NOT_USED (VDO_MODE_DP snkp srcp usb gdr sign sdir)
      = Z.land usb 1 /\
    PD_DP_RECEPTACLE (VDO_MODE_DP snkp srcp usb gdr sign sdir)
      = Z.land gdr 1 /\
    PD_DP_SIGNAL (VDO_MODE_DP snkp srcp usb gdr sign sdir)
      = Z.land sign 0xf /\
    PD_DP_PORT_CAP (VDO_MODE_DP snkp srcp usb gdr sign sdir)
      = Z.land sdir 0x3 /\
    0 <= VDO_MODE_DP snkp srcp usb gdr sign sdir < 2 ^ 24.
Proof.
  intros.
  unfold PD_DP_UFP_D_PIN, PD_DP_DFP_D_PIN, PD_DP_USB20_NOT_USED,
         PD_DP_RECEPTACLE, PD_DP_SIGNAL, PD_DP_PORT_CAP.
  rewrite mode_dp_as_sum. masks_to_mod.
  rewrite !Z.shiftr_div_pow2 by lia. pow2_consts.
  pose proof (Z.mod_pos_bound snkp 256 ltac:(lia)).
  pose proof (Z.mod_pos_bound srcp 256 ltac:(lia)).
  pose proof (Z.mod_pos_bound usb 2 ltac:(lia)).
  pose proof (Z.mod_pos_bound gdr 2 ltac:(lia)).
  pose proof (Z.mod_pos_bound sign 16 ltac:(lia)).
  pose proof (Z.mod_pos_bound sdir 4 ltac:(lia)).
  generalize dependent (snkp mod 256). generalize dependent (srcp mod 256).
  generalize dependent (usb mod 2). generalize dependent (gdr mod 2).
  generalize dependent (sign mod 16). generalize dependent (sdir mod 4).
  intros g Hg f Hf e He c Hc b Hb a Ha.
  repeat split_and; try (Z.div_mod_to_equations; lia).
Qed.

(** X2: [PD_DP_PIN_CAPS] reads the pin assignments of the side the
    receptacle bit selects: the UFP_D pins of a receptacle, the DFP_D
    pins of a plug, six pins in either case. *)
Theorem mode_dp_pin_caps :
  forall snkp srcp usb gdr sign sdir,
    PD_DP_PIN_CAPS (VDO_MODE_DP snkp srcp usb gdr sign sdir)
    = if Z.land gdr 1 =? 1 then Z.land snkp 0x3f else Z.land srcp 0x3f.
Proof.
  intros. unfold PD_DP_PIN_CAPS.
  rewrite mode_dp_as_sum. masks_to_mod.
  rewrite !Z.shiftr_div_pow2 by lia. pow2_consts.
  assert (Ha : snkp mod 64 = (snkp mod 256) mod 64)
    by (symmetry; apply Z.mod_mod_divide; exists 4; reflexivity).
  assert (Hb : srcp mod 64 = (srcp mod 256) mod 64)
    by (symmetry; apply Z.mod_mod_divide; exists 4; reflexivity).
  rewrite Ha, Hb.
  pose proof (Z.mod_pos_bound snkp 256 ltac:(lia)).
  pose proof (Z.mod_pos_bound srcp 256 ltac:(lia)).
  pose proof (Z.mod_pos_bound usb 2 ltac:(lia)).
  pose proof (Z.mod_pos_bound gdr 2 ltac:(lia)).
  pose proof (Z.mod_pos_bound sign 16 ltac:(lia)).
  pose proof (Z.mod_pos_bound sdir 4 ltac:(lia)).
  generalize dependent (snkp mod 256). generalize dependent (srcp mod 256).
  generalize dependent (usb mod 2). generalize dependent (gdr mod 2).
  generalize dependent (sign mod 16). generalize dependent (sdir mod 4).
  intros g Hg f Hf e He c Hc b _ Hb a _ Ha.
  assert (Hrec : (a * 65536 + b * 256 + c * 128 + e * 64 + f * 4 + g) / 64
                 mod 2 = e) by (Z.div_mod_to_equations; lia).
  rewrite Hrec.
  destruct (Z.eqb_spec e 1) as [-> | Hne].
  - change (negb (1 =? 0)) with true. cbv iota.
    Z.div_mod_to_equations; lia.
  - assert (e = 0) by lia. subst e.
    change (negb (0 =? 0)) with false. cbv iota.
    Z.div_mod_to_equations; lia.
Qed.

Lemma dp_status_as_sum :
  forall irq lvl amode usbc mf en lp conn,
    0 <= cond_and_0x3 conn < 4 ->
    VDO_DP_STATUS irq lvl amode usbc mf en lp conn =
    (irq mod 2) * 256 + (lvl mod 2) * 128 + (amode mod 2) * 64
    + (usbc mod 2) * 32 + (mf mod 2) * 16 + (en mod 2) * 8
    + (lp mod 2) * 4 + cond_and_0x3 conn.
Proof.
  intros irq lvl amode usbc mf en lp conn Hconn.
  unfold VDO_DP_STATUS. masks_to_mod. rewrite Z.shiftl_0_r.
  pose proof (Z.mod_pos_bound irq 2 ltac:(lia)).
  pose proof (Z.mod_pos_bound lvl 2 ltac:(lia)).
  pose proof (Z.mod_pos_bound amode 2 ltac:(lia)).
  pose proof (Z.mod_pos_bound usbc 2 ltac:(lia)).
  pose proof (Z.mod_pos_bound mf 2 ltac:(lia)).
  pose proof (Z.mod_pos_bound en 2 ltac:(lia)).
  pose proof (Z.mod_pos_bound lp 2 ltac:(lia)).
  rewrite (lor_shiftl_add (lp mod 2) _ 2) by (change (2 ^ 2) with 4; lia).
  rewrite (lor_shiftl_add (en mod 2) _ 3)
    by (change (2 ^ 2) with 4; change (2 ^ 3) with 8; lia).
  rewrite (lor_shiftl_add (mf mod 2) _ 4)
    by (change (2 ^ 2) with 4; change (2 ^ 3) with 8;
        change (2 ^ 4) with 16; lia).
  rewrite (lor_shiftl_add (usbc mod 2) _ 5)
    by (change (2 ^ 2) with 4; change (2 ^ 3) with 8;
        change (2 ^ 4) with 16; change (2 ^ 5) with 32; lia).
  rewrite (lor_shiftl_add (amode mod 2) _ 6)
    by (change (2 ^ 2) with 4; change (2 ^ 3) with 8;
        change (2 ^ 4) with 16; change (2 ^ 5) with 32;
        change (2 ^ 6) with 64; lia).
  rewrite (lor_shiftl_add (lvl mod 2) _ 7)
    by (change (2 ^ 2) with 4; change (2 ^ 3) with 8;
        change (2 ^ 4) with 16; change (2 ^ 5) with 32;
        change (2 ^ 6) with 64; change (2 ^ 7) with 128; lia).
  rewrite (lor_shiftl_add (irq mod 2) _ 8)
    by (change (2 ^ 2) with 4; change (2 ^ 3) with 8;
        change (2 ^ 4) with 16; change (2 ^ 5) with 32;
        change (2 ^ 6) with 64; change (2 ^ 7) with 128;
        change (2 ^ 8) with 256; lia).
  change (2 ^ 2) with 4; change (2 ^ 3) with 8; change (2 ^ 4) with 16;
    change (2 ^ 5) with 32; change (2 ^ 6) with 64; change (2 ^ 7) with 128;
    change (2 ^ 8) with 256. lia.
Qed.

(** An argument that is one operand is masked as a whole. *)
Lemma conn_operand_masked :
  forall v,
    cond_and_0x3 (conn_operand v) = Z.land v 0x3 /\
    0 <= cond_and_0x3 (conn_operand v) < 4.
Proof.
  intro v. cbn [cond_and_0x3 conn_operand lor_and_0x3 land_and_0x3
                or_and_0x3 xor_and_0x3].
  split; [reflexivity |]. rewrite land_3_mod.
  apply Z.mod_pos_bound. lia.
Qed.

(** X3: [VDO_DP_STATUS] pastes its last argument [conn] into
    [(conn & 0x3)] without parentheses of its own.  Whenever the pasted
    text has a value in 0 .. 3, the decoders of the status VDO read
    back the HPD interrupt, the HPD level and the multi-function
    preference, each cut to one bit, and the bits 31..9 stay zero; this
    is the case for every argument that is one operand, whose value is
    then cut to two bits.  An argument with an operator that binds less
    tightly than [&] is masked in its last operand only: with
    [0x100 | 1] for [conn] and 0 for the interrupt the interrupt reads
    back as 1, and with [0x200 | 1] the status VDO is 0x201. *)
Theorem dp_status_decoders :
  forall irq lvl amode usbc mf en lp,
    (forall conn,
        0 <= cond_and_0x3 conn < 4 ->
        PD_VDO_DPSTS_HPD_IRQ (VDO_DP_STATUS irq lvl amode usbc mf en lp conn)
          = Z.land irq 1 /\
        PD_VDO_DPSTS_HPD_LVL (VDO_DP_STATUS irq lvl amode usbc mf en lp conn)
          = Z.land lvl 1 /\
        PD_VDO_DPSTS_MF_PREF (VDO_DP_STATUS irq lvl amode usbc mf en lp conn)
          = Z.land mf 1 /\
        0 <= VDO_DP_STATUS irq lvl amode usbc mf en lp conn < 2 ^ 9) /\
    (forall v,
        cond_and_0x3 (conn_operand v) = Z.land v 0x3 /\
        0 <= cond_and_0x3 (conn_operand v) < 4) /\
    cond_and_0x3 (conn_or 0x100 1) = 0x101 /\
    PD_VDO_DPSTS_HPD_IRQ (VDO_DP_STATUS 0 0 0 0 0 0 0 (conn_or 0x100 1)) = 1 /\
    VDO_DP_STATUS 0 0 0 0 0 0 0 (conn_or 0x200 1) = 0x201.
Proof.
  intros irq lvl amode usbc mf en lp.
  split; [ | split; [exact conn_operand_masked | repeat split; reflexivity]].
  intros conn Hconn.
  unfold PD_VDO_DPSTS_HPD_IRQ, PD_VDO_DPSTS_HPD_LVL, PD_VDO_DPSTS_MF_PREF.
  rewrite dp_status_as_sum by exact Hconn. masks_to_mod.
  rewrite !Z.shiftr_div_pow2 by lia. pow2_consts.
  change (2 ^ 9) with 512.
  pose proof (Z.mod_pos_bound irq 2 ltac:(lia)).
  pose proof (Z.mod_pos_bound lvl 2 ltac:(lia)).
  pose proof (Z.mod_pos_bound amode 2 ltac:(lia)).
  pose proof (Z.mod_pos_bound usbc 2 ltac:(lia)).
  pose proof (Z.mod_pos_bound mf 2 ltac:(lia)).
  pose proof (Z.mod_pos_bound en 2 ltac:(lia)).
  pose proof (Z.mod_pos_bound lp 2 ltac:(lia)).
  generalize dependent (irq mod 2). generalize dependent (lvl mod 2).
  generalize dependent (amode mod 2). generalize dependent (usbc mod 2).
  generalize dependent (mf mod 2). generalize dependent (en mod 2).
  generalize dependent (lp mod 2). generalize dependent (cond_and_0x3 conn).
  intros.
  repeat split_and; try (Z.div_mod_to_equations; lia).
Qed.

(** The status VDO of a connected DFP_D with the HPD level high and an
    interrupt pending. *)
Lemma dp_status_decoders_witness :
  0 <= cond_and_0x3 (conn_operand 1) < 4 /\
  PD_VDO_DPSTS_HPD_IRQ (VDO_DP_STATUS 1 1 0 0 0 1 0 (conn_operand 1)) = 1 /\
  PD_VDO_DPSTS_HPD_LVL (VDO_DP_STATUS 1 1 0 0 0 1 0 (conn_operand 1)) = 1 /\
  PD_VDO_DPSTS_MF_PREF (VDO_DP_STATUS 1 1 0 0 0 1 0 (conn_operand 1)) = 0 /\
  0 <= VDO_DP_STATUS 1 1 0 0 0 1 0 (conn_operand 1) < 2 ^ 9.
Proof.
  assert (H : 0 <= cond_and_0x3 (conn_operand 1) < 4)
    by (vm_compute; split; [discriminate | reflexivity]).
  split; [exact H |].
  exact (proj1 (dp_status_decoders 1 1 0 0 0 1 0) (conn_operand 1) H).
Defined.

Lemma dp_cfg_as_sum :
  forall pin sig cfg,
    VDO_DP_CFG pin sig cfg
    = (pin mod 256) * 256 + (sig mod 16) * 4 + cfg mod 4.
Proof.
  intros. unfold VDO_DP_CFG. masks_to_mod.
  pose proof (Z.mod_pos_bound pin 256 ltac:(lia)).
  pose proof (Z.mod_pos_bound sig 16 ltac:(lia)).
  pose proof (Z.mod_pos_bound cfg 4 ltac:(lia)).
  rewrite (lor_shiftl_add (sig mod 16) _ 2) by (change (2 ^ 2) with 4; lia).
  rewrite (lor_shiftl_add (pin mod 256) _ 8)
    by (change (2 ^ 2) with 4; change (2 ^ 8) with 256; lia).
  change (2 ^ 2) with 4; change (2 ^ 8) with 256. lia.
Qed.

(** X4: the decoders of the configure VDO: [PD_DP_CFG_PIN] reads back the
    pin assignment given to [VDO_DP_CFG] (the fall-back to the former
    position of the field finds zero there), and [PD_DP_CFG_DPON] holds
    exactly for the configurations 1 (DFP_D) and 2 (UFP_D). *)
Theorem dp_cfg_decoders :
  forall pin sig cfg,
    PD_DP_CFG_PIN (VDO_DP_CFG pin sig cfg) = Z.land pin 0xff /\
    PD_DP_CFG_DPON (VDO_DP_CFG pin sig cfg)
      = (Z.land cfg 0x3 =? 1) || (Z.land cfg 0x3 =? 2).
Proof.
  intros. unfold PD_DP_CFG_PIN, PD_DP_CFG_DPON.
  rewrite dp_cfg_as_sum. masks_to_mod.
  rewrite !Z.shiftr_div_pow2 by lia. pow2_consts.
  pose proof (Z.mod_pos_bound pin 256 ltac:(lia)).
  pose proof (Z.mod_pos_bound sig 16 ltac:(lia)).
  pose proof (Z.mod_pos_bound cfg 4 ltac:(lia)).
  generalize dependent (pin mod 256). generalize dependent (sig mod 16).
  generalize dependent (cfg mod 4). intros g Hg f Hf a Ha.
  assert (H8 : (a * 256 + f * 4 + g) / 256 mod 256 = a)
    by (Z.div_mod_to_equations; lia).
  assert (H16 : (a * 256 + f * 4 + g) / 65536 mod 256 = 0)
    by (Z.div_mod_to_equations; lia).
  assert (H0 : (a * 256 + f * 4 + g) mod 4 = g)
    by (Z.div_mod_to_equations; lia).
  rewrite H8, H16, H0. split; [ | reflexivity].
  destruct (Z.eqb_spec a 0) as [-> | Hne]; reflexivity.
Qed.

(** X5: for fields within their widths the encoder [VDO_DPM] of the other
    version of the header builds the same VDO as [VDO_MODE_DP], and its
    decoders read the fields back. *)
Theorem dpm_agrees_with_mode_dp :
  forall ufpd dfpd nusb20 rec sign cap,
    0 <= ufpd < 256 -> 0 <= dfpd < 256 -> 0 <= nusb20 < 2 ->
    0 <= rec < 2 -> 0 <= sign < 16 -> 0 <= cap < 4 ->
    VDO_DPM ufpd dfpd nusb20 rec sign cap
      = VDO_MODE_DP ufpd dfpd nusb20 rec sign cap /\
    PD_DPM_UFP_D_PIN (VDO_DPM ufpd dfpd nusb20 rec sign cap) = ufpd /\
    PD_DPM_DFP_D_PIN (VDO_DPM ufpd dfpd nusb20 rec sign cap) = dfpd /\
    PD_DPM_SIGN (VDO_DPM ufpd dfpd nusb20 rec sign cap) = sign /\
    PD_DPM_CAP (VDO_DPM ufpd dfpd nusb20 rec sign cap) = cap.
Proof.
  intros ufpd dfpd nusb20 rec sign cap Ha Hb Hc He Hf Hg.
  assert (E : VDO_DPM ufpd dfpd nusb20 rec sign cap
              = VDO_MODE_DP ufpd dfpd nusb20 rec sign cap).
  { rewrite mode_dp_as_sum. unfold VDO_DPM.
    rewrite (mode_dp_sum ufpd dfpd nusb20 rec sign cap) by assumption.
    rewrite !Z.mod_small by lia. reflexivity. }
  split; [exact E |]. rewrite E.
  destruct (mode_dp_decoders ufpd dfpd nusb20 rec sign cap)
    as (H1 & H2 & _ & _ & H5 & H6 & _).
  unfold PD_DPM_UFP_D_PIN, PD_DPM_DFP_D_PIN, PD_DPM_SIGN, PD_DPM_CAP.
  unfold PD_DP_UFP_D_PIN, PD_DP_DFP_D_PIN, PD_DP_SIGNAL, PD_DP_PORT_CAP
    in H1, H2, H5, H6.
  rewrite H1, H2, H5, H6. masks_to_mod.
  rewrite !Z.mod_small by lia. repeat split_and; reflexivity.
Qed.

Lemma dpm_agrees_with_mode_dp_witness :
  0 <= 0 < 256 /\ 0 <= 4 < 256 /\ 0 <= 0 < 2 /\ 0 <= 0 < 2 /\
  0 <= 1 < 16 /\ 0 <= 1 < 4 /\
  VDO_DPM 0 4 0 0 1 1 = VDO_MODE_DP 0 4 0 0 1 1 /\
  PD_DPM_UFP_D_PIN (VDO_DPM 0 4 0 0 1 1) = 0 /\
  PD_DPM_DFP_D_PIN (VDO_DPM 0 4 0 0 1 1) = 4 /\
  PD_DPM_SIGN (VDO_DPM 0 4 0 0 1 1) = 1 /\
  PD_DPM_CAP (VDO_DPM 0 4 0 0 1 1) = 1.
Proof.
  assert (H1 : 0 <= 0 < 256) by lia. assert (H2 : 0 <= 4 < 256) by lia.
  assert (H3 : 0 <= 0 < 2) by lia. assert (H5 : 0 <= 1 < 16) by lia.
  assert (H6 : 0 <= 1 < 4) by lia.
  exact (conj H1 (conj H2 (conj H3 (conj H3 (conj H5 (conj H6
          (dpm_agrees_with_mode_dp 0 4 0 0 1 1 H1 H2 H3 H3 H5 H6))))))).
Defined.

(** ** The message logger *)

Lemma log_request_pdo_cases :
  forall d rdo,
    tcpmtest_log_request_pdo d rdo =
    if rdo_index rdo =? 0 then None else Some d.
Proof.
  intros d rdo. unfold tcpmtest_log_request_pdo, Arr.get. cbv zeta.
  rewrite request_pdo_index_in_bounds.
  destruct (rdo_index rdo =? 0); reflexivity.
Qed.

(** The loop over the objects of a Request: it goes through when every
    object names a position, and leaves the state as it was. *)
Lemma log_dobjs_request_ok :
  forall hdr m n ix d,
    data_of (pd_header_type hdr) = Some PD_DATA_REQUEST ->
    (forall i, ix <= i < ix + Z.of_nat n -> rdo_index (payload m i) <> 0) ->
    tcpmtest_log_dobjs n ix hdr m d = Some d.
Proof.
  intros hdr m n. induction n as [| n IH]; intros ix d Hty Hall.
  - reflexivity.
  - cbn [tcpmtest_log_dobjs]. cbv zeta. rewrite Hty, log_request_pdo_cases.
    assert (H0 : rdo_index (payload m ix) <> 0) by (apply Hall; lia).
    apply Z.eqb_neq in H0. rewrite H0.
    apply IH; [exact Hty |]. intros i Hi. apply Hall. lia.
Qed.

(** It faults when one of them has position 0. *)
Lemma log_dobjs_request_fault :
  forall hdr m n ix d i,
    data_of (pd_header_type hdr) = Some PD_DATA_REQUEST ->
    ix <= i < ix + Z.of_nat n ->
    rdo_index (payload m i) = 0 ->
    tcpmtest_log_dobjs n ix hdr m d = None.
Proof.
  intros hdr m n. induction n as [| n IH]; intros ix d i Hty Hi H0.
  - lia.
  - cbn [tcpmtest_log_dobjs]. cbv zeta. rewrite Hty, log_request_pdo_cases.
    destruct (Z.eqb_spec (rdo_index (payload m ix)) 0) as [E | E];
      [reflexivity |].
    apply (IH (ix + 1) d i Hty); [ | exact H0].
    assert (i <> ix) by (intros ->; contradiction). lia.
Qed.

(** Whether some object among [n] from [ix] on has position 0 can be
    told. *)
Lemma rdo_positions_dec :
  forall m n ix,
    (forall i, ix <= i < ix + Z.of_nat n -> rdo_index (payload m i) <> 0) \/
    (exists i, ix <= i < ix + Z.of_nat n /\ rdo_index (payload m i) = 0).
Proof.
  intros m n. induction n as [| n IH]; intro ix.
  - left. intros i Hi. lia.
  - destruct (Z.eq_dec (rdo_index (payload m ix)) 0) as [E | E].
    + right. exists ix. split; [lia | exact E].
    + destruct (IH (ix + 1)) as [Hall | (i & Hi & H0)].
      * left. intros i Hi.
        destruct (Z.eq_dec i ix) as [-> | Hne]; [exact E |].
        apply Hall. lia.
      * right. exists i. split; [lia | exact H0].
Qed.

Lemma log_msg_loggable :
  forall d type m,
    loggable m ->
    exists a,
      tcpmtest_log_msg d type (Some m) = Some (set_src_cap_pdo_type a d).
Proof.
  intros d type m Hl.
  destruct (data_of (pd_header_type (header m))) as [[]|] eqn:Hty;
    try (apply log_msg_not_request; rewrite Hty; discriminate).
  exists (src_cap_pdo_type d). rewrite set_cache_same.
  unfold tcpmtest_log_msg. cbv zeta.
  destruct (tx_type_val type >? tx_type_val TCPC_TX_SOP_PRIME_PRIME);
    [reflexivity |].
  destruct (negb (pd_header_rev (header m) =? PD_REV20)); [reflexivity |].
  apply log_dobjs_request_ok; [exact Hty |].
  pose proof (pd_header_cnt_range (header m)) as R.
  intros i Hi. apply (Hl Hty). rewrite Z2Nat.id in Hi by lia. lia.
Qed.

Lemma pd_transmit_log :
  forall d type msg,
    tcpmtest_pd_transmit d type msg = None <->
    tcpmtest_log_msg d type msg = None.
Proof.
  intros d type msg. unfold tcpmtest_pd_transmit.
  destruct (tcpmtest_log_msg d type msg) as [d1 |]; [ | tauto].
  split; [ | discriminate]. destruct msg; discriminate.
Qed.

(** X6: the transmit operation faults in exactly two cases: it is handed
    no message, or it is handed, on SOP, SOP' or SOP'', a revision-2.0
    message typed as a Request in which one of the objects the header
    counts carries object position 0.  Every other call returns. *)
Theorem pd_transmit_faults_iff :
  forall d type msg,
    tcpmtest_pd_transmit d type msg = None <->
    msg = None \/
    exists m i,
      msg = Some m /\
      tx_type_val type <= tx_type_val TCPC_TX_SOP_PRIME_PRIME /\
      pd_header_rev (header m) = PD_REV20 /\
      data_of (pd_header_type (header m)) = Some PD_DATA_REQUEST /\
      0 <= i < pd_header_cnt (header m) /\
      rdo_index (payload m i) = 0.
Proof.
  intros d type msg. rewrite pd_transmit_log.
  destruct msg as [m |]; [ | split; [left | ]; reflexivity].
  pose proof (pd_header_cnt_range (header m)) as R.
  split.
  - intro H. right.
    unfold tcpmtest_log_msg in H. cbv zeta in H.
    destruct (tx_type_val type >? tx_type_val TCPC_TX_SOP_PRIME_PRIME)
      eqn:Etx; [discriminate H |].
    destruct (pd_header_rev (header m) =? PD_REV20) eqn:Erev;
      [ | discriminate H].
    cbv [negb] in H.
    destruct (data_of (pd_header_type (header m))) as [t |] eqn:Hty.
    2:{ destruct (log_dobjs_not_request (header m) m
                    (Z.to_nat (pd_header_cnt (header m))) 0 d) as [a Ha].
        - rewrite Hty. discriminate.
        - lia.
        - rewrite Z2Nat.id by lia. unfold PDO_MAX_OBJECTS. lia.
        - rewrite Ha in H. discriminate H. }
    destruct t;
      try (destruct (log_dobjs_not_request (header m) m
                       (Z.to_nat (pd_header_cnt (header m))) 0 d)
             as [a Ha];
           [ rewrite Hty; discriminate | lia
           | rewrite Z2Nat.id by lia; unfold PDO_MAX_OBJECTS; lia
           | rewrite Ha in H; discriminate H ]).
    destruct (rdo_positions_dec m (Z.to_nat (pd_header_cnt (header m))) 0)
      as [Hall | (i & Hi & H0)].
    + rewrite (log_dobjs_request_ok _ _ _ _ _ Hty Hall) in H.
      discriminate H.
    + exists m, i. rewrite Z2Nat.id in Hi by lia.
      repeat split_and; try reflexivity; try assumption; lia.
  - intros [H | (m' & i & E & Htx & Hrev & Hty & Hi & H0)];
      [discriminate H |].
    injection E as <-. unfold tcpmtest_log_msg. cbv zeta.
    replace (tx_type_val type >? tx_type_val TCPC_TX_SOP_PRIME_PRIME)
      with false by (symmetry; rewrite Z.gtb_ltb; apply Z.ltb_ge; exact Htx).
    rewrite Hrev. change (negb (PD_REV20 =? PD_REV20)) with false. cbv iota.
    apply (log_dobjs_request_fault _ _ _ _ _ i Hty); [ | exact H0].
    rewrite Z2Nat.id by lia. lia.
Qed.

(** The loop over the objects of a capability message writes the type
    of each object at its position and nothing else. *)
Lemma log_dobjs_capability :
  forall hdr m n ix d,
    (data_of (pd_header_type hdr) = Some PD_DATA_SOURCE_CAP \/
     data_of (pd_header_type hdr) = Some PD_DATA_SINK_CAP) ->
    0 <= ix -> ix + Z.of_nat n <= PDO_MAX_OBJECTS ->
    exists a,
      tcpmtest_log_dobjs n ix hdr m d = Some (set_src_cap_pdo_type a d) /\
      forall i,
        a i = if (ix <=? i) && (i <? ix + Z.of_nat n)
              then pdo_type (payload m i)
              else src_cap_pdo_type d i.
Proof.
  intros hdr m n. induction n as [| n IH]; intros ix d Hty Hlo Hhi.
  - exists (src_cap_pdo_type d). cbn [tcpmtest_log_dobjs].
    rewrite set_cache_same. split; [reflexivity |]. intro i.
    replace ((ix <=? i) && (i <? ix + Z.of_nat 0)) with false; [reflexivity |].
    symmetry. apply andb_false_iff.
    destruct (Z.leb_spec ix i); [right; apply Z.ltb_ge; lia | left; reflexivity].
  - assert (Hin : Arr.in_bounds PDO_MAX_OBJECTS ix = true).
    { unfold Arr.in_bounds. apply andb_true_intro.
      split; [apply Z.leb_le | apply Z.ltb_lt]; lia. }
    cbn [tcpmtest_log_dobjs]. cbv zeta.
    assert (Hstep :
              exists a,
                tcpmtest_log_dobjs n (ix + 1) hdr m
                  (set_src_cap_pdo_type
                     (Arr.upd (src_cap_pdo_type d) ix
                              (pdo_type (payload m ix))) d)
                = Some (set_src_cap_pdo_type a d) /\
                forall i,
                  a i = if (ix <=? i) && (i <? ix + Z.of_nat (S n))
                        then pdo_type (payload m i)
                        else src_cap_pdo_type d i).
    { destruct (IH (ix + 1)
                  (set_src_cap_pdo_type
                     (Arr.upd (src_cap_pdo_type d) ix
                              (pdo_type (payload m ix))) d)
                  Hty ltac:(lia) ltac:(lia)) as (a & Ha & Hget).
      exists a. split; [exact Ha |]. intro i. rewrite Hget.
      proj_simpl. unfold Arr.upd.
      destruct (Z.leb_spec (ix + 1) i), (Z.ltb_spec i (ix + 1 + Z.of_nat n)),
               (Z.leb_spec ix i), (Z.ltb_spec i (ix + Z.of_nat (S n))),
               (Z.eqb_spec i ix);
        cbn [andb]; subst; try reflexivity; lia. }
    unfold tcpmtest_log_capability_pdo, Arr.set. cbv zeta. rewrite Hin.
    destruct Hty as [-> | ->]; exact Hstep.
Qed.

(** X7: logging a SourceCapabilities or a SinkCapabilities message (on
    SOP, SOP' or SOP'', revision 2.0) never faults; it records the type
    of the PDO at each position below the object count of the header,
    and leaves the other cells of the cache and the rest of the state as
    they were.  A SinkCapabilities message overwrites the cache of
    source PDO types like a SourceCapabilities message does. *)
Theorem log_msg_records_pdo_types :
  forall d type m,
    tx_type_val type <= tx_type_val TCPC_TX_SOP_PRIME_PRIME ->
    pd_header_rev (header m) = PD_REV20 ->
    data_of (pd_header_type (header m)) = Some PD_DATA_SOURCE_CAP \/
    data_of (pd_header_type (header m)) = Some PD_DATA_SINK_CAP ->
    exists a,
      tcpmtest_log_msg d type (Some m) = Some (set_src_cap_pdo_type a d) /\
      forall i,
        a i = if (0 <=? i) && (i <? pd_header_cnt (header m))
              then pdo_type (payload m i)
              else src_cap_pdo_type d i.
Proof.
  intros d type m Htx Hrev Hty.
  pose proof (pd_header_cnt_range (header m)) as R.
  unfold tcpmtest_log_msg. cbv zeta.
  replace (tx_type_val type >? tx_type_val TCPC_TX_SOP_PRIME_PRIME)
    with false by (symmetry; rewrite Z.gtb_ltb; apply Z.ltb_ge; exact Htx).
  rewrite Hrev. change (negb (PD_REV20 =? PD_REV20)) with false. cbv iota.
  destruct (log_dobjs_capability (header m) m
              (Z.to_nat (pd_header_cnt (header m))) 0 d Hty ltac:(lia))
    as (a & Ha & Hget).
  { rewrite Z2Nat.id by lia. unfold PDO_MAX_OBJECTS. lia. }
  exists a. split; [exact Ha |]. intro i. rewrite Hget.
  rewrite Z2Nat.id by lia. reflexivity.
Qed.

Lemma log_msg_records_pdo_types_witness :
  exists a,
    tcpmtest_log_msg tcpmtest_probe_data TCPC_TX_SOP (Some sink_cap_msg)
    = Some (set_src_cap_pdo_type a tcpmtest_probe_data) /\
    forall i,
      a i = if (0 <=? i) && (i <? pd_header_cnt (header sink_cap_msg))
            then pdo_type (payload sink_cap_msg i)
            else src_cap_pdo_type tcpmtest_probe_data i.
Proof.
  apply (log_msg_records_pdo_types tcpmtest_probe_data TCPC_TX_SOP
           sink_cap_msg).
  - vm_compute. discriminate.
  - vm_compute. reflexivity.
  - right. vm_compute. reflexivity.
Defined.

(** ** Invariants of the runs *)

Lemma reachable_ind_inv :
  forall P : tcpmtest_data -> Prop,
    P tcpmtest_probe_data ->
    (forall d d', P d -> step d d' -> P d') ->
    forall d, reachable d -> P d.
Proof.
  intros P H0 Hstep d H. induction H as [| d d' _ IH Hs].
  - exact H0.
  - exact (Hstep d d' IH Hs).
Qed.

Lemma received_same_calls_app :
  forall d d' c,
    calls d' = calls d ++ [c] ->
    (forall m, c <> tcpm_pd_receive m) ->
    received d' = received d.
Proof.
  intros d d' c Hc Hn. unfold received. rewrite Hc, flat_map_app.
  cbn [flat_map]. destruct c; try (now rewrite !app_nil_r).
  exfalso. exact (Hn msg eq_refl).
Qed.

(** A step is a call of the facade, which changes nothing of the
    session, or a pass of the event work, or a run of the timeout
    work. *)
Lemma step_cases :
  forall d d',
    step d d' ->
    facade_frame d d' \/ d' = tcpmtest_event_work d \/
    tcpmtest_tmo_work d = Some d'.
Proof.
  intros d d' H. unfold facade_frame.
  assert (Hsame : sysfs_mode d = sysfs_mode d /\ state d = state d /\
                  cc1_status d = cc1_status d /\
                  cc2_status d = cc2_status d /\ rx_msg d = rx_msg d /\
                  rx_id d = rx_id d /\
                  msg_rx (request d) = msg_rx (request d) /\
                  received d = received d)
    by (repeat split_and; reflexivity).
  assert (Hq : forall d1,
             sysfs_mode d1 = sysfs_mode d -> state d1 = state d ->
             cc1_status d1 = cc1_status d -> cc2_status d1 = cc2_status d ->
             rx_msg d1 = rx_msg d -> rx_id d1 = rx_id d ->
             msg_rx (request d1) = msg_rx (request d) ->
             calls d1 = calls d ->
             let d2 := log_call queue_work_event d1 in
             sysfs_mode d2 = sysfs_mode d /\ state d2 = state d /\
             cc1_status d2 = cc1_status d /\
             cc2_status d2 = cc2_status d /\ rx_msg d2 = rx_msg d /\
             rx_id d2 = rx_id d /\
             msg_rx (request d2) = msg_rx (request d) /\
             received d2 = received d).
  { intros d1 H1 H2 H3 H4 H5 H6 H7 H8 d2. subst d2.
    repeat (split_and; [assumption |]).
    apply (received_same_calls_app d _ queue_work_event).
    - proj_simpl. now rewrite H8.
    - discriminate. }
  destruct H as [d buf count | d cc | d cc | d pol | d enable | d attached pr dr
                 | d enable | d source sink | d type msg d' H | d | d
                 | d d' H].
  - left. unfold tcpmtest_sysfs_store. destruct buf; [ | exact Hsame].
    repeat match goal with
           | |- context [if ?c then _ else _] => destruct c
           end; cbn [fst]; try exact Hsame; apply Hq; reflexivity.
  - left. repeat split_and; reflexivity.
  - left. repeat split_and; reflexivity.
  - left. repeat split_and; reflexivity.
  - left. repeat split_and; reflexivity.
  - left. repeat split_and; reflexivity.
  - left. unfold tcpmtest_set_pd_rx.
    destruct (negb _); try exact Hsame; apply Hq; reflexivity.
  - left. unfold tcpmtest_set_vbus. cbv zeta.
    destruct (negb _); try exact Hsame; apply Hq; reflexivity.
  - left. unfold tcpmtest_pd_transmit in H.
    destruct (tcpmtest_log_msg d type msg) as [d1 |] eqn:E;
      [ | discriminate H].
    apply log_msg_frame in E. destruct E as [a ->].
    injection H as <-. destruct msg; apply Hq; reflexivity.
  - left. repeat split_and; reflexivity.
  - right. left. reflexivity.
  - right. right. exact H.
Qed.

Lemma run_inv_fields :
  forall d d',
    sysfs_mode d' = sysfs_mode d -> state d' = state d ->
    cc1_status d' = cc1_status d -> cc2_status d' = cc2_status d ->
    loggable (rx_msg d') ->
    run_inv d -> run_inv d'.
Proof.
  intros d d' Hm Hs H1 H2 Hl (Hc & Hcc & _).
  unfold run_inv, session_coherent, cc_coherent, tcpmtest_get_cc in *.
  rewrite Hm, Hs, H1, H2. auto.
Qed.

Lemma run_inv_facade :
  forall d d', facade_frame d d' -> run_inv d -> run_inv d'.
Proof.
  intros d d' (Hm & Hs & H1 & H2 & Hr & _) Hinv.
  apply (run_inv_fields d d' Hm Hs H1 H2); [ | exact Hinv].
  rewrite Hr. apply Hinv.
Qed.

(** *** The messages the synthesizers stage *)

Lemma stage_header_type_cnt :
  forall type pwr dr cnt d,
    0 <= type <= 15 -> 0 <= cnt <= 7 ->
    pd_header_type (header (rx_msg (stage_header type pwr dr cnt d))) = type /\
    pd_header_cnt (header (rx_msg (stage_header type pwr dr cnt d))) = cnt.
Proof.
  intros type pwr dr cnt d Ht Hc. unfold stage_header. proj_simpl.
  destruct (PD_HEADER_fields type pwr dr (rx_id d) cnt Ht Hc)
    as (H1 & H2 & _).
  split; assumption.
Qed.

Lemma loggable_data :
  forall t m,
    pd_header_type (header m) = data_val t -> t <> PD_DATA_REQUEST ->
    loggable m.
Proof.
  intros t m Hty Hne H. rewrite Hty, data_of_val in H.
  injection H as H. contradiction.
Qed.

Lemma loggable_ctrl :
  forall m, pd_header_cnt (header m) = 0 -> loggable m.
Proof. intros m Hcnt _ i Hi. lia. Qed.

Ltac synth_loggable t :=
  cbv zeta; rewrite rx_msg_set_msg_rx;
  apply (loggable_data t); [ | discriminate];
  rewrite ?rx_payload_header;
  apply stage_header_type_cnt; [apply data_val_range | lia].

Lemma mk_snk_request_loggable :
  forall d, loggable (rx_msg (tcpmtest_mk_snk_request d)).
Proof.
  intros d _ i Hi.
  destruct (snk_request_fields d) as (_ & Hcnt & Hidx & _).
  rewrite Hcnt in Hi. assert (i = 0) by lia. subst i.
  rewrite Hidx. discriminate.
Qed.

Lemma mk_snk_sink_cap_loggable :
  forall d, loggable (rx_msg (tcpmtest_mk_snk_sink_cap d)).
Proof.
  intro d. unfold tcpmtest_mk_snk_sink_cap. synth_loggable PD_DATA_SINK_CAP.
Qed.

Lemma mk_snk_disc_ident_loggable :
  forall d, loggable (rx_msg (tcpmtest_mk_snk_disc_ident_resp_vdm d)).
Proof.
  intro d. unfold tcpmtest_mk_snk_disc_ident_resp_vdm.
  synth_loggable PD_DATA_VENDOR_DEF.
Qed.

Lemma mk_snk_disc_svid_loggable :
  forall d, loggable (rx_msg (tcpmtest_mk_snk_disc_svid_resp_vdm d)).
Proof.
  intro d. unfold tcpmtest_mk_snk_disc_svid_resp_vdm.
  synth_loggable PD_DATA_VENDOR_DEF.
Qed.

Lemma mk_snk_disc_modes_loggable :
  forall vdo d svid,
    loggable (rx_msg d) ->
    loggable (rx_msg (mk_snk_disc_modes_resp_vdm_with vdo d svid)).
Proof.
  intros vdo d svid Hl. unfold mk_snk_disc_modes_resp_vdm_with.
  destruct (negb _); [exact Hl |]. synth_loggable PD_DATA_VENDOR_DEF.
Qed.

Lemma mk_src_data_source_cap_loggable :
  forall d, loggable (rx_msg (tcpmtest_mk_src_data_source_cap d)).
Proof.
  intro d. unfold tcpmtest_mk_src_data_source_cap.
  synth_loggable PD_DATA_SOURCE_CAP.
Qed.

Lemma mk_src_accept_loggable :
  forall d, loggable (rx_msg (tcpmtest_mk_src_accept d)).
Proof.
  intro d. unfold tcpmtest_mk_src_accept. rewrite rx_msg_set_msg_rx.
  apply loggable_ctrl.
  apply stage_header_type_cnt; [apply ctrl_val_range | lia].
Qed.

Lemma mk_src_ps_rdy_loggable :
  forall d, loggable (rx_msg (tcpmtest_mk_src_ps_rdy d)).
Proof.
  intro d. unfold tcpmtest_mk_src_ps_rdy. rewrite rx_msg_set_msg_rx.
  apply loggable_ctrl.
  apply stage_header_type_cnt; [apply ctrl_val_range | lia].
Qed.

Lemma process_vdm_snk_loggable :
  forall vdo d cnt,
    loggable (rx_msg d) ->
    loggable (rx_msg (process_tx_vdm_for_snk_with
                        (mk_snk_disc_modes_resp_vdm_with vdo) d cnt)).
Proof.
  intros vdo d cnt Hl. unfold process_tx_vdm_for_snk_with. cbv zeta.
  repeat match goal with
         | |- loggable (rx_msg (if ?c then _ else _)) => destruct c
         end;
    try exact Hl;
    auto using mk_snk_disc_ident_loggable, mk_snk_disc_svid_loggable,
               mk_snk_disc_modes_loggable.
Qed.

Lemma hard_reset_rx_msg :
  forall d b, rx_msg (tcpmtest_hard_reset d b) = rx_msg d.
Proof. intros d b. destruct b; reflexivity. Qed.

(** The classifiers stage nothing the logger cannot read. *)
Lemma process_snk_loggable :
  forall d,
    loggable (rx_msg d) ->
    loggable (rx_msg (tcpmtest_process_tx_msg_for_snk d)).
Proof.
  intros d Hl.
  unfold tcpmtest_process_tx_msg_for_snk, process_tx_msg_for_snk_with.
  cbv zeta.
  destruct (tx_type_eqb (tx_type d) TCPC_TX_HARD_RESET).
  { now rewrite hard_reset_rx_msg. }
  destruct (negb (tx_type_eqb (tx_type d) TCPC_TX_SOP)); [exact Hl |].
  destruct (pd_header_cnt (header (tx_msg d)) =? 0).
  - destruct (ctrl_of (pd_header_type (header (tx_msg d)))) as [[]|];
      rewrite ?hard_reset_rx_msg; try exact Hl.
    apply mk_snk_sink_cap_loggable.
  - destruct (data_of (pd_header_type (header (tx_msg d)))) as [[]|];
      rewrite ?hard_reset_rx_msg; try exact Hl.
    + apply mk_snk_request_loggable.
    + apply process_vdm_snk_loggable, Hl.
Qed.

Lemma process_src_loggable :
  forall d,
    loggable (rx_msg d) ->
    loggable (rx_msg (tcpmtest_process_tx_msg_for_src d)).
Proof.
  intros d Hl. unfold tcpmtest_process_tx_msg_for_src. cbv zeta.
  destruct (tx_type_eqb (tx_type d) TCPC_TX_HARD_RESET).
  { now rewrite hard_reset_rx_msg. }
  destruct (negb (tx_type_eqb (tx_type d) TCPC_TX_SOP)); [exact Hl |].
  destruct (pd_header_cnt (header (tx_msg d)) =? 0).
  - destruct (ctrl_of (pd_header_type (header (tx_msg d)))) as [[]|];
      rewrite ?hard_reset_rx_msg; try exact Hl.
    apply mk_src_data_source_cap_loggable.
  - destruct (data_of (pd_header_type (header (tx_msg d)))) as [[]|];
      rewrite ?hard_reset_rx_msg; try exact Hl.
    destruct (simstate_eqb _ _); exact Hl.
Qed.

(** What a reaction leaves of the lines. *)
Lemma reaction_cc :
  forall d d',
    reaction d d' ->
    cc1_status d' = cc1_status d /\ cc2_status d' = cc2_status d.
Proof.
  intros d d' H. destruct H; unfold tcpmtest_hard_reset; proj_simpl;
    split; reflexivity.
Qed.

Lemma reaction_inv :
  forall d d',
    reaction d d' -> loggable (rx_msg d') -> run_inv d -> run_inv d'.
Proof.
  intros d d' Hre Hl Hinv.
  destruct (reaction_frame d d' Hre) as (Hm & _ & Hs & _).
  destruct (reaction_cc d d' Hre) as (H1 & H2).
  destruct Hs as [Hs | [Hw Hs]].
  - exact (run_inv_fields d d' Hm Hs H1 H2 Hl Hinv).
  - destruct Hinv as (Hc & Hcc & _).
    unfold run_inv, session_coherent, cc_coherent, tcpmtest_get_cc in *.
    rewrite Hm, Hs, H1, H2. rewrite Hw in Hc, Hcc.
    repeat split_and.
    + destruct (sysfs_mode d); try discriminate Hc; reflexivity.
    + exact Hcc.
    + exact Hl.
Qed.

(** *** The blocks of the event work *)

Lemma event_mode_set_inv :
  forall d, run_inv d -> run_inv (event_mode_set d).
Proof.
  intros d Hinv. destruct (mode_set (request d)) eqn:Hms;
    [ | now rewrite (event_mode_set_idle d Hms)].
  rewrite (event_mode_set_result d Hms).
  destruct Hinv as (Hc & Hcc & Hl).
  unfold run_inv, session_coherent, cc_coherent, tcpmtest_get_cc,
         mode_change_result in *.
  proj_simpl.
  repeat split_and; [ | | exact Hl];
    destruct (sysfs_mode_req d), (sysfs_mode d) eqn:Em; cbn [fst snd];
    try exact Hc; try exact Hcc; try reflexivity;
    try (intros cc H; discriminate H).
Qed.

Lemma event_vbus_chng_inv :
  forall d, run_inv d -> run_inv (event_vbus_chng d).
Proof.
  intros d Hinv. destruct (event_vbus_chng_cases d) as [E | E]; rewrite E;
    [exact Hinv |].
  apply (run_inv_fields d); try reflexivity; [ | exact Hinv]. apply Hinv.
Qed.

Lemma event_msg_tx_inv :
  forall d, run_inv d -> run_inv (event_msg_tx d).
Proof.
  intros d Hinv. unfold event_msg_tx.
  destruct (msg_tx (request d)); [ | exact Hinv]. cbv zeta.
  assert (H0 : run_inv (set_msg_tx false d)).
  { apply (run_inv_fields d); try reflexivity; [ | exact Hinv].
    apply Hinv. }
  assert (Hlog : forall c d', run_inv d' -> run_inv (log_call c d')).
  { intros c d' H. apply (run_inv_fields d'); try reflexivity;
      [ | exact H]. apply H. }
  destruct (testmode_eqb (sysfs_mode (set_msg_tx false d)) TESTMODE_SNK).
  { apply Hlog.
    apply (reaction_inv (set_msg_tx false d)); [ | | exact H0].
    - apply (process_snk_reaction
               (VDO_MODE_DP 0 MODE_DP_PIN_C 0 1 MODE_DP_V13 MODE_DP_SNK)).
    - apply process_snk_loggable, H0. }
  destruct (testmode_eqb (sysfs_mode (set_msg_tx false d)) TESTMODE_SRC).
  { apply Hlog.
    apply (reaction_inv (set_msg_tx false d)); [ | | exact H0].
    - apply process_src_reaction.
    - apply process_src_loggable, H0. }
  apply Hlog, H0.
Qed.

(** *** The state machine *)

Lemma state_machine_inv :
  forall d timeout, run_inv d -> run_inv (tcpmtest_state_machine d timeout).
Proof.
  intros d timeout (Hc & Hcc & Hl).
  unfold run_inv, session_coherent, cc_coherent, tcpmtest_get_cc in *.
  destruct (state d) eqn:Hs;
    unfold tcpmtest_state_machine, state_machine_switch; cbv zeta;
    rewrite Hs;
    repeat match goal with
           | |- context [if ?c then _ else _] => destruct c
           end;
    (split_and;
     [ unfold_mk; proj_simpl;
       first [ reflexivity
             | destruct (sysfs_mode d); try discriminate Hc; reflexivity ]
     | split_and;
       [ unfold_mk; proj_simpl; intros cc H;
         lazymatch goal with
         | |- (cc1_status d, cc2_status d) = _ => exact (Hcc cc H)
         | _ => first [injection H as <-; reflexivity | discriminate H]
         end
       | proj_simpl;
         lazymatch goal with
         | |- loggable (rx_msg d) => exact Hl
         | |- loggable (rx_msg (tcpmtest_mk_src_data_source_cap _)) =>
           apply mk_src_data_source_cap_loggable
         | |- loggable (rx_msg (tcpmtest_mk_src_accept _)) =>
           apply mk_src_accept_loggable
         | |- loggable (rx_msg (tcpmtest_mk_src_ps_rdy _)) =>
           apply mk_src_ps_rdy_loggable
         | |- loggable (rx_msg (tcpmtest_hard_reset _ _)) =>
           rewrite hard_reset_rx_msg; exact Hl
         end ] ]).
Qed.

Lemma event_work_inv :
  forall d, run_inv d -> run_inv (tcpmtest_event_work d).
Proof.
  intros d Hinv. unfold tcpmtest_event_work. cbv zeta.
  pose proof (state_machine_inv _ false
                (event_msg_tx_inv _
                   (event_vbus_chng_inv _ (event_mode_set_inv _ Hinv))))
    as H4.
  destruct (msg_rx (request _)); [ | exact H4].
  apply (run_inv_fields _ _ eq_refl eq_refl eq_refl eq_refl);
    [ | exact H4]. apply H4.
Qed.

Lemma tmo_work_inv :
  forall d d',
    tcpmtest_tmo_work d = Some d' -> run_inv d -> run_inv d'.
Proof.
  intros d d' H Hinv. unfold tcpmtest_tmo_work in H. cbv zeta in H.
  assert (Hd : forall d3,
            run_inv d3 ->
            Some (tcpmtest_state_machine (set_delay 0 d3) true) = Some d' ->
            run_inv d').
  { intros d3 H3 E. injection E as <-. apply state_machine_inv.
    apply (run_inv_fields d3); try reflexivity; [ | exact H3]. apply H3. }
  destruct (msg_rx (request d)); [ | exact (Hd d Hinv H)].
  destruct (tcpmtest_log_msg (set_msg_rx false d) TCPC_TX_SOP
              (Some (rx_msg (set_msg_rx false d)))) as [d2 |] eqn:E;
    [ | discriminate H].
  apply log_msg_frame in E. destruct E as [a ->].
  refine (Hd _ _ H).
  apply (run_inv_fields d); try reflexivity; [ | exact Hinv]. apply Hinv.
Qed.

Lemma step_inv :
  forall d d', run_inv d -> step d d' -> run_inv d'.
Proof.
  intros d d' Hinv Hstep.
  destruct (step_cases d d' Hstep) as [Hf | [-> | Ht]].
  - exact (run_inv_facade d d' Hf Hinv).
  - exact (event_work_inv d Hinv).
  - exact (tmo_work_inv d d' Ht Hinv).
Qed.

Lemma reachable_inv : forall d, reachable d -> run_inv d.
Proof.
  apply reachable_ind_inv; [ | exact step_inv].
  unfold run_inv. repeat split_and.
  - reflexivity.
  - intros cc H. injection H as <-. reflexivity.
  - intros H. discriminate H.
Qed.

Lemma snk_attached_reachable : reachable snk_attached.
Proof.
  unfold snk_attached.
  eapply reachable_step; [ | apply step_event_work].
  eapply reachable_step; [apply reachable_probe | ].
  apply (step_sysfs_store tcpmtest_probe_data (Some "snk"%string) 3).
Qed.

(** X8: in every state a run reaches from the probed device, mode and
    state go together: with no active mode the state machine is in
    [SSTATE_NONE]; with sink mode active it is in a sink state or on its
    way back to idle; with source mode active it is in a source state or
    on its way back to idle.  The active mode is never
    [TESTMODE_RESET], so what the mode attribute shows is one of the
    three lines none, snk and src, the word of the active mode followed
    by a newline, and never the line reset. *)
Theorem reachable_mode_and_state :
  forall d,
    reachable d ->
    state_of_mode (sysfs_mode d) (state d) = true /\
    sysfs_mode d <> TESTMODE_RESET /\
    (tcpmtest_sysfs_show d = (("none" ++ nl)%string, 5) /\
     sysfs_mode d = TESTMODE_NONE \/
     tcpmtest_sysfs_show d = (("snk" ++ nl)%string, 4) /\
     sysfs_mode d = TESTMODE_SNK \/
     tcpmtest_sysfs_show d = (("src" ++ nl)%string, 4) /\
     sysfs_mode d = TESTMODE_SRC) /\
    fst (tcpmtest_sysfs_show d) <> ("reset" ++ nl)%string.
Proof.
  intros d H. destruct (reachable_inv d H) as (Hc & _).
  unfold session_coherent in Hc. split; [exact Hc |].
  unfold tcpmtest_sysfs_show. cbv zeta.
  destruct (sysfs_mode d); try discriminate Hc;
    (split_and; [discriminate |]);
    (split_and; [ | cbn; discriminate]).
  - left. split; reflexivity.
  - right; left. split; reflexivity.
  - right; right. split; reflexivity.
Qed.

Lemma reachable_mode_and_state_witness :
  reachable snk_attached /\
  state_of_mode (sysfs_mode snk_attached) (state snk_attached) = true /\
  sysfs_mode snk_attached <> TESTMODE_RESET /\
  (tcpmtest_sysfs_show snk_attached = (("none" ++ nl)%string, 5) /\
   sysfs_mode snk_attached = TESTMODE_NONE \/
   tcpmtest_sysfs_show snk_attached = (("snk" ++ nl)%string, 4) /\
   sysfs_mode snk_attached = TESTMODE_SNK \/
   tcpmtest_sysfs_show snk_attached = (("src" ++ nl)%string, 4) /\
   sysfs_mode snk_attached = TESTMODE_SRC) /\
  fst (tcpmtest_sysfs_show snk_attached) <> ("reset" ++ nl)%string.
Proof.
  exact (conj snk_attached_reachable
              (reachable_mode_and_state snk_attached snk_attached_reachable)).
Defined.

(** X9: in every state a run reaches, the CC lines the Port Manager reads
    follow the state: both open when idle; Rd on CC1 and Ra on CC2 for a
    running sink; open on CC1 and Rp-3.0 on CC2 for a source from the
    VBUS wait on. *)
Theorem reachable_cc_by_state :
  forall d,
    reachable d ->
    (state d = SSTATE_NONE ->
     tcpmtest_get_cc d = (TYPEC_CC_OPEN, TYPEC_CC_OPEN)) /\
    (state d = SSTATE_SNK_RUN ->
     tcpmtest_get_cc d = (TYPEC_CC_RD, TYPEC_CC_RA)) /\
    (state d = SSTATE_SRC_VBUS \/ state d = SSTATE_SRC_RX_SOURCE_CAP \/
     state d = SSTATE_SRC_WAIT_FOR_REQUEST \/
     state d = SSTATE_SRC_SEND_REQUEST \/
     state d = SSTATE_SRC_SEND_PS_RDY \/ state d = SSTATE_SRC_RUN ->
     tcpmtest_get_cc d = (TYPEC_CC_OPEN, TYPEC_CC_RP_3_0)).
Proof.
  intros d H. destruct (reachable_inv d H) as (_ & Hcc & _).
  unfold cc_coherent in Hcc.
  repeat split_and; intro Hs.
  - apply Hcc. rewrite Hs. reflexivity.
  - apply Hcc. rewrite Hs. reflexivity.
  - apply Hcc.
    destruct Hs as [Hs | [Hs | [Hs | [Hs | [Hs | Hs]]]]]; rewrite Hs;
      reflexivity.
Qed.

Lemma reachable_cc_by_state_witness :
  reachable snk_attached /\
  state snk_attached = SSTATE_SNK_RUN /\
  tcpmtest_get_cc snk_attached = (TYPEC_CC_RD, TYPEC_CC_RA).
Proof.
  refine (conj snk_attached_reachable (conj eq_refl _)).
  exact (proj1 (proj2 (reachable_cc_by_state snk_attached
                         snk_attached_reachable)) eq_refl).
Defined.

(** X10: in every state a run reaches, the timeout work returns: the
    message it delivers was staged by the simulator, and logging such a
    message never leaves the PDO-type cache. *)
Theorem reachable_tmo_work_returns :
  forall d,
    reachable d -> exists d', tcpmtest_tmo_work d = Some d'.
Proof.
  intros d H. destruct (reachable_inv d H) as (_ & _ & Hl).
  unfold tcpmtest_tmo_work. cbv zeta.
  destruct (msg_rx (request d)); [ | eexists; reflexivity].
  destruct (log_msg_loggable (set_msg_rx false d) TCPC_TX_SOP
              (rx_msg (set_msg_rx false d)) Hl) as [a Ha].
  rewrite Ha. eexists; reflexivity.
Qed.

Lemma reachable_tmo_work_returns_witness :
  reachable snk_attached /\
  exists d', tcpmtest_tmo_work snk_attached = Some d'.
Proof.
  exact (conj snk_attached_reachable
              (reachable_tmo_work_returns snk_attached
                 snk_attached_reachable)).
Defined.

(** ** The mode attribute *)

(** Against a literal without newline, [sysfs_streq] accepts the literal
    and the literal followed by one newline. *)
Lemma sysfs_streq_lit :
  forall lit buf,
    no_newline lit = true ->
    sysfs_streq lit buf = String.eqb lit buf || String.eqb (lit ++ nl) buf.
Proof.
  assert (Hsym : forall a b, Ascii.eqb a b = Ascii.eqb b a).
  { intros a b. destruct (Ascii.eqb_spec a b) as [-> | Hne].
    - symmetry. apply Ascii.eqb_refl.
    - symmetry. apply Ascii.eqb_neq. congruence. }
  induction lit as [| c r IH]; intros buf Hn.
  - destruct buf as [| c2 [| c3 r3]];
      cbn [sysfs_streq String.eqb append nl orb]; try reflexivity.
    + rewrite (Hsym c2). destruct (Ascii.eqb _ c2); reflexivity.
    + destruct (Ascii.eqb _ c2); reflexivity.
  - cbn [no_newline] in Hn. apply andb_prop in Hn. destruct Hn as [Hc Hr].
    apply negb_true_iff in Hc.
    destruct buf as [| c2 r2].
    + cbn [sysfs_streq String.eqb append nl orb].
      destruct r; [exact Hc | reflexivity].
    + assert (E : sysfs_streq (String c r) (String c2 r2)
                  = Ascii.eqb c c2 && sysfs_streq r r2).
      { cbn [sysfs_streq]. destruct r, r2; reflexivity. }
      rewrite E, (IH r2 Hr). cbn [String.eqb append].
      destruct (Ascii.eqb c c2); reflexivity.
Qed.

Lemma sysfs_store_lookup :
  forall d mem count,
    tcpmtest_sysfs_store d (Some mem) count =
    if size_t count =? 0 then (d, - EINVAL)
    else
      match mode_of_string mode_strings (c_str mem) with
      | Some m =>
        (log_call queue_work_event
           (set_mode_set true (set_sysfs_mode_req m d)),
         ssize_t count)
      | None => (d, - EINVAL)
      end.
Proof.
  intros d mem count. unfold tcpmtest_sysfs_store. cbv zeta.
  destruct (size_t count =? 0); [reflexivity |]. cbv [negb].
  rewrite !sysfs_streq_lit by reflexivity.
  unfold mode_strings. cbn [mode_of_string].
  generalize (c_str mem). intro buf.
  destruct (String.eqb "none" buf), (String.eqb ("none" ++ nl) buf),
           (String.eqb "reset" buf), (String.eqb ("reset" ++ nl) buf),
           (String.eqb "snk" buf), (String.eqb ("snk" ++ nl) buf),
           (String.eqb "src" buf), (String.eqb ("src" ++ nl) buf);
    reflexivity.
Qed.

Lemma mode_of_string_in :
  forall l buf m, mode_of_string l buf = Some m -> In (buf, m) l.
Proof.
  induction l as [| [s m'] l IH]; intros buf m H; [discriminate H |].
  cbn [mode_of_string] in H.
  destruct (String.eqb_spec s buf) as [-> | Hne].
  - injection H as <-. left. reflexivity.
  - right. apply IH, H.
Qed.

(** X11: [tcpmtest_sysfs_store] accepts a write exactly when the
    pointer is not null, the count is not 0 and the C string at the
    pointer, that is the bytes before the first NUL, is one of eight
    strings: none, reset, snk and src, each bare or ended by one
    newline.  Whatever follows the first NUL is not looked at, and the
    count need not be the length of the string.  An accepted write
    records the mode the string names as requested, latches the mode
    change, queues the event work and returns the count it was given;
    every other write returns [-EINVAL] and leaves the device as it
    was. *)
Theorem sysfs_store_accepts :
  forall d buf count,
    (forall mem m,
        buf = Some mem ->
        size_t count <> 0 ->
        In (c_str mem, m) mode_strings ->
        tcpmtest_sysfs_store d buf count =
        (log_call queue_work_event
           (set_mode_set true (set_sysfs_mode_req m d)),
         ssize_t count)) /\
    (buf = None \/ size_t count = 0 \/
     (exists mem,
         buf = Some mem /\ forall m, ~ In (c_str mem, m) mode_strings) ->
     tcpmtest_sysfs_store d buf count = (d, - EINVAL)) /\
    (0 <= count < 2 ^ 63 -> size_t count = count /\ ssize_t count = count).
Proof.
  intros d buf count. split_and; [ | split_and].
  - intros mem m -> Hc Hin. rewrite sysfs_store_lookup.
    apply Z.eqb_neq in Hc. rewrite Hc.
    unfold mode_strings in Hin. cbn [In] in Hin.
    repeat (destruct Hin as [Hin | Hin];
            [injection Hin as <- <-; reflexivity |]).
    contradiction.
  - intros [-> | [Hc | (mem & -> & Hno)]].
    + reflexivity.
    + destruct buf as [mem |]; [ | reflexivity].
      rewrite sysfs_store_lookup. apply Z.eqb_eq in Hc. rewrite Hc.
      reflexivity.
    + rewrite sysfs_store_lookup.
      destruct (size_t count =? 0); [reflexivity |].
      destruct (mode_of_string mode_strings (c_str mem)) as [m |] eqn:E;
        [ | reflexivity].
      exfalso. exact (Hno m (mode_of_string_in _ _ _ E)).
  - intros Hr. unfold ssize_t, size_t. rewrite Z.mod_small by lia.
    split; [reflexivity |].
    destruct (Z.ltb_spec count (2 ^ 63)); [reflexivity | lia].
Qed.

(** The write of the three bytes snk followed by a NUL and four more
    bytes, with count 8, is accepted and returns 8. *)
Lemma sysfs_store_accepts_witness :
  tcpmtest_sysfs_store tcpmtest_probe_data
    (Some ("snk" ++ String "000"%char "junk")%string) 8 =
  (log_call queue_work_event
     (set_mode_set true (set_sysfs_mode_req TESTMODE_SNK tcpmtest_probe_data)),
   ssize_t 8) /\
  ssize_t 8 = 8.
Proof.
  split.
  - apply (proj1 (sysfs_store_accepts tcpmtest_probe_data
                    (Some ("snk" ++ String "000"%char "junk")%string) 8)
             ("snk" ++ String "000"%char "junk")%string TESTMODE_SNK
             eq_refl).
    + vm_compute. discriminate.
    + right; right; right; right; left. reflexivity.
  - apply (proj2 (proj2 (sysfs_store_accepts tcpmtest_probe_data None 8))).
    lia.
Defined.

(** ** The start of a source session *)

Lemma state_machine_src_start :
  forall d timeout,
    state d = SSTATE_SRC_START ->
    tcpmtest_state_machine d timeout =
    log_call (mod_delayed_work_tmo 5)
      (set_delay 5
         (set_state SSTATE_SRC_VBUS
            (log_call tcpm_cc_change
               (set_cc2_status TYPEC_CC_RP_3_0
                  (set_cc1_status TYPEC_CC_OPEN d))))).
Proof.
  intros d timeout H.
  unfold tcpmtest_state_machine, state_machine_switch. cbv zeta.
  rewrite H. reflexivity.
Qed.

Lemma state_machine_src_vbus :
  forall d timeout,
    state d = SSTATE_SRC_VBUS ->
    tcpmtest_state_machine d timeout =
    if timeout
    then set_state SSTATE_SRC_RX_SOURCE_CAP
           (set_vbus_chng true (set_vbus_present true d))
    else d.
Proof.
  intros d timeout H.
  unfold tcpmtest_state_machine, state_machine_switch. cbv zeta.
  rewrite H. destruct timeout; cbn [fst snd Z.leb Z.compare].
  - reflexivity.
  - rewrite <- H. apply set_state_same.
Qed.

Lemma state_machine_src_rx_source_cap :
  forall d timeout,
    state d = SSTATE_SRC_RX_SOURCE_CAP ->
    tcpmtest_state_machine d timeout =
    if pd_rx_enable d
    then set_state SSTATE_SRC_WAIT_FOR_REQUEST
           (tcpmtest_mk_src_data_source_cap d)
    else d.
Proof.
  intros d timeout H.
  unfold tcpmtest_state_machine, state_machine_switch. cbv zeta.
  rewrite H. destruct (pd_rx_enable d); cbn [fst snd Z.leb Z.compare].
  - reflexivity.
  - rewrite <- H. apply set_state_same.
Qed.

(** A pass with nothing latched and nothing staged is one step of the
    state machine. *)
Lemma event_work_quiet :
  forall d,
    request d = request_none ->
    msg_rx (request (tcpmtest_state_machine d false)) = false ->
    tcpmtest_event_work d = tcpmtest_state_machine d false.
Proof.
  intros d Hreq Hrx. unfold tcpmtest_event_work. cbv zeta.
  rewrite event_mode_set_idle by (rewrite Hreq; reflexivity).
  rewrite event_vbus_chng_idle by (rewrite Hreq; reflexivity).
  rewrite event_msg_tx_idle by (rewrite Hreq; reflexivity).
  rewrite Hrx. reflexivity.
Qed.

Lemma event_work_src_start :
  forall d,
    sysfs_mode d = TESTMODE_NONE ->
    request d = request_none ->
    src_started d =
    log_call (mod_delayed_work_tmo 5)
      (set_delay 5
         (set_state SSTATE_SRC_VBUS
            (log_call tcpm_cc_change
               (set_cc2_status TYPEC_CC_RP_3_0
                  (set_cc1_status TYPEC_CC_OPEN
                     (set_state SSTATE_SRC_START
                        (set_sysfs_mode TESTMODE_SRC
                           (set_mode_set false
                              (log_call queue_work_event
                                 (set_mode_set true
                                    (set_sysfs_mode_req TESTMODE_SRC
                                       d))))))))))).
Proof.
  intros d Hmode Hreq. unfold src_started.
  change (fst (tcpmtest_sysfs_store d (Some "src"%string) 3))
    with (log_call queue_work_event
            (set_mode_set true (set_sysfs_mode_req TESTMODE_SRC d))).
  unfold tcpmtest_event_work. cbv zeta.
  rewrite event_mode_set_result by reflexivity.
  unfold mode_change_result. proj_simpl. rewrite Hmode. cbn [fst snd].
  rewrite event_vbus_chng_idle by (proj_simpl; rewrite Hreq; reflexivity).
  rewrite event_msg_tx_idle by (proj_simpl; rewrite Hreq; reflexivity).
  rewrite state_machine_src_start by reflexivity.
  proj_simpl. rewrite Hreq. reflexivity.
Qed.

Lemma calls_log_set_state :
  forall c s d, calls (log_call c (set_state s d)) = calls d ++ [c].
Proof. reflexivity. Qed.

Lemma tmo_work_src_vbus :
  forall d,
    request d = request_none ->
    state d = SSTATE_SRC_VBUS ->
    tcpmtest_tmo_work d =
    Some (set_state SSTATE_SRC_RX_SOURCE_CAP
            (set_vbus_chng true (set_vbus_present true (set_delay 0 d)))).
Proof.
  intros d Hreq Hs. unfold tcpmtest_tmo_work. cbv zeta. rewrite Hreq.
  proj_simpl. rewrite state_machine_src_vbus by exact Hs. reflexivity.
Qed.

Lemma event_work_vbus_report :
  forall d,
    request d = mk_request false false false true ->
    state d = SSTATE_SRC_RX_SOURCE_CAP ->
    pd_rx_enable d = false ->
    tcpmtest_event_work d = log_call tcpm_vbus_change (set_vbus_chng false d).
Proof.
  intros d Hreq Hs Hrx. unfold tcpmtest_event_work. cbv zeta.
  rewrite event_mode_set_idle by (rewrite Hreq; reflexivity).
  unfold event_vbus_chng. rewrite Hreq. proj_simpl.
  rewrite event_msg_tx_idle by (proj_simpl; rewrite Hreq; reflexivity).
  rewrite state_machine_src_rx_source_cap by exact Hs.
  proj_simpl. rewrite Hrx. proj_simpl. rewrite Hreq. reflexivity.
Qed.

Lemma event_work_src_caps :
  forall d,
    request d = request_none ->
    state d = SSTATE_SRC_RX_SOURCE_CAP ->
    pd_rx_enable d = true ->
    tcpmtest_event_work d =
    log_call (mod_delayed_work_tmo SRC_RESP_DELAY)
      (set_state SSTATE_SRC_WAIT_FOR_REQUEST
         (tcpmtest_mk_src_data_source_cap d)).
Proof.
  intros d Hreq Hs Hrx. unfold tcpmtest_event_work. cbv zeta.
  rewrite event_mode_set_idle by (rewrite Hreq; reflexivity).
  rewrite event_vbus_chng_idle by (rewrite Hreq; reflexivity).
  rewrite event_msg_tx_idle by (rewrite Hreq; reflexivity).
  rewrite state_machine_src_rx_source_cap by exact Hs.
  rewrite Hrx. reflexivity.
Qed.

Lemma mk_src_data_source_cap_stages :
  forall d,
    stages_data_reply PD_DATA_SOURCE_CAP 1 src_cap_pdo d
      (tcpmtest_mk_src_data_source_cap d) /\
    calls (tcpmtest_mk_src_data_source_cap d) = calls d.
Proof.
  intro d. unfold stages_data_reply.
  destruct (PD_HEADER_fields (data_val PD_DATA_SOURCE_CAP) TYPEC_SOURCE
              TYPEC_HOST (rx_id d) 1 (data_val_range _) ltac:(lia))
    as (Hty & Hcnt & _ & _).
  repeat split_and; [reflexivity | exact Hty | exact Hcnt | reflexivity
                    | reflexivity].
Qed.

Lemma src_started_facts :
  forall d,
    sysfs_mode d = TESTMODE_NONE ->
    request d = request_none ->
    pd_rx_enable d = false ->
    let d1 := src_started d in
    request d1 = request_none /\ state d1 = SSTATE_SRC_VBUS /\
    pd_rx_enable d1 = false /\ rx_id d1 = rx_id d /\
    sysfs_mode d1 = TESTMODE_SRC /\
    tcpmtest_get_cc d1 = (TYPEC_CC_OPEN, TYPEC_CC_RP_3_0) /\
    tcpmtest_get_vbus d1 = tcpmtest_get_vbus d /\
    delay d1 = 5 /\
    calls d1 = calls d ++ [queue_work_event; tcpm_cc_change;
                           mod_delayed_work_tmo 5].
Proof.
  intros d Hmode Hreq Hrx d1. subst d1.
  pose proof (event_work_src_start d Hmode Hreq) as E1.
  set (d1 := src_started d) in *. clearbody d1.
  rewrite E1. unfold tcpmtest_get_cc, tcpmtest_get_vbus. proj_simpl.
  rewrite Hreq, <- !app_assoc. repeat split_and; reflexivity || exact Hrx.
Qed.

Lemma src_vbus_on_facts :
  forall d1,
    request d1 = request_none ->
    state d1 = SSTATE_SRC_VBUS ->
    exists d2,
      tcpmtest_tmo_work d1 = Some d2 /\
      request d2 = mk_request false false false true /\
      state d2 = SSTATE_SRC_RX_SOURCE_CAP /\
      pd_rx_enable d2 = pd_rx_enable d1 /\ rx_id d2 = rx_id d1 /\
      tcpmtest_get_vbus d2 = true /\ calls d2 = calls d1.
Proof.
  intros d1 Hreq1 Hs1. eexists. split_and.
  - exact (tmo_work_src_vbus d1 Hreq1 Hs1).
  - unfold tcpmtest_get_vbus. proj_simpl. rewrite Hreq1.
    repeat split_and; reflexivity.
Qed.

Lemma src_vbus_reported_facts :
  forall d2,
    request d2 = mk_request false false false true ->
    state d2 = SSTATE_SRC_RX_SOURCE_CAP ->
    pd_rx_enable d2 = false ->
    let d3 := src_vbus_reported d2 in
    request d3 = request_none /\
    state d3 = SSTATE_SRC_RX_SOURCE_CAP /\
    pd_rx_enable d3 = false /\ rx_id d3 = rx_id d2 /\
    calls d3 = calls d2 ++ [tcpm_vbus_change].
Proof.
  intros d2 Hreq2 Hs2 Hrx2 d3. subst d3. unfold src_vbus_reported.
  rewrite (event_work_vbus_report d2 Hreq2 Hs2 Hrx2).
  proj_simpl. rewrite Hreq2.
  repeat split_and; reflexivity || assumption.
Qed.

Lemma src_caps_staged_facts :
  forall d3,
    request d3 = request_none ->
    state d3 = SSTATE_SRC_RX_SOURCE_CAP ->
    pd_rx_enable d3 = false ->
    let d4 := src_caps_staged d3 in
    state d4 = SSTATE_SRC_WAIT_FOR_REQUEST /\
    stages_data_reply PD_DATA_SOURCE_CAP 1 src_cap_pdo d3 d4 /\
    pd_header_id (header (rx_msg d4)) = rx_id d3 mod 8 /\
    calls d4 = calls d3 ++ [queue_work_event;
                            mod_delayed_work_tmo SRC_RESP_DELAY].
Proof.
  intros d3 Hreq3 Hs3 Hrx3 d4. subst d4. unfold src_caps_staged.
  assert (E3' : tcpmtest_set_pd_rx d3 true =
                log_call queue_work_event (set_pd_rx_enable true d3)).
  { unfold tcpmtest_set_pd_rx. rewrite Hrx3. reflexivity. }
  remember (tcpmtest_set_pd_rx d3 true) as d3' eqn:Ed3'. clear Ed3'.
  assert (F3' : request d3' = request_none /\
                state d3' = SSTATE_SRC_RX_SOURCE_CAP /\
                pd_rx_enable d3' = true /\ rx_id d3' = rx_id d3 /\
                calls d3' = calls d3 ++ [queue_work_event]).
  { rewrite E3'. proj_simpl.
    repeat split_and; reflexivity || assumption. }
  clear E3'. destruct F3' as (Hreq3' & Hs3' & Hrx3' & Hid3' & Hc3').
  rewrite (event_work_src_caps d3' Hreq3' Hs3' Hrx3').
  destruct (mk_src_data_source_cap_stages d3')
    as ((Hst1 & Hst2 & Hst3 & Hst4) & Hst5).
  pose proof (proj1 (proj2 (mk_src_data_source_cap_staged d3'))) as Hstid.
  unfold stages_data_reply.
  rewrite !rx_msg_log_set_state, calls_log_set_state.
  repeat split_and; try assumption; try reflexivity.
  - rewrite Hstid, Hid3'. reflexivity.
  - rewrite Hst5, Hc3', <- app_assoc. reflexivity.
Qed.

(** X12: the start of a source session, from an idle device with nothing
    pending and PD reception off.  The pass that processes the write of
    "src" records source mode, puts CC1 open and CC2 at Rp-3.0, notifies
    the CC change, arms the timer with 5 ms and waits in
    [SSTATE_SRC_VBUS] with VBUS as it was; a further pass changes
    nothing.  The timeout work then switches VBUS on, latches the VBUS
    change without notifying it and moves to
    [SSTATE_SRC_RX_SOURCE_CAP].  The next pass notifies the VBUS change
    and, with PD reception still off, stages nothing.  Once the Port
    Manager enables PD reception, the pass that follows stages the
    SourceCapabilities with the one PDO of the simulated source under
    the current message ID, arms the response timer and waits for the
    request. *)
Theorem src_attach_sequence :
  forall d,
    sysfs_mode d = TESTMODE_NONE ->
    request d = request_none ->
    pd_rx_enable d = false ->
    let d1 := src_started d in
    exists d2,
      (sysfs_mode d1 = TESTMODE_SRC /\
       state d1 = SSTATE_SRC_VBUS /\
       tcpmtest_get_cc d1 = (TYPEC_CC_OPEN, TYPEC_CC_RP_3_0) /\
       tcpmtest_get_vbus d1 = tcpmtest_get_vbus d /\
       delay d1 = 5 /\
       calls d1 = calls d ++ [queue_work_event; tcpm_cc_change;
                              mod_delayed_work_tmo 5]) /\
      tcpmtest_event_work d1 = d1 /\
      src_vbus_on d = Some d2 /\
      (state d2 = SSTATE_SRC_RX_SOURCE_CAP /\
       tcpmtest_get_vbus d2 = true /\
       vbus_chng (request d2) = true /\
       calls d2 = calls d1) /\
      let d3 := src_vbus_reported d2 in
      (state d3 = SSTATE_SRC_RX_SOURCE_CAP /\
       msg_rx (request d3) = false /\
       vbus_chng (request d3) = false /\
       calls d3 = calls d2 ++ [tcpm_vbus_change]) /\
      let d4 := src_caps_staged d3 in
      state d4 = SSTATE_SRC_WAIT_FOR_REQUEST /\
      stages_data_reply PD_DATA_SOURCE_CAP 1 src_cap_pdo d3 d4 /\
      pd_header_id (header (rx_msg d4)) = rx_id d mod 8 /\
      calls d4 = calls d3 ++ [queue_work_event;
                              mod_delayed_work_tmo SRC_RESP_DELAY].
Proof.
  intros d Hmode Hreq Hrx d1.
  destruct (src_started_facts d Hmode Hreq Hrx)
    as (Hreq1 & Hs1 & Hrx1 & Hid1 & Hm1 & Hcc1 & Hvb1 & Hdl1 & Hc1).
  fold d1 in Hreq1, Hs1, Hrx1, Hid1, Hm1, Hcc1, Hvb1, Hdl1, Hc1.
  unfold src_vbus_on. fold d1. clearbody d1.
  destruct (src_vbus_on_facts d1 Hreq1 Hs1)
    as (d2 & E2 & Hreq2 & Hs2 & Hrx2 & Hid2 & Hvb2 & Hc2).
  rewrite Hrx1 in Hrx2.
  destruct (src_vbus_reported_facts d2 Hreq2 Hs2 Hrx2)
    as (Hreq3 & Hs3 & Hrx3 & Hid3 & Hc3).
  destruct (src_caps_staged_facts _ Hreq3 Hs3 Hrx3)
    as (Hs4 & Hst4 & Hid4 & Hc4).
  exists d2. cbv zeta.
  split_and; [repeat split_and; assumption |].
  split_and.
  { rewrite (event_work_quiet d1 Hreq1);
      rewrite state_machine_src_vbus by exact Hs1;
      [reflexivity | rewrite Hreq1; reflexivity]. }
  split_and; [exact E2 |].
  split_and;
    [rewrite Hreq2; repeat split_and; reflexivity || assumption |].
  split_and;
    [rewrite Hreq3; repeat split_and; reflexivity || assumption |].
  repeat split_and; try assumption.
  rewrite Hid4, Hid3, Hid2, Hid1. reflexivity.
Qed.

Lemma src_attach_sequence_witness :
  sysfs_mode tcpmtest_probe_data = TESTMODE_NONE /\
  request tcpmtest_probe_data = request_none /\
  pd_rx_enable tcpmtest_probe_data = false /\
  exists d2,
    (sysfs_mode (src_started tcpmtest_probe_data) = TESTMODE_SRC /\
     state (src_started tcpmtest_probe_data) = SSTATE_SRC_VBUS /\
     tcpmtest_get_cc (src_started tcpmtest_probe_data)
     = (TYPEC_CC_OPEN, TYPEC_CC_RP_3_0) /\
     tcpmtest_get_vbus (src_started tcpmtest_probe_data)
     = tcpmtest_get_vbus tcpmtest_probe_data /\
     delay (src_started tcpmtest_probe_data) = 5 /\
     calls (src_started tcpmtest_probe_data)
     = calls tcpmtest_probe_data ++ [queue_work_event; tcpm_cc_change;
                                     mod_delayed_work_tmo 5]) /\
    tcpmtest_event_work (src_started tcpmtest_probe_data)
    = src_started tcpmtest_probe_data /\
    src_vbus_on tcpmtest_probe_data = Some d2 /\
    (state d2 = SSTATE_SRC_RX_SOURCE_CAP /\
     tcpmtest_get_vbus d2 = true /\
     vbus_chng (request d2) = true /\
     calls d2 = calls (src_started tcpmtest_probe_data)) /\
    (state (src_vbus_reported d2) = SSTATE_SRC_RX_SOURCE_CAP /\
     msg_rx (request (src_vbus_reported d2)) = false /\
     vbus_chng (request (src_vbus_reported d2)) = false /\
     calls (src_vbus_reported d2) = calls d2 ++ [tcpm_vbus_change]) /\
    state (src_caps_staged (src_vbus_reported d2))
    = SSTATE_SRC_WAIT_FOR_REQUEST /\
    stages_data_reply PD_DATA_SOURCE_CAP 1 src_cap_pdo
      (src_vbus_reported d2) (src_caps_staged (src_vbus_reported d2)) /\
    pd_header_id (header (rx_msg (src_caps_staged (src_vbus_reported d2))))
    = rx_id tcpmtest_probe_data mod 8 /\
    calls (src_caps_staged (src_vbus_reported d2))
    = calls (src_vbus_reported d2) ++ [queue_work_event;
                                       mod_delayed_work_tmo SRC_RESP_DELAY].
Proof.
  exact (conj eq_refl (conj eq_refl (conj eq_refl
           (src_attach_sequence tcpmtest_probe_data
              eq_refl eq_refl eq_refl)))).
Defined.

(** ** The classifiers on data messages and on other transmissions *)

Lemma process_snk_sop_data :
  forall vdm d,
    tx_type d = TCPC_TX_SOP ->
    pd_header_cnt (header (tx_msg d)) <> 0 ->
    process_tx_msg_for_snk_with vdm d =
    match data_of (pd_header_type (header (tx_msg d))) with
    | Some PD_DATA_SOURCE_CAP => tcpmtest_mk_snk_request d
    | Some PD_DATA_REQUEST | Some PD_DATA_SINK_CAP =>
      tcpmtest_hard_reset d true
    | Some PD_DATA_VENDOR_DEF => vdm d (pd_header_cnt (header (tx_msg d)))
    | _ => d
    end.
Proof.
  intros vdm d Htx Hcnt. unfold process_tx_msg_for_snk_with. cbv zeta.
  rewrite Htx. apply Z.eqb_neq in Hcnt. rewrite Hcnt.
  destruct (data_of (pd_header_type (header (tx_msg d)))) as [[]|];
    reflexivity.
Qed.

(** X13: a data message the Port Manager transmits over SOP is classified
    as follows.  SourceCapabilities: the sink stages its Request, the
    source starts a hard reset.  Request: the sink starts a hard reset;
    the source moves on to the Accept when it waits for the request and
    absorbs the message in every other state.  SinkCapabilities: the
    sink starts a hard reset, the source absorbs it.  BIST is absorbed
    in both roles, a vendor-defined message is absorbed by the source,
    and so is, in both roles, a message whose type is none of the
    five. *)
Theorem data_msg_reactions :
  forall d,
    tx_type d = TCPC_TX_SOP ->
    pd_header_cnt (header (tx_msg d)) <> 0 ->
    match data_of (pd_header_type (header (tx_msg d))) with
    | Some PD_DATA_SOURCE_CAP =>
      tcpmtest_process_tx_msg_for_snk d = tcpmtest_mk_snk_request d /\
      is_snk_request (rx_msg (tcpmtest_process_tx_msg_for_snk d)) /\
      staged_with_id d (tcpmtest_process_tx_msg_for_snk d) /\
      peer_hard_reset d (tcpmtest_process_tx_msg_for_src d)
    | Some PD_DATA_REQUEST =>
      peer_hard_reset d (tcpmtest_process_tx_msg_for_snk d) /\
      (state d = SSTATE_SRC_WAIT_FOR_REQUEST ->
       tcpmtest_process_tx_msg_for_src d
       = set_state SSTATE_SRC_SEND_REQUEST d) /\
      (state d <> SSTATE_SRC_WAIT_FOR_REQUEST ->
       absorbed d (tcpmtest_process_tx_msg_for_src d))
    | Some PD_DATA_SINK_CAP =>
      peer_hard_reset d (tcpmtest_process_tx_msg_for_snk d) /\
      absorbed d (tcpmtest_process_tx_msg_for_src d)
    | Some PD_DATA_BIST | None =>
      absorbed d (tcpmtest_process_tx_msg_for_snk d) /\
      absorbed d (tcpmtest_process_tx_msg_for_src d)
    | Some PD_DATA_VENDOR_DEF =>
      absorbed d (tcpmtest_process_tx_msg_for_src d)
    end.
Proof.
  intros d Htx Hcnt.
  unfold tcpmtest_process_tx_msg_for_snk.
  rewrite (process_snk_sop_data _ d Htx Hcnt).
  rewrite (process_src_sop_data d Htx Hcnt).
  destruct (data_of (pd_header_type (header (tx_msg d)))) as [[]|];
    repeat split_and; try reflexivity.
  - apply snk_request_fields.
  - apply mk_snk_request_staged.
  - intro Hs. rewrite Hs. reflexivity.
  - intro Hs. destruct (simstate_eqb (state d) SSTATE_SRC_WAIT_FOR_REQUEST)
      eqn:E; [ | reflexivity].
    apply simstate_eqb_eq in E. contradiction.
Qed.

Lemma data_msg_reactions_witness :
  tx_type src_running_sink_cap = TCPC_TX_SOP /\
  pd_header_cnt (header (tx_msg src_running_sink_cap)) <> 0 /\
  match data_of (pd_header_type (header (tx_msg src_running_sink_cap))) with
  | Some PD_DATA_SOURCE_CAP =>
    tcpmtest_process_tx_msg_for_snk src_running_sink_cap
    = tcpmtest_mk_snk_request src_running_sink_cap /\
    is_snk_request
      (rx_msg (tcpmtest_process_tx_msg_for_snk src_running_sink_cap)) /\
    staged_with_id src_running_sink_cap
      (tcpmtest_process_tx_msg_for_snk src_running_sink_cap) /\
    peer_hard_reset src_running_sink_cap
      (tcpmtest_process_tx_msg_for_src src_running_sink_cap)
  | Some PD_DATA_REQUEST =>
    peer_hard_reset src_running_sink_cap
      (tcpmtest_process_tx_msg_for_snk src_running_sink_cap) /\
    (state src_running_sink_cap = SSTATE_SRC_WAIT_FOR_REQUEST ->
     tcpmtest_process_tx_msg_for_src src_running_sink_cap
     = set_state SSTATE_SRC_SEND_REQUEST src_running_sink_cap) /\
    (state src_running_sink_cap <> SSTATE_SRC_WAIT_FOR_REQUEST ->
     absorbed src_running_sink_cap
       (tcpmtest_process_tx_msg_for_src src_running_sink_cap))
  | Some PD_DATA_SINK_CAP =>
    peer_hard_reset src_running_sink_cap
      (tcpmtest_process_tx_msg_for_snk src_running_sink_cap) /\
    absorbed src_running_sink_cap
      (tcpmtest_process_tx_msg_for_src src_running_sink_cap)
  | Some PD_DATA_BIST | None =>
    absorbed src_running_sink_cap
      (tcpmtest_process_tx_msg_for_snk src_running_sink_cap) /\
    absorbed src_running_sink_cap
      (tcpmtest_process_tx_msg_for_src src_running_sink_cap)
  | Some PD_DATA_VENDOR_DEF =>
    absorbed src_running_sink_cap
      (tcpmtest_process_tx_msg_for_src src_running_sink_cap)
  end.
Proof.
  assert (H1 : tx_type src_running_sink_cap = TCPC_TX_SOP) by reflexivity.
  assert (H2 : pd_header_cnt (header (tx_msg src_running_sink_cap)) <> 0)
    by (vm_compute; discriminate).
  exact (conj H1 (conj H2 (data_msg_reactions src_running_sink_cap H1 H2))).
Defined.

(** X14: what is transmitted on anything but SOP.  A hard reset of the
    Port Manager clears every pending request and the message-ID
    counter in both roles, and the Port Manager is not told of a reset
    in return.  A transmission on SOP', SOP'', the debug SOPs, a cable
    reset and BIST mode 2 are absorbed in both roles, whatever the
    message. *)
Theorem non_sop_reactions :
  forall d,
    tx_type d <> TCPC_TX_SOP ->
    if tx_type_eqb (tx_type d) TCPC_TX_HARD_RESET
    then own_hard_reset d (tcpmtest_process_tx_msg_for_snk d) /\
         own_hard_reset d (tcpmtest_process_tx_msg_for_src d)
    else absorbed d (tcpmtest_process_tx_msg_for_snk d) /\
         absorbed d (tcpmtest_process_tx_msg_for_src d).
Proof.
  intros d Hne.
  unfold tcpmtest_process_tx_msg_for_snk, process_tx_msg_for_snk_with,
         tcpmtest_process_tx_msg_for_src.
  destruct (tx_type_eqb (tx_type d) TCPC_TX_HARD_RESET);
    [split; reflexivity |].
  destruct (tx_type_eqb (tx_type d) TCPC_TX_SOP) eqn:E.
  - apply tx_type_eqb_eq in E. contradiction.
  - split; reflexivity.
Qed.

Lemma non_sop_reactions_witness :
  tx_type src_running_tx_hard_reset <> TCPC_TX_SOP /\
  own_hard_reset src_running_tx_hard_reset
    (tcpmtest_process_tx_msg_for_snk src_running_tx_hard_reset) /\
  own_hard_reset src_running_tx_hard_reset
    (tcpmtest_process_tx_msg_for_src src_running_tx_hard_reset).
Proof.
  assert (H : tx_type src_running_tx_hard_reset <> TCPC_TX_SOP) by discriminate.
  exact (conj H (non_sop_reactions src_running_tx_hard_reset H)).
Defined.

(** ** The sink and vendor-defined messages *)

Lemma stage_header_data_fields :
  forall t pwr dr cnt d,
    0 <= cnt <= 7 ->
    pd_header_type (header (rx_msg (stage_header (data_val t) pwr dr cnt d)))
    = data_val t /\
    pd_header_cnt (header (rx_msg (stage_header (data_val t) pwr dr cnt d)))
    = cnt.
Proof.
  intros t pwr dr cnt d Hc. unfold stage_header. proj_simpl.
  destruct (PD_HEADER_fields (data_val t) pwr dr (rx_id d) cnt
              (data_val_range t) Hc) as (H1 & H2 & _).
  split; assumption.
Qed.

Lemma mk_snk_disc_ident_stages :
  forall d,
    stages_data_reply PD_DATA_VENDOR_DEF 5
      (VDO_STR USB_SID_PD 0 0 CMDT_RSP_ACK CMD_DISCOVER_IDENT)
      d (tcpmtest_mk_snk_disc_ident_resp_vdm d).
Proof.
  intro d. unfold stages_data_reply, tcpmtest_mk_snk_disc_ident_resp_vdm.
  cbv zeta. rewrite rx_msg_set_msg_rx, msg_rx_set_msg_rx,
                    !rx_payload_header.
  destruct (stage_header_data_fields PD_DATA_VENDOR_DEF TYPEC_SINK
              TYPEC_DEVICE 5 d ltac:(lia)) as (H1 & H2).
  repeat split_and; [reflexivity | exact H1 | exact H2 | reflexivity].
Qed.

Lemma mk_snk_disc_svid_stages :
  forall d,
    stages_data_reply PD_DATA_VENDOR_DEF 2
      (VDO_STR USB_SID_PD 0 0 CMDT_RSP_ACK CMD_DISCOVER_SVID)
      d (tcpmtest_mk_snk_disc_svid_resp_vdm d) /\
    payload (rx_msg (tcpmtest_mk_snk_disc_svid_resp_vdm d)) 1
    = VDO_SVID USB_SID_DISPLAYPORT 0.
Proof.
  intro d. unfold stages_data_reply, tcpmtest_mk_snk_disc_svid_resp_vdm.
  cbv zeta. rewrite rx_msg_set_msg_rx, msg_rx_set_msg_rx,
                    !rx_payload_header.
  destruct (stage_header_data_fields PD_DATA_VENDOR_DEF TYPEC_SINK
              TYPEC_DEVICE 2 d ltac:(lia)) as (H1 & H2).
  repeat split_and;
    [reflexivity | exact H1 | exact H2 | reflexivity | reflexivity].
Qed.

Lemma mk_snk_disc_modes_stages :
  forall d svid,
    svid mod 2 ^ 16 = USB_SID_DISPLAYPORT ->
    stages_data_reply PD_DATA_VENDOR_DEF 2
      (VDO_STR USB_SID_DISPLAYPORT 0 0 CMDT_RSP_ACK CMD_DISCOVER_MODES)
      d (tcpmtest_mk_snk_disc_modes_resp_vdm d svid) /\
    payload (rx_msg (tcpmtest_mk_snk_disc_modes_resp_vdm d svid)) 1
    = mode_vdo_event.
Proof.
  intros d svid H.
  unfold stages_data_reply, tcpmtest_mk_snk_disc_modes_resp_vdm,
         mk_snk_disc_modes_resp_vdm_with.
  rewrite H. change (negb (USB_SID_DISPLAYPORT =? USB_SID_DISPLAYPORT))
    with false. cbv iota zeta.
  rewrite rx_msg_set_msg_rx, msg_rx_set_msg_rx, !rx_payload_header.
  destruct (stage_header_data_fields PD_DATA_VENDOR_DEF TYPEC_SINK
              TYPEC_DEVICE 2 d ltac:(lia)) as (H1 & H2).
  repeat split_and;
    [reflexivity | exact H1 | exact H2 | reflexivity | reflexivity].
Qed.

(** X15: a vendor-defined message the Port Manager transmits over SOP to
    the simulated sink is answered only if its first object is the
    header of a structured VDM that starts a command, and only for
    three commands.  Discover Identity is answered with five objects,
    Discover SVIDs with two, the second naming the DisplayPort SVID;
    Discover Modes is answered only when the header names the
    DisplayPort SVID, with two objects, the second being the mode VDO
    of the simulator: a DisplayPort sink with DP 1.3 signalling on a
    receptacle, pin assignment C in the DFP_D field and none in the
    UFP_D field, so that the pin capabilities read from it are empty.
    Each answer is staged under the current message ID.  Every other
    vendor-defined message is absorbed. *)
Theorem snk_vdm_reactions :
  forall d,
    tx_type d = TCPC_TX_SOP ->
    pd_header_cnt (header (tx_msg d)) <> 0 ->
    data_of (pd_header_type (header (tx_msg d))) = Some PD_DATA_VENDOR_DEF ->
    let vdo_hdr := payload (tx_msg d) 0 in
    let d' := tcpmtest_process_tx_msg_for_snk d in
    (~ svdm_init vdo_hdr -> absorbed d d') /\
    (svdm_init vdo_hdr ->
     (PD_VDO_CMD vdo_hdr = CMD_DISCOVER_IDENT ->
      staged_with_id d d' /\
      stages_data_reply PD_DATA_VENDOR_DEF 5
        (VDO_STR USB_SID_PD 0 0 CMDT_RSP_ACK CMD_DISCOVER_IDENT) d d') /\
     (PD_VDO_CMD vdo_hdr = CMD_DISCOVER_SVID ->
      staged_with_id d d' /\
      stages_data_reply PD_DATA_VENDOR_DEF 2
        (VDO_STR USB_SID_PD 0 0 CMDT_RSP_ACK CMD_DISCOVER_SVID) d d' /\
      payload (rx_msg d') 1 = VDO_SVID USB_SID_DISPLAYPORT 0) /\
     (PD_VDO_CMD vdo_hdr = CMD_DISCOVER_MODES ->
      PD_VDO_VID vdo_hdr mod 2 ^ 16 = USB_SID_DISPLAYPORT ->
      staged_with_id d d' /\
      stages_data_reply PD_DATA_VENDOR_DEF 2
        (VDO_STR USB_SID_DISPLAYPORT 0 0 CMDT_RSP_ACK CMD_DISCOVER_MODES)
        d d' /\
      PD_DP_PORT_CAP (payload (rx_msg d') 1) = MODE_DP_SNK /\
      PD_DP_SIGNAL (payload (rx_msg d') 1) = MODE_DP_V13 /\
      PD_DP_RECEPTACLE (payload (rx_msg d') 1) = 1 /\
      PD_DP_USB20_NOT_USED (payload (rx_msg d') 1) = 0 /\
      PD_DP_DFP_D_PIN (payload (rx_msg d') 1) = MODE_DP_PIN_C /\
      PD_DP_UFP_D_PIN (payload (rx_msg d') 1) = 0 /\
      PD_DP_PIN_CAPS (payload (rx_msg d') 1) = 0) /\
     (PD_VDO_CMD vdo_hdr = CMD_DISCOVER_MODES ->
      PD_VDO_VID vdo_hdr mod 2 ^ 16 <> USB_SID_DISPLAYPORT ->
      absorbed d d') /\
     (PD_VDO_CMD vdo_hdr <> CMD_DISCOVER_IDENT ->
      PD_VDO_CMD vdo_hdr <> CMD_DISCOVER_SVID ->
      PD_VDO_CMD vdo_hdr <> CMD_DISCOVER_MODES ->
      absorbed d d')).
Proof.
  intros d Htx Hcnt Hty vdo_hdr d'. subst d'.
  unfold tcpmtest_process_tx_msg_for_snk.
  rewrite (process_snk_sop_data _ d Htx Hcnt), Hty.
  unfold tcpmtest_process_tx_vdm_for_snk, process_tx_vdm_for_snk_with.
  cbv zeta. fold vdo_hdr. unfold svdm_init, absorbed.
  destruct (Z.eqb_spec (Z.land vdo_hdr VDO_SVDM_TYPE) 0) as [Est | Est].
  { split; [reflexivity | intros [H _]; contradiction]. }
  destruct (Z.eqb_spec (PD_VDO_CMDT vdo_hdr) CMDT_INIT) as [Ect | Ect].
  2:{ split; [ | intros [_ H]; contradiction]. intros _.
      repeat match goal with
             | |- context [if ?c then _ else _] => destruct c
             end; reflexivity. }
  split; [intro H; exfalso; apply H; split; assumption |]. intros _.
  destruct (Z.eqb_spec (PD_VDO_CMD vdo_hdr) CMD_DISCOVER_IDENT) as [E1 | E1].
  { rewrite E1. repeat split_and; try (intro H; discriminate H);
      try (intros H; exfalso; apply H; reflexivity).
    intros _. split; [apply mk_snk_disc_ident_staged
                     | apply mk_snk_disc_ident_stages]. }
  destruct (Z.eqb_spec (PD_VDO_CMD vdo_hdr) CMD_DISCOVER_SVID) as [E2 | E2].
  { rewrite E2. repeat split_and; try (intro H; discriminate H);
      try (intros _ H; exfalso; apply H; reflexivity).
    intros _. split; [apply mk_snk_disc_svid_staged
                     | apply mk_snk_disc_svid_stages]. }
  destruct (Z.eqb_spec (PD_VDO_CMD vdo_hdr) CMD_DISCOVER_MODES) as [E3 | E3].
  { rewrite E3. repeat split_and; try (intro H; discriminate H);
      try (intros _ _ H; exfalso; apply H; reflexivity).
    - intros _ Hv.
      destruct (mk_snk_disc_modes_stages d (PD_VDO_VID vdo_hdr) Hv)
        as (Hst & Hp).
      split; [apply mk_snk_disc_modes_staged, Hv |].
      split; [exact Hst |]. rewrite Hp.
      repeat split_and; vm_compute; reflexivity.
    - intros _ Hv. unfold tcpmtest_mk_snk_disc_modes_resp_vdm,
                          mk_snk_disc_modes_resp_vdm_with.
      apply Z.eqb_neq in Hv. rewrite Hv. reflexivity. }
  repeat split_and; try (intro H; contradiction). intros _ _ _. reflexivity.
Qed.

Lemma snk_vdm_reactions_witness :
  tx_type snk_running_disc_modes = TCPC_TX_SOP /\
  pd_header_cnt (header (tx_msg snk_running_disc_modes)) <> 0 /\
  data_of (pd_header_type (header (tx_msg snk_running_disc_modes)))
  = Some PD_DATA_VENDOR_DEF /\
  svdm_init (payload (tx_msg snk_running_disc_modes) 0) /\
  PD_VDO_CMD (payload (tx_msg snk_running_disc_modes) 0)
  = CMD_DISCOVER_MODES /\
  PD_VDO_VID (payload (tx_msg snk_running_disc_modes) 0) mod 2 ^ 16
  = USB_SID_DISPLAYPORT /\
  staged_with_id snk_running_disc_modes
    (tcpmtest_process_tx_msg_for_snk snk_running_disc_modes) /\
  PD_DP_PIN_CAPS
    (payload (rx_msg (tcpmtest_process_tx_msg_for_snk
                        snk_running_disc_modes)) 1) = 0.
Proof.
  assert (H1 : tx_type snk_running_disc_modes = TCPC_TX_SOP) by reflexivity.
  assert (H2 : pd_header_cnt (header (tx_msg snk_running_disc_modes)) <> 0)
    by (vm_compute; discriminate).
  assert (H3 : data_of (pd_header_type
                          (header (tx_msg snk_running_disc_modes)))
               = Some PD_DATA_VENDOR_DEF) by (vm_compute; reflexivity).
  assert (H4 : svdm_init (payload (tx_msg snk_running_disc_modes) 0))
    by (split; vm_compute; [discriminate | reflexivity]).
  assert (H5 : PD_VDO_CMD (payload (tx_msg snk_running_disc_modes) 0)
               = CMD_DISCOVER_MODES) by (vm_compute; reflexivity).
  assert (H6 : PD_VDO_VID (payload (tx_msg snk_running_disc_modes) 0)
               mod 2 ^ 16 = USB_SID_DISPLAYPORT) by (vm_compute; reflexivity).
  pose proof (proj1 (proj2 (proj2
                (proj2 (snk_vdm_reactions snk_running_disc_modes H1 H2 H3)
                   H4))) H5 H6) as H.
  exact (conj H1 (conj H2 (conj H3 (conj H4 (conj H5 (conj H6
           (conj (proj1 H)
                 (proj2 (proj2 (proj2 (proj2 (proj2 (proj2
                    (proj2 (proj2 H))))))))))))))).
Defined.

(** ** The calls of a pass and of the timeout work *)

Lemma count_calls_app :
  forall p l1 l2,
    count_calls p (l1 ++ l2) = (count_calls p l1 + count_calls p l2)%nat.
Proof.
  intros p l1 l2. unfold count_calls.
  now rewrite filter_app, List.length_app.
Qed.

Lemma count_calls_sm :
  forall p l,
    (forall c, is_sm_call c = true -> p c = false) ->
    forallb is_sm_call l = true ->
    count_calls p l = 0%nat.
Proof.
  intros p l Hp. induction l as [| c l IH]; intro H; [reflexivity |].
  cbn [forallb] in H. apply andb_prop in H. destruct H as [Hc Hl].
  unfold count_calls in *. cbn [filter]. rewrite (Hp c Hc). exact (IH Hl).
Qed.

(** One case per state and per test of the state machine. *)
Ltac sm_cases d Hs :=
  unfold tcpmtest_state_machine, state_machine_switch; cbv zeta;
  rewrite Hs;
  repeat match goal with
         | |- context [if ?c then _ else _] =>
           lazymatch c with
           | context [Z.leb] => fail
           | _ => destruct c eqn:?
           end
         end;
  cbn [fst snd Z.leb Z.compare negb].

(** The state machine makes calls of its own kind only. *)
Lemma state_machine_calls :
  forall d timeout,
    exists l,
      calls (tcpmtest_state_machine d timeout) = calls d ++ l /\
      forallb is_sm_call l = true.
Proof.
  intros d timeout.
  destruct (state d) eqn:Hs; sm_cases d Hs; unfold_mk; proj_simpl;
    first [ exists []; split; [symmetry; apply app_nil_r | reflexivity]
          | eexists; split;
            [rewrite <- ?app_assoc; reflexivity | reflexivity] ].
Qed.

(** Without the timeout flag it latches nothing. *)
Lemma state_machine_flags :
  forall d,
    (mode_set (request d) = false ->
     mode_set (request (tcpmtest_state_machine d false)) = false) /\
    (msg_tx (request d) = false ->
     msg_tx (request (tcpmtest_state_machine d false)) = false) /\
    (vbus_chng (request d) = false ->
     vbus_chng (request (tcpmtest_state_machine d false)) = false).
Proof.
  intro d.
  destruct (state d) eqn:Hs; sm_cases d Hs; unfold_mk; proj_simpl;
    repeat split_and; intro H; first [exact H | reflexivity].
Qed.

Lemma reaction_flags :
  forall d d',
    reaction d d' ->
    (mode_set (request d) = false -> mode_set (request d') = false) /\
    (msg_tx (request d) = false -> msg_tx (request d') = false) /\
    (vbus_chng (request d) = false -> vbus_chng (request d') = false).
Proof.
  intros d d' H. destruct H; unfold tcpmtest_hard_reset; proj_simpl;
    repeat split_and; intro H'; first [exact H' | reflexivity].
Qed.

Lemma event_mode_set_request :
  forall d,
    calls (event_mode_set d) = calls d /\
    mode_set (request (event_mode_set d)) = false /\
    msg_tx (request (event_mode_set d)) = msg_tx (request d) /\
    vbus_chng (request (event_mode_set d)) = vbus_chng (request d).
Proof.
  intro d. destruct (mode_set (request d)) eqn:Hms.
  - rewrite (event_mode_set_result d Hms). proj_simpl.
    repeat split_and; reflexivity.
  - rewrite (event_mode_set_idle d Hms).
    repeat split_and; reflexivity || exact Hms.
Qed.

Lemma event_vbus_chng_request :
  forall d,
    calls (event_vbus_chng d) =
    calls d ++ (if vbus_chng (request d) then [tcpm_vbus_change] else []) /\
    sysfs_mode (event_vbus_chng d) = sysfs_mode d /\
    mode_set (request (event_vbus_chng d)) = mode_set (request d) /\
    msg_tx (request (event_vbus_chng d)) = msg_tx (request d) /\
    vbus_chng (request (event_vbus_chng d)) = false.
Proof.
  intro d. unfold event_vbus_chng.
  destruct (vbus_chng (request d)) eqn:Hv; proj_simpl.
  - repeat split_and; reflexivity.
  - rewrite app_nil_r. repeat split_and; reflexivity || exact Hv.
Qed.

Lemma event_msg_tx_request :
  forall d,
    mode_set (request d) = false ->
    vbus_chng (request d) = false ->
    exists l,
      calls (event_msg_tx d) = calls d ++ l /\
      count_calls is_vbus_change l = 0%nat /\
      count_calls is_pd_receive l = 0%nat /\
      count_calls is_transmit_complete l
      = (if msg_tx (request d) then 1 else 0)%nat /\
      (forall st, In (tcpm_pd_transmit_complete st) l ->
                  st = tx_status_of_mode (sysfs_mode d)) /\
      mode_set (request (event_msg_tx d)) = false /\
      msg_tx (request (event_msg_tx d)) = false /\
      vbus_chng (request (event_msg_tx d)) = false.
Proof.
  intros d Hms Hv. unfold event_msg_tx.
  destruct (msg_tx (request d)) eqn:Htx.
  2:{ exists []. rewrite app_nil_r.
      repeat split_and; try reflexivity; try assumption.
      intros st H. contradiction. }
  cbv zeta.
  assert (Hre : forall d' st,
             reaction (set_msg_tx false d) d' ->
             st = tx_status_of_mode (sysfs_mode d) ->
             exists l,
               calls (log_call (tcpm_pd_transmit_complete st) d')
               = calls d ++ l /\
               count_calls is_vbus_change l = 0%nat /\
               count_calls is_pd_receive l = 0%nat /\
               count_calls is_transmit_complete l = 1%nat /\
               (forall st', In (tcpm_pd_transmit_complete st') l ->
                            st' = tx_status_of_mode (sysfs_mode d)) /\
               mode_set (request (log_call (tcpm_pd_transmit_complete st) d'))
               = false /\
               msg_tx (request (log_call (tcpm_pd_transmit_complete st) d'))
               = false /\
               vbus_chng (request (log_call (tcpm_pd_transmit_complete st) d'))
               = false).
  { intros d' st Hr Hst.
    destruct (reaction_flags _ _ Hr) as (F1 & F2 & F3).
    destruct (reaction_frame _ _ Hr) as (_ & _ & _ & Hc).
    change (calls (set_msg_tx false d)) with (calls d) in Hc.
    assert (Hfl : mode_set (request d') = false /\
                  msg_tx (request d') = false /\
                  vbus_chng (request d') = false).
    { repeat split_and; [apply F1 | apply F2 | apply F3]; proj_simpl;
        reflexivity || assumption. }
    destruct Hc as [Hc | Hc].
    - exists [tcpm_pd_transmit_complete st]. proj_simpl. rewrite Hc.
      repeat split_and; try reflexivity; try apply Hfl.
      intros st' [H | H]; [injection H as <-; exact Hst | contradiction].
    - exists [tcpm_pd_hard_reset; tcpm_pd_transmit_complete st].
      proj_simpl. rewrite Hc, <- app_assoc.
      repeat split_and; try reflexivity; try apply Hfl.
      intros st' [H | [H | H]];
        [discriminate H | injection H as <-; exact Hst | contradiction]. }
  change (sysfs_mode (set_msg_tx false d)) with (sysfs_mode d).
  destruct (sysfs_mode d) eqn:Hm; cbn [testmode_eqb].
  - apply Hre; [apply reaction_none | reflexivity].
  - apply Hre; [ | reflexivity].
    apply (process_snk_reaction
             (VDO_MODE_DP 0 MODE_DP_PIN_C 0 1 MODE_DP_V13 MODE_DP_SNK)).
  - apply Hre; [apply process_src_reaction | reflexivity].
  - apply Hre; [apply reaction_none | reflexivity].
Qed.

(** X16: what one pass of the event work tells the Port Manager.  The
    calls of the pass are appended to those made before.  Among them
    the VBUS change is notified once if a VBUS change was latched and
    not at all otherwise; the completion of a transmission is reported
    once if a transmission was latched and not at all otherwise, with
    success when a sink or a source session is active once the latched
    mode change has been processed, and with failure when none is; no
    message is delivered.  After the pass, no mode change, no
    transmission and no VBUS change is latched any more. *)
Theorem event_work_notifications :
  forall d,
    exists new,
      calls (tcpmtest_event_work d) = calls d ++ new /\
      count_calls is_vbus_change new
      = (if vbus_chng (request d) then 1 else 0)%nat /\
      count_calls is_transmit_complete new
      = (if msg_tx (request d) then 1 else 0)%nat /\
      (forall st,
          In (tcpm_pd_transmit_complete st) new ->
          st = tx_status_of_mode (sysfs_mode (event_mode_set d))) /\
      count_calls is_pd_receive new = 0%nat /\
      received (tcpmtest_event_work d) = received d /\
      mode_set (request (tcpmtest_event_work d)) = false /\
      msg_tx (request (tcpmtest_event_work d)) = false /\
      vbus_chng (request (tcpmtest_event_work d)) = false.
Proof.
  intro d. unfold tcpmtest_event_work. cbv zeta.
  destruct (event_mode_set_request d) as (C1 & M1 & T1 & V1).
  set (d1 := event_mode_set d) in *. clearbody d1.
  destruct (event_vbus_chng_request d1) as (C2 & Mo2 & M2 & T2 & V2).
  rewrite M1 in M2. rewrite T1 in T2. rewrite V1, C1 in C2.
  destruct (event_msg_tx_request (event_vbus_chng d1) M2 V2)
    as (l3 & C3 & N3v & N3r & N3t & S3 & M3 & T3 & V3).
  rewrite T2 in N3t. rewrite Mo2 in S3. rewrite C2 in C3.
  clear C1 M1 T1 V1 C2 M2 T2 V2 Mo2.
  set (d3 := event_msg_tx (event_vbus_chng d1)) in *. clearbody d3.
  destruct (state_machine_calls d3 false) as (l4 & C4 & Hl4).
  destruct (state_machine_flags d3) as (F1 & F2 & F3).
  specialize (F1 M3). specialize (F2 T3). specialize (F3 V3).
  rewrite C3 in C4. clear C3 M3 T3 V3.
  set (d4 := tcpmtest_state_machine d3 false) in *. clearbody d4.
  assert (Hnew : forall l5 d5,
             calls d5 = calls d4 ++ l5 ->
             forallb (fun c => negb (is_vbus_change c) &&
                               negb (is_transmit_complete c) &&
                               negb (is_pd_receive c)) l5 = true ->
             request d5 = request d4 ->
             exists new,
               calls d5 = calls d ++ new /\
               count_calls is_vbus_change new
               = (if vbus_chng (request d) then 1 else 0)%nat /\
               count_calls is_transmit_complete new
               = (if msg_tx (request d) then 1 else 0)%nat /\
               (forall st,
                   In (tcpm_pd_transmit_complete st) new ->
                   st = tx_status_of_mode (sysfs_mode d1)) /\
               count_calls is_pd_receive new = 0%nat /\
               received d5 = received d /\
               mode_set (request d5) = false /\
               msg_tx (request d5) = false /\
               vbus_chng (request d5) = false).
  { intros l5 d5 C5 Hl5 R5.
    assert (Z5 : forall p,
               (forall c, p c = true ->
                          negb (is_vbus_change c) &&
                          negb (is_transmit_complete c) &&
                          negb (is_pd_receive c) = false) ->
               count_calls p l5 = 0%nat).
    { intros p Hp. clear C5. induction l5 as [| c l5 IH]; [reflexivity |].
      cbn [forallb] in Hl5. apply andb_prop in Hl5.
      destruct Hl5 as [Hc Hl5]. unfold count_calls in *. cbn [filter].
      destruct (p c) eqn:E; [rewrite (Hp c E) in Hc; discriminate Hc |].
      exact (IH Hl5). }
    exists ((if vbus_chng (request d) then [tcpm_vbus_change] else [])
            ++ l3 ++ l4 ++ l5).
    unfold received. rewrite C5, C4, R5, <- !app_assoc.
    assert (Z4 : forall p,
               (forall c, is_sm_call c = true -> p c = false) ->
               count_calls p l4 = 0%nat).
    { intros p Hp. exact (count_calls_sm p l4 Hp Hl4). }
    assert (Hv4 : count_calls is_vbus_change l4 = 0%nat)
      by (apply Z4; intros []; cbn; congruence).
    assert (Ht4 : count_calls is_transmit_complete l4 = 0%nat)
      by (apply Z4; intros []; cbn; congruence).
    assert (Hr4 : count_calls is_pd_receive l4 = 0%nat)
      by (apply Z4; intros []; cbn; congruence).
    assert (Hv5 : count_calls is_vbus_change l5 = 0%nat)
      by (apply Z5; intros []; cbn; congruence).
    assert (Ht5 : count_calls is_transmit_complete l5 = 0%nat)
      by (apply Z5; intros []; cbn; congruence).
    assert (Hr5 : count_calls is_pd_receive l5 = 0%nat)
      by (apply Z5; intros []; cbn; congruence).
    assert (Hin4 : forall st, ~ In (tcpm_pd_transmit_complete st) l4).
    { intros st Hin. unfold count_calls in Ht4.
      assert (Hf : In (tcpm_pd_transmit_complete st)
                      (filter is_transmit_complete l4))
        by (apply filter_In; split; [exact Hin | reflexivity]).
      destruct (filter is_transmit_complete l4);
        [contradiction | discriminate Ht4]. }
    assert (Hin5 : forall st, ~ In (tcpm_pd_transmit_complete st) l5).
    { intros st Hin. unfold count_calls in Ht5.
      assert (Hf : In (tcpm_pd_transmit_complete st)
                      (filter is_transmit_complete l5))
        by (apply filter_In; split; [exact Hin | reflexivity]).
      destruct (filter is_transmit_complete l5);
        [contradiction | discriminate Ht5]. }
    split_and; [reflexivity |].
    rewrite !count_calls_app, N3v, N3t, N3r, Hv4, Ht4, Hr4, Hv5, Ht5, Hr5.
    repeat split_and; try assumption.
    - destruct (vbus_chng (request d)); reflexivity.
    - destruct (vbus_chng (request d)), (msg_tx (request d)); reflexivity.
    - intros st Hin. apply in_app_or in Hin. destruct Hin as [Hin | Hin].
      { destruct (vbus_chng (request d)); cbn [In] in Hin;
          [destruct Hin as [Hin | Hin]; [discriminate Hin | contradiction]
          | contradiction]. }
      apply in_app_or in Hin. destruct Hin as [Hin | Hin];
        [exact (S3 st Hin) |].
      apply in_app_or in Hin. destruct Hin as [Hin | Hin];
        [exact (False_ind _ (Hin4 st Hin)) | exact (False_ind _ (Hin5 st Hin))].
    - destruct (vbus_chng (request d)); reflexivity.
    - rewrite flat_map_app.
      assert (Hfm : forall l,
                 count_calls is_pd_receive l = 0%nat ->
                 flat_map (fun c => match c with
                                    | tcpm_pd_receive m => [m]
                                    | _ => []
                                    end) l = []).
      { induction l as [| c l IH]; [reflexivity |]. unfold count_calls.
        cbn [filter flat_map]. destruct c; cbn [is_pd_receive];
          try exact IH. intro H. discriminate H. }
      rewrite (Hfm ((if vbus_chng (request d) then [tcpm_vbus_change]
                     else []) ++ l3 ++ l4 ++ l5)); [apply app_nil_r |].
      rewrite !count_calls_app, N3r, Hr4, Hr5.
      destruct (vbus_chng (request d)); reflexivity. }
  destruct (msg_rx (request d4)).
  - apply (Hnew [mod_delayed_work_tmo SRC_RESP_DELAY]); reflexivity.
  - apply (Hnew []); [symmetry; apply app_nil_r | reflexivity | reflexivity].
Qed.

Lemma state_machine_delay :
  forall d timeout,
    delay (tcpmtest_state_machine d timeout) =
    if simstate_eqb (state d) SSTATE_SRC_START then 5 else delay d.
Proof.
  intros d timeout.
  destruct (state d) eqn:Hs; cbn [simstate_eqb]; sm_cases d Hs; unfold_mk;
    proj_simpl; reflexivity.
Qed.

(** X17: what the timeout work does when it returns.  If a message is
    staged it is delivered to the Port Manager, once, as the first call
    of the run, and it is the staged message; if none is staged nothing
    is delivered.  The calls that follow are those of the state machine:
    the timeout work reports neither a VBUS change nor the completion of
    a transmission and does not queue the event work.  It leaves the
    recorded delay at 0, except that a source session it starts is left
    with the 5 ms of the VBUS wait. *)
Theorem tmo_work_delivery :
  forall d d',
    tcpmtest_tmo_work d = Some d' ->
    exists l,
      calls d' =
      calls d
      ++ (if msg_rx (request d) then [tcpm_pd_receive (rx_msg d)] else [])
      ++ l /\
      forallb is_sm_call l = true /\
      received d' =
      received d ++ (if msg_rx (request d) then [rx_msg d] else []) /\
      delay d' = (if simstate_eqb (state d) SSTATE_SRC_START then 5 else 0).
Proof.
  intros d d' H. unfold tcpmtest_tmo_work in H. cbv zeta in H.
  assert (Hd : forall d3 pre,
             calls d3 = calls d ++ pre ->
             state d3 = state d ->
             flat_map (fun c => match c with
                                | tcpm_pd_receive m => [m]
                                | _ => []
                                end) pre
             = (if msg_rx (request d) then [rx_msg d] else []) ->
             Some (tcpmtest_state_machine (set_delay 0 d3) true) = Some d' ->
             exists l,
               calls d' = calls d ++ pre ++ l /\
               forallb is_sm_call l = true /\
               received d' =
               received d ++ (if msg_rx (request d) then [rx_msg d] else []) /\
               delay d' =
               (if simstate_eqb (state d) SSTATE_SRC_START then 5 else 0)).
  { intros d3 pre C3 S3 R3 E. injection E as <-.
    destruct (state_machine_calls (set_delay 0 d3) true) as (l & Cl & Hl).
    change (calls (set_delay 0 d3)) with (calls d3) in Cl.
    exists l. rewrite state_machine_delay. unfold received.
    rewrite Cl, C3, <- app_assoc, !flat_map_app, R3.
    change (state (set_delay 0 d3)) with (state d3). rewrite S3.
    repeat split_and; try reflexivity; try assumption.
    assert (Hfm : flat_map (fun c => match c with
                                     | tcpm_pd_receive m => [m]
                                     | _ => []
                                     end) l = []).
    { clear Cl. induction l as [| c l IH]; [reflexivity |].
      cbn [forallb] in Hl. apply andb_prop in Hl. destruct Hl as [Hc Hl].
      cbn [flat_map]. rewrite (IH Hl).
      destruct c; try reflexivity; discriminate Hc. }
    rewrite Hfm, app_nil_r. reflexivity. }
  destruct (msg_rx (request d)) eqn:Hrx.
  - destruct (tcpmtest_log_msg (set_msg_rx false d) TCPC_TX_SOP
                (Some (rx_msg (set_msg_rx false d)))) as [d2 |] eqn:E;
      [ | discriminate H].
    apply log_msg_frame in E. destruct E as [a ->].
    refine (Hd _ [tcpm_pd_receive (rx_msg d)] _ _ _ H); reflexivity.
  - destruct (Hd d [] (eq_sym (app_nil_r _)) eq_refl eq_refl H)
      as (l & Cl & Hl & Hr & Hdl).
    exists l. repeat split_and; assumption.
Qed.

Lemma tmo_work_delivery_witness :
  tcpmtest_tmo_work src_caps_pending = Some (tmo_work_or src_caps_pending) /\
  msg_rx (request src_caps_pending) = true /\
  exists l,
    calls (tmo_work_or src_caps_pending) =
    calls src_caps_pending
    ++ (if msg_rx (request src_caps_pending)
        then [tcpm_pd_receive (rx_msg src_caps_pending)] else [])
    ++ l /\
    forallb is_sm_call l = true /\
    received (tmo_work_or src_caps_pending) =
    received src_caps_pending
    ++ (if msg_rx (request src_caps_pending)
        then [rx_msg src_caps_pending] else []) /\
    delay (tmo_work_or src_caps_pending) =
    (if simstate_eqb (state src_caps_pending) SSTATE_SRC_START
     then 5 else 0).
Proof.
  assert (H : tcpmtest_tmo_work src_caps_pending
              = Some (tmo_work_or src_caps_pending))
    by (vm_compute; reflexivity).
  assert (H' : msg_rx (request src_caps_pending) = true)
    by (vm_compute; reflexivity).
  exact (conj H (conj H' (tmo_work_delivery src_caps_pending
                            (tmo_work_or src_caps_pending) H))).
Defined.

(** ** The calls of the Port Manager into the facade *)

(** X21: no call of the Port Manager into the facade calls back into
    the Port Manager: the only call such an operation makes is to queue
    the event work, at most once.  Nor does it touch the session: the
    active mode, the state, the CC lines, the message-ID counter, the
    staged message and its delivery flag are as before.  What the
    simulator tells the Port Manager, it tells from its two work
    items. *)
Theorem facade_call_frame :
  forall d d',
    facade_call d d' ->
    (calls d' = calls d \/ calls d' = calls d ++ [queue_work_event]) /\
    sysfs_mode d' = sysfs_mode d /\
    state d' = state d /\
    tcpmtest_get_cc d' = tcpmtest_get_cc d /\
    rx_id d' = rx_id d /\
    rx_msg d' = rx_msg d /\
    msg_rx (request d') = msg_rx (request d).
Proof.
  intros d d' H. unfold tcpmtest_get_cc.
  assert (Hsame : (calls d = calls d \/
                   calls d = calls d ++ [queue_work_event]) /\
                  sysfs_mode d = sysfs_mode d /\ state d = state d /\
                  (cc1_status d, cc2_status d)
                  = (cc1_status d, cc2_status d) /\
                  rx_id d = rx_id d /\ rx_msg d = rx_msg d /\
                  msg_rx (request d) = msg_rx (request d))
    by (repeat split_and; try reflexivity; left; reflexivity).
  destruct H as [d | d cc | d cc | d pol | d enable | d attached pr dr
                 | d enable | d source sink | d type msg d' H];
    try exact Hsame.
  - unfold tcpmtest_set_pd_rx. destruct (negb _); [ | exact Hsame].
    repeat split_and; try reflexivity. right; reflexivity.
  - unfold tcpmtest_set_vbus. cbv zeta. destruct (negb _); [ | exact Hsame].
    repeat split_and; try reflexivity. right; reflexivity.
  - unfold tcpmtest_pd_transmit in H.
    destruct (tcpmtest_log_msg d type msg) as [d1 |] eqn:E;
      [ | discriminate H].
    apply log_msg_frame in E. destruct E as [a ->].
    injection H as <-.
    destruct msg; repeat split_and; try reflexivity; right; reflexivity.
Qed.

Lemma facade_call_frame_witness :
  facade_call src_running (tcpmtest_set_vbus src_running false false) /\
  calls (tcpmtest_set_vbus src_running false false)
  = calls src_running ++ [queue_work_event] /\
  state (tcpmtest_set_vbus src_running false false) = state src_running /\
  tcpmtest_get_cc (tcpmtest_set_vbus src_running false false)
  = tcpmtest_get_cc src_running.
Proof.
  pose proof (facade_call_frame src_running
                (tcpmtest_set_vbus src_running false false)
                (call_set_vbus src_running false false)) as H.
  exact (conj (call_set_vbus src_running false false)
           (conj eq_refl
              (conj (proj1 (proj2 (proj2 H)))
                    (proj1 (proj2 (proj2 (proj2 H))))))).
Defined.

(** ** The TI HD3SS460 mux driver *)

Section Hd3ss460_properties.

Import Hd3ss460.

Variable mux_mode_val : typec_mux_mode -> Z.
Variable gpiod_ret : gpio_op -> Z.

Lemma gpiod_then_success :
  forall first second,
    fst (gpiod_then gpiod_ret first second) = 0 ->
    snd (gpiod_then gpiod_ret first second) = [first; second] /\
    gpiod_ret first = 0 /\ gpiod_ret second = 0.
Proof.
  intros first second. unfold gpiod_then.
  destruct (Z.eqb_spec (gpiod_ret first) 0) as [E | E]; cbn [fst snd].
  - intro H. repeat split_and; [reflexivity | exact E | exact H].
  - intro H. contradiction.
Qed.

(** X18: when [tihd3ss460_mux_set] returns 0, it has issued the complete
    sequence of GPIO operations of the mode asked for, with
    [TYPEC_MUX_DEFAULT] replaced by the default mode of the device, every
    one of these operations has returned 0, and, unless the mode
    disables the mux, the hardware supports it.  Two successful calls
    that issue the same operations were for the same mode, if that
    mode connects anything: the line settings tell the modes apart. *)
Theorem mux_set_success :
  forall hdp mode,
    fst (tihd3ss460_mux_set mux_mode_val gpiod_ret hdp mode) = 0 ->
    snd (tihd3ss460_mux_set mux_mode_val gpiod_ret hdp mode)
    = mode_ops (resolved_mode hdp mode) /\
    Forall (fun o => gpiod_ret o = 0) (mode_ops (resolved_mode hdp mode)) /\
    (connects (resolved_mode hdp mode) = true ->
     mode_supported mux_mode_val hdp (resolved_mode hdp mode) = true) /\
    (forall mode',
        fst (tihd3ss460_mux_set mux_mode_val gpiod_ret hdp mode') = 0 ->
        snd (tihd3ss460_mux_set mux_mode_val gpiod_ret hdp mode')
        = snd (tihd3ss460_mux_set mux_mode_val gpiod_ret hdp mode) ->
        connects (resolved_mode hdp mode) = true ->
        resolved_mode hdp mode' = resolved_mode hdp mode).
Proof.
  assert (Hone : forall hdp mode,
             fst (tihd3ss460_mux_set mux_mode_val gpiod_ret hdp mode) = 0 ->
             snd (tihd3ss460_mux_set mux_mode_val gpiod_ret hdp mode)
             = mode_ops (resolved_mode hdp mode) /\
             Forall (fun o => gpiod_ret o = 0)
                    (mode_ops (resolved_mode hdp mode)) /\
             (connects (resolved_mode hdp mode) = true ->
              mode_supported mux_mode_val hdp (resolved_mode hdp mode)
              = true)).
  { intros hdp mode. unfold tihd3ss460_mux_set. cbv zeta.
    fold (resolved_mode hdp mode).
    destruct (resolved_mode hdp mode); cbn [mode_ops connects];
      try (unfold gpiod; cbn [fst snd]; intro H;
           repeat split_and;
           [reflexivity | repeat constructor; exact H | discriminate]);
      match goal with
      | |- context [mode_supported mux_mode_val hdp ?m] =>
        destruct (mode_supported mux_mode_val hdp m);
          [ | cbn [fst]; unfold EINVAL; intro H; discriminate H]
      end;
      intro H; apply gpiod_then_success in H;
      destruct H as (Hs & H1 & H2);
      (repeat split_and;
       [exact Hs | repeat constructor; assumption | reflexivity]). }
  intros hdp mode H.
  destruct (Hone hdp mode H) as (Hops & Hall & Hsup).
  repeat split_and; try assumption.
  intros mode' H' Heq Hc.
  destruct (Hone hdp mode' H') as (Hops' & _ & _).
  rewrite Hops, Hops' in Heq.
  destruct (resolved_mode hdp mode), (resolved_mode hdp mode');
    try discriminate Hc; try discriminate Heq; reflexivity.
Qed.

(** X19: the GPIO operations of the mux driver.  Whatever the lines
    return, the operations [tihd3ss460_mux_set] issues are an initial
    part of the sequence of the mode asked for, and none of them is on
    the polarity line; a mode that connects something and that the
    hardware does not support is refused with [-EINVAL] before any
    operation.  [tihd3ss460_sw_set] issues one operation and returns
    its value: the enable line driven low for no orientation, the
    polarity line driven low or high for the normal or the reversed
    orientation; it never touches the mode-select line. *)
Theorem driver_gpio_ops :
  (forall hdp mode,
      exists n,
        snd (tihd3ss460_mux_set mux_mode_val gpiod_ret hdp mode)
        = firstn n (mode_ops (resolved_mode hdp mode))) /\
  (forall hdp mode o,
      In o (snd (tihd3ss460_mux_set mux_mode_val gpiod_ret hdp mode)) ->
      op_gpio o <> pol_gpio) /\
  (forall hdp mode,
      connects (resolved_mode hdp mode) = true ->
      mode_supported mux_mode_val hdp (resolved_mode hdp mode) = false ->
      tihd3ss460_mux_set mux_mode_val gpiod_ret hdp mode = (- EINVAL, [])) /\
  (forall orientation,
      tihd3ss460_sw_set gpiod_ret orientation
      = (gpiod_ret (gpiod_direction_output
                      (match orientation with
                       | TYPEC_ORIENTATION_NONE => en_gpio
                       | _ => pol_gpio
                       end)
                      (match orientation with
                       | TYPEC_ORIENTATION_REVERSE => 1
                       | _ => 0
                       end)),
         [gpiod_direction_output
            (match orientation with
             | TYPEC_ORIENTATION_NONE => en_gpio
             | _ => pol_gpio
             end)
            (match orientation with
             | TYPEC_ORIENTATION_REVERSE => 1
             | _ => 0
             end)])).
Proof.
  assert (Hpre : forall hdp mode,
             exists n,
               snd (tihd3ss460_mux_set mux_mode_val gpiod_ret hdp mode)
               = firstn n (mode_ops (resolved_mode hdp mode))).
  { intros hdp mode. unfold tihd3ss460_mux_set. cbv zeta.
    fold (resolved_mode hdp mode).
    destruct (resolved_mode hdp mode); cbn [mode_ops];
      try (exists 1%nat; reflexivity);
      match goal with
      | |- context [mode_supported mux_mode_val hdp ?m] =>
        destruct (mode_supported mux_mode_val hdp m);
          [ | exists 0%nat; reflexivity]
      end;
      unfold gpiod_then;
      match goal with
      | |- context [if ?c then _ else _] => destruct c
      end; [exists 2%nat | exists 1%nat | exists 2%nat | exists 1%nat
            | exists 2%nat | exists 1%nat | exists 2%nat | exists 1%nat];
      reflexivity. }
  repeat split_and.
  - exact Hpre.
  - intros hdp mode o Hin. destruct (Hpre hdp mode) as [n Hn].
    rewrite Hn in Hin.
    destruct (resolved_mode hdp mode), n as [| [| [| n]]];
      cbn [mode_ops firstn In] in Hin;
      repeat (destruct Hin as [Hin | Hin]; [subst o; discriminate |]);
      contradiction.
  - intros hdp mode Hc Hs. unfold tihd3ss460_mux_set. cbv zeta.
    fold (resolved_mode hdp mode).
    destruct (resolved_mode hdp mode); try discriminate Hc;
      rewrite Hs; reflexivity.
  - intros []; reflexivity.
Qed.

(** *** The modes the probe declares supported *)

Lemma land_bit :
  forall a n,
    0 <= n ->
    (Z.land a (Z.shiftl 1 n) =? 0) = negb (Z.testbit a n).
Proof.
  intros a n Hn. rewrite Z.shiftl_1_l.
  destruct (Z.testbit a n) eqn:Hb; cbn [negb].
  - apply Z.eqb_neq. intro H.
    assert (Hc : Z.testbit (Z.land a (2 ^ n)) n = false)
      by (rewrite H; apply Z.bits_0).
    rewrite Z.land_spec, Hb, Z.pow2_bits_true in Hc by exact Hn.
    discriminate Hc.
  - apply Z.eqb_eq. apply Z.bits_inj'. intros k Hk.
    rewrite Z.land_spec, Z.bits_0, Z.pow2_bits_eqb by exact Hn.
    destruct (Z.eqb_spec n k) as [<- | Hne];
      [rewrite Hb; reflexivity | apply andb_false_r].
Qed.

Lemma mode_supported_bit :
  forall ms d mode,
    0 <= mux_mode_val mode ->
    mode_supported mux_mode_val (mk_hdp d ms) mode
    = Z.testbit ms (mux_mode_val mode).
Proof.
  intros ms d mode H. unfold mode_supported. cbn [mode_support].
  rewrite land_bit by exact H. apply negb_involutive.
Qed.

Lemma u8_lor_bit :
  forall a n k,
    0 <= n < 8 -> 0 <= k < 8 ->
    Z.testbit (u8 (Z.lor a (Z.shiftl 1 n))) k
    = Z.testbit a k || (n =? k).
Proof.
  intros a n k Hn Hk. unfold u8.
  rewrite Z.mod_pow2_bits_low by lia.
  rewrite Z.lor_spec, Z.shiftl_1_l, Z.pow2_bits_eqb by lia. reflexivity.
Qed.

Lemma u8_ones_bit :
  forall k, 0 <= k < 8 -> Z.testbit (u8 (-1)) k = true.
Proof.
  intros k Hk. change (u8 (-1)) with (Z.ones 8).
  apply Z.ones_spec_low. lia.
Qed.

(** X20: the set of supported modes the probe computes, for mode
    constants that are distinct bit positions of a [u8].  If the device
    names none of the three properties have-2ch-usbss, have-4ch-am and
    have-2ch-usbss-2ch-am, all four connecting modes are supported.
    If it names at least one, each of the three modes is supported
    exactly when its property is named, and the fourth connecting mode,
    [TYPEC_MUX_2CH_USBSS_2CH_AM_B], is never supported: a request for
    it is refused with [-EINVAL] before any GPIO operation. *)
Theorem probe_mode_support_modes :
  forall have_2ch_usbss have_4ch_am have_2ch_usbss_2ch_am d,
    (forall m, 0 <= mux_mode_val m < 8) ->
    (forall m1 m2, mux_mode_val m1 = mux_mode_val m2 -> m1 = m2) ->
    let hdp := mk_hdp d (probe_mode_support mux_mode_val have_2ch_usbss
                           have_4ch_am have_2ch_usbss_2ch_am) in
    (have_2ch_usbss || have_4ch_am || have_2ch_usbss_2ch_am = false ->
     forall m, mode_supported mux_mode_val hdp m = true) /\
    (have_2ch_usbss || have_4ch_am || have_2ch_usbss_2ch_am = true ->
     mode_supported mux_mode_val hdp TYPEC_MUX_2CH_USBSS = have_2ch_usbss /\
     mode_supported mux_mode_val hdp TYPEC_MUX_4CH_AM = have_4ch_am /\
     mode_supported mux_mode_val hdp TYPEC_MUX_2CH_USBSS_2CH_AM
     = have_2ch_usbss_2ch_am /\
     mode_supported mux_mode_val hdp TYPEC_MUX_2CH_USBSS_2CH_AM_B = false /\
     tihd3ss460_mux_set mux_mode_val gpiod_ret hdp
       TYPEC_MUX_2CH_USBSS_2CH_AM_B = (- EINVAL, [])).
Proof.
  intros h1 h2 h3 d Hrange Hinj hdp. subst hdp.
  assert (Hneq : forall m1 m2,
             m1 <> m2 -> (mux_mode_val m1 =? mux_mode_val m2) = false).
  { intros m1 m2 Hne. apply Z.eqb_neq. intro E. exact (Hne (Hinj _ _ E)). }
  assert (Hbits : forall m,
             Z.testbit (probe_mode_support mux_mode_val h1 h2 h3)
                       (mux_mode_val m)
             = if h1 || h2 || h3
               then (h1 && (mux_mode_val TYPEC_MUX_2CH_USBSS
                            =? mux_mode_val m))
                    || (h2 && (mux_mode_val TYPEC_MUX_4CH_AM
                               =? mux_mode_val m))
                    || (h3 && (mux_mode_val TYPEC_MUX_2CH_USBSS_2CH_AM
                               =? mux_mode_val m))
               else true).
  { intro m. unfold probe_mode_support. cbv zeta.
    pose proof (Hrange m) as Hm.
    pose proof (Hrange TYPEC_MUX_2CH_USBSS) as R1.
    pose proof (Hrange TYPEC_MUX_4CH_AM) as R2.
    pose proof (Hrange TYPEC_MUX_2CH_USBSS_2CH_AM) as R3.
    assert (Hnz : forall a n, 0 <= n < 8 ->
                    (u8 (Z.lor a (Z.shiftl 1 n)) =? 0) = false).
    { intros a n Hn. apply Z.eqb_neq. intro E.
      pose proof (u8_lor_bit a n n Hn Hn) as Hb.
      rewrite E, Z.bits_0, Z.eqb_refl, orb_true_r in Hb. discriminate Hb. }
    destruct h1, h2, h3; cbn [orb andb];
      rewrite ?Hnz by assumption;
      rewrite ?u8_lor_bit by assumption;
      rewrite ?Z.bits_0;
      try (change (0 =? 0) with true; cbv iota);
      first [ apply u8_ones_bit; exact Hm
            | repeat match goal with
                     | |- context [?a =? ?b] => destruct (a =? b)
                     end; reflexivity ]. }
  split.
  - intros Hnone m. rewrite mode_supported_bit by apply Hrange.
    rewrite Hbits, Hnone. reflexivity.
  - intro Hsome.
    assert (HB : mode_supported mux_mode_val
                   (mk_hdp d (probe_mode_support mux_mode_val h1 h2 h3))
                   TYPEC_MUX_2CH_USBSS_2CH_AM_B = false).
    { rewrite mode_supported_bit by apply Hrange.
      rewrite Hbits, Hsome, !Hneq by discriminate.
      now rewrite !andb_false_r. }
    repeat split_and.
    + rewrite mode_supported_bit by apply Hrange.
      rewrite Hbits, Hsome, Z.eqb_refl, !Hneq by discriminate.
      now rewrite !andb_false_r, !orb_false_r, andb_true_r.
    + rewrite mode_supported_bit by apply Hrange.
      rewrite Hbits, Hsome, Z.eqb_refl, !Hneq by discriminate.
      now rewrite !andb_false_r, !orb_false_r, andb_true_r.
    + rewrite mode_supported_bit by apply Hrange.
      rewrite Hbits, Hsome, Z.eqb_refl, !Hneq by discriminate.
      now rewrite !andb_false_r, andb_true_r.
    + exact HB.
    + unfold tihd3ss460_mux_set. cbv zeta.
      cbn [typec_mux_mode_eqb]. rewrite HB. reflexivity.
Qed.

End Hd3ss460_properties.

Lemma mux_set_success_witness :
  fst (Hd3ss460.tihd3ss460_mux_set Hd3ss460.mux_mode_val_in_order
         Hd3ss460.gpiod_ok
         (Hd3ss460.mk_hdp Hd3ss460.TYPEC_MUX_4CH_AM 255)
         Hd3ss460.TYPEC_MUX_DEFAULT) = 0 /\
  snd (Hd3ss460.tihd3ss460_mux_set Hd3ss460.mux_mode_val_in_order
         Hd3ss460.gpiod_ok
         (Hd3ss460.mk_hdp Hd3ss460.TYPEC_MUX_4CH_AM 255)
         Hd3ss460.TYPEC_MUX_DEFAULT)
  = [Hd3ss460.gpiod_direction_output Hd3ss460.amsel_gpio 1;
     Hd3ss460.gpiod_direction_output Hd3ss460.en_gpio 1].
Proof.
  exact (conj eq_refl
           (proj1 (mux_set_success Hd3ss460.mux_mode_val_in_order
                     Hd3ss460.gpiod_ok
                     (Hd3ss460.mk_hdp Hd3ss460.TYPEC_MUX_4CH_AM 255)
                     Hd3ss460.TYPEC_MUX_DEFAULT eq_refl))).
Defined.

Lemma probe_mode_support_modes_witness :
  (forall m, 0 <= Hd3ss460.mux_mode_val_in_order m < 8) /\
  (forall m1 m2,
      Hd3ss460.mux_mode_val_in_order m1 = Hd3ss460.mux_mode_val_in_order m2 ->
      m1 = m2) /\
  Hd3ss460.tihd3ss460_mux_set Hd3ss460.mux_mode_val_in_order
    Hd3ss460.gpiod_ok
    (Hd3ss460.mk_hdp Hd3ss460.TYPEC_MUX_2CH_USBSS
       (Hd3ss460.probe_mode_support Hd3ss460.mux_mode_val_in_order
          true false false))
    Hd3ss460.TYPEC_MUX_2CH_USBSS_2CH_AM_B = (- EINVAL, []).
Proof.
  assert (H1 : forall m, 0 <= Hd3ss460.mux_mode_val_in_order m < 8)
    by (intros []; cbn; lia).
  assert (H2 : forall m1 m2,
             Hd3ss460.mux_mode_val_in_order m1
             = Hd3ss460.mux_mode_val_in_order m2 -> m1 = m2)
    by (intros [] []; cbn; intro H; reflexivity || discriminate H).
  refine (conj H1 (conj H2 _)).
  exact (proj2 (proj2 (proj2 (proj2
           (proj2 (probe_mode_support_modes
                     Hd3ss460.mux_mode_val_in_order Hd3ss460.gpiod_ok
                     true false false Hd3ss460.TYPEC_MUX_2CH_USBSS H1 H2)
              eq_refl))))).
Defined.
